(** * S1000D smart processor: heading classifier, section assembler and
      merger, text normaliser and enrichment heuristics

    A shallow embedding of [src/s1000d_smart_processor.py] (class
    [S1000DSmartProcessor]) and the properties its specification states
    about it.

    Python strings are sequences of Unicode code points: a character is a
    code point ([N]) and a string a list of them.  The character tables
    ([str.upper], [str.lower], [str.isupper], [str.isdigit], the regular
    expression classes [\s], [\d] and [\w]) are written out for ASCII, for
    the Turkish letters the source names and for every Unicode white-space
    character; any other code point is an uncased symbol that is neither a
    digit nor a word character. *)

From Stdlib Require Import String Ascii.
From Stdlib Require Decimal DecimalNat.
From Stdlib Require Import List NArith ZArith Bool Arith Lia Sorted.
Import ListNotations.
Open Scope string_scope.
Open Scope list_scope.
Open Scope nat_scope.

(** ** Characters and strings *)

Definition char := N.
Definition str := list char.

(** A string literal of the source, as code points. *)
Definition py (s : string) : str := map N_of_ascii (list_ascii_of_string s).

(** The code point of an ASCII character of the source. *)
Definition ord (a : ascii) : char := N_of_ascii a.

Definition nl : char := 10%N.
Definition cr : char := 13%N.
Definition sp : char := 32%N.

Definition between (lo hi c : N) : bool := (lo <=? c)%N && (c <=? hi)%N.

Definition mem_char (c : char) (l : list char) : bool := existsb (N.eqb c) l.

(** [Py_UNICODE_ISSPACE]: shared by [str.strip], [str.split] and [\s]. *)
Definition is_space (c : char) : bool :=
  between 9 13 c || between 28 32 c || between 8192 8202 c ||
  mem_char c [133; 160; 5760; 8232; 8233; 8239; 8287; 12288]%N.

Definition is_digit (c : char) : bool := between 48 57 c.
Definition is_AZ (c : char) : bool := between 65 90 c.
Definition is_az (c : char) : bool := between 97 122 c.

(** Upper-case letters: A-Z and the capitals C-cedilla (199), O-umlaut (214),
    U-umlaut (220), G-breve (286), dotted I (304), S-cedilla (350). *)
Definition upper_tr : list char := [199; 214; 220; 286; 304; 350]%N.
(** Lower-case letters: a-z and c-cedilla (231), o-umlaut (246),
    u-umlaut (252), g-breve (287), dotless i (305), s-cedilla (351). *)
Definition lower_tr : list char := [231; 246; 252; 287; 305; 351]%N.

Definition is_upper_char (c : char) : bool := is_AZ c || mem_char c upper_tr.
Definition is_lower_char (c : char) : bool := is_az c || mem_char c lower_tr.
Definition is_alpha (c : char) : bool := is_upper_char c || is_lower_char c.
Definition is_word (c : char) : bool := is_alpha c || is_digit c || (c =? 95)%N.

(** [str.upper] on one character; dotless i goes to plain I. *)
Definition upper_char (c : char) : char :=
  if is_az c then (c - 32)%N
  else if (c =? 231)%N then 199%N
  else if (c =? 246)%N then 214%N
  else if (c =? 252)%N then 220%N
  else if (c =? 287)%N then 286%N
  else if (c =? 305)%N then 73%N
  else if (c =? 351)%N then 350%N
  else c.

(** [str.lower] on one character; dotted capital I goes to i followed by the
    combining dot (775). *)
Definition lower_char (c : char) : str :=
  if is_AZ c then [(c + 32)%N]
  else if (c =? 199)%N then [231%N]
  else if (c =? 214)%N then [246%N]
  else if (c =? 220)%N then [252%N]
  else if (c =? 286)%N then [287%N]
  else if (c =? 304)%N then [105%N; 775%N]
  else if (c =? 350)%N then [351%N]
  else [c].

Definition upper (s : str) : str := map upper_char s.
Definition lower (s : str) : str := flat_map lower_char s.

(** [str.isupper]: at least one cased character and no lower-case one. *)
Definition isupper (s : str) : bool :=
  existsb is_upper_char s && negb (existsb is_lower_char s).

(** [str.isdigit]: non-empty and only digits. *)
Definition isdigit (s : str) : bool :=
  match s with [] => false | _ => forallb is_digit s end.

Definition str_eqb (a b : str) : bool :=
  if list_eq_dec N.eq_dec a b then true else false.

Fixpoint startswith (p s : str) : bool :=
  match p, s with
  | [], _ => true
  | _ :: _, [] => false
  | a :: p', b :: s' => (a =? b)%N && startswith p' s'
  end.

(** [sub in s]. *)
Fixpoint contains (sub s : str) : bool :=
  startswith sub s ||
  match s with
  | [] => false
  | _ :: t => contains sub t
  end.

Fixpoint lstrip (s : str) : str :=
  match s with
  | [] => []
  | c :: t => if is_space c then lstrip t else s
  end.

Definition rstrip (s : str) : str := rev (lstrip (rev s)).
Definition strip (s : str) : str := rstrip (lstrip s).

(** [s.split()]: the maximal runs of characters that are not white space. *)
Fixpoint split_ws_from (cur : str) (s : str) : list str :=
  match s with
  | [] => match cur with [] => [] | _ => [cur] end
  | c :: t =>
      if is_space c
      then match cur with
           | [] => split_ws_from [] t
           | _ => cur :: split_ws_from [] t
           end
      else split_ws_from (cur ++ [c]) t
  end.

Definition split_ws (s : str) : list str := split_ws_from [] s.

(** [s.split(sep)] for a one-character separator: empty pieces are kept. *)
Fixpoint split_on_from (sep : char) (cur : str) (s : str) : list str :=
  match s with
  | [] => [cur]
  | c :: t =>
      if (c =? sep)%N then cur :: split_on_from sep [] t
      else split_on_from sep (cur ++ [c]) t
  end.

Definition split_on (sep : char) (s : str) : list str := split_on_from sep [] s.

(** [sep.join(l)]. *)
Fixpoint join (sep : str) (l : list str) : str :=
  match l with
  | [] => []
  | x :: t => match t with [] => x | _ => x ++ sep ++ join sep t end
  end.

(** [s.replace(old, new)] for a non-empty [old]: leftmost occurrences that
    do not overlap.  [skip] counts the characters of the occurrence just
    replaced that are still to be passed over. *)
Fixpoint replace_from (old new : str) (skip : nat) (s : str) : str :=
  match s with
  | [] => []
  | c :: t =>
      match skip with
      | S k => replace_from old new k t
      | O =>
          if startswith old s
          then new ++ replace_from old new (length old - 1) t
          else c :: replace_from old new 0 t
      end
  end.

Definition replace (old new s : str) : str := replace_from old new 0 s.

(** [int(s)] in base ten: surrounding white space, an optional sign, digits
    with single underscores between them; [None] stands for [ValueError]. *)
Fixpoint int_digits (acc : Z) (after_digit : bool) (s : str) : option Z :=
  match s with
  | [] => if after_digit then Some acc else None
  | c :: t =>
      if is_digit c then int_digits (10 * acc + Z.of_N (c - 48)) true t
      else if (c =? 95)%N && after_digit then
             match t with
             | [] => None
             | _ => int_digits acc false t
             end
      else None
  end.

Definition py_int (s : str) : option Z :=
  match strip s with
  | 45%N :: t => option_map Z.opp (int_digits 0 false t)
  | 43%N :: t => int_digits 0 false t
  | t => int_digits 0 false t
  end.

(** ** Regular expressions

    The fragment of [re] the source uses: literals, classes, sequence,
    alternation, greedy repetition and [$].  [bt] is the backtracking
    matcher: alternatives are tried left to right, a repetition takes as
    many iterations as it can before giving one back, and the first
    success is the match, which is what [re] reports. *)

Inductive regex : Type :=
| Eps : regex
| Chr : (char -> bool) -> regex
| Cat : regex -> regex -> regex
| Alt : regex -> regex -> regex
| Star : regex -> regex
| Eol : regex.

Definition at_eol (s : str) : bool :=
  match s with
  | [] => true
  | [c] => (c =? nl)%N
  | _ => false
  end.

Fixpoint bt (r : regex) (s : str) (k : str -> option str) {struct r}
  : option str :=
  match r with
  | Eps => k s
  | Chr p => match s with
             | c :: t => if p c then k t else None
             | [] => None
             end
  | Cat a b => bt a s (fun s' => bt b s' k)
  | Alt a b => match bt a s k with
               | Some x => Some x
               | None => bt b s k
               end
  | Star a =>
      (fix loop (fuel : nat) (s : str) {struct fuel} : option str :=
         match fuel with
         | O => k s
         | S fuel' =>
             match bt a s (fun s' =>
                             if (length s' <? length s)%nat
                             then loop fuel' s' else None) with
             | Some x => Some x
             | None => k s
             end
         end) (length s) s
  | Eol => if at_eol s then k s else None
  end.

(** The text left after the match of [r] at the start of [s]. *)
Definition re_rest (r : regex) (s : str) : option str := bt r s (@Some str).

(** Length of the match of [r] at the start of [s]. *)
Definition match_len (r : regex) (s : str) : option nat :=
  option_map (fun rest => length s - length rest)%nat (re_rest r s).

(** [re.match(r, s)] as a truth value. *)
Definition re_match (r : regex) (s : str) : bool :=
  match re_rest r s with Some _ => true | None => false end.

(** [re.search(r, s)] as a truth value. *)
Fixpoint re_search (r : regex) (s : str) : bool :=
  re_match r s ||
  match s with
  | [] => false
  | _ :: t => re_search r t
  end.

(** Pattern constructors. *)
Definition Ch (c : char) : regex := Chr (N.eqb c).
Definition Lit (s : string) : regex :=
  fold_right (fun c r => Cat (Ch c) r) Eps (py s).
Definition Plus (r : regex) : regex := Cat r (Star r).
Definition Opt (r : regex) : regex := Alt r Eps.
Fixpoint Rep (n : nat) (r : regex) : regex :=
  match n with
  | O => Eps
  | S n' => Cat r (Rep n' r)
  end.
Definition AtLeast (n : nat) (r : regex) : regex := Cat (Rep n r) (Star r).
Definition Alts (l : list regex) : regex :=
  match l with
  | [] => Eps
  | r :: t => fold_left Alt t r
  end.
Definition Seq (l : list regex) : regex := fold_right Cat Eps l.

Definition cls_s : regex := Chr is_space.
Definition cls_d : regex := Chr is_digit.
Definition cls_w : regex := Chr is_word.
Definition cls_AZ : regex := Chr is_AZ.
Definition cls_az : regex := Chr is_az.

(** [re.sub(r, repl, s)] for a pattern whose matches are never empty. *)
Fixpoint re_sub_from (r : regex) (repl : str) (skip : nat) (s : str) : str :=
  match s with
  | [] => []
  | c :: t =>
      match skip with
      | S k => re_sub_from r repl k t
      | O =>
          match match_len r s with
          | Some (S n) => repl ++ re_sub_from r repl n t
          | _ => c :: re_sub_from r repl 0 t
          end
      end
  end.

Definition re_sub (r : regex) (repl : str) (s : str) : str :=
  re_sub_from r repl 0 s.

(** [re.split(r, s)] for a pattern whose matches are never empty: the
    pieces between the matches.  [keep] says that the pattern is wrapped in
    a group, [re.split('(' + r + ')', s)], so that the matched texts are
    returned between the pieces. *)
Fixpoint re_split_from (r : regex) (keep : bool) (cur : str) (skip : nat)
  (s : str) : list str :=
  match s with
  | [] => [cur]
  | c :: t =>
      match skip with
      | S k => re_split_from r keep cur k t
      | O =>
          match match_len r s with
          | Some (S n) =>
              cur :: (if keep then [firstn (S n) s] else [])
                  ++ re_split_from r keep [] n t
          | _ => re_split_from r keep (cur ++ [c]) 0 t
          end
      end
  end.

Definition re_split (r : regex) (s : str) : list str :=
  re_split_from r false [] 0 s.
Definition re_split_group (r : regex) (s : str) : list str :=
  re_split_from r true [] 0 s.

(** The matched texts of [r] in [s], left to right, without overlap. *)
Fixpoint re_matches_from (r : regex) (skip : nat) (s : str) : list str :=
  match s with
  | [] => []
  | c :: t =>
      match skip with
      | S k => re_matches_from r k t
      | O =>
          match match_len r s with
          | Some (S n) => firstn (S n) s :: re_matches_from r n t
          | _ => re_matches_from r 0 t
          end
      end
  end.

Definition re_matches (r : regex) (s : str) : list str := re_matches_from r 0 s.

(** ** Line classifier: [is_main_heading] *)

(** Rule 1: [^(CHAPTER|SECTION|PART)\s+\d+] on the upper-cased line. *)
Definition re_chapter : regex :=
  Seq [Alts [Lit "CHAPTER"; Lit "SECTION"; Lit "PART"]; Plus cls_s; Plus cls_d].

(** Rule 2: [^\d+\.\s+[A-Z][A-Z\s]{35,}$] on the line itself. *)
Definition re_numbered : regex :=
  Seq [Plus cls_d; Ch (ord "."); Plus cls_s; cls_AZ;
       AtLeast 35 (Chr (fun c => is_AZ c || is_space c)); Eol].

Definition main_keywords : list str :=
  map py
    ["INTRODUCTION TO THE F-16 FIGHTING FALCON";
     "OVERVIEW OF F-16 SYSTEMS";
     "GENERAL INFORMATION";
     "SYSTEM DESCRIPTION";
     "TECHNICAL SPECIFICATIONS";
     "MAINTENANCE PROCEDURES";
     "TROUBLESHOOTING GUIDE";
     "APPENDICES";
     "TECHNICAL DATA";
     "PERFORMANCE DATA";
     "SAFETY PROCEDURES";
     "OPERATIONAL PROCEDURES"].

(** The four tests that return [True]. *)
Definition accept_chapter (line : str) : bool := re_match re_chapter (upper line).
Definition accept_numbered (line : str) : bool := re_match re_numbered line.
(** Rule 3 as written: [line_upper.isupper() and 35 <= len(line_upper) <= 40]. *)
Definition accept_upper (line : str) : bool :=
  let line_upper := upper line in
  isupper line_upper && (35 <=? length line_upper) && (length line_upper <=? 40).
Definition accept_keyword (line : str) : bool :=
  existsb (fun keyword => str_eqb (upper line) keyword) main_keywords.

(** The tests that return [False], rules 5 to 17. *)
Definition re_units : regex :=
  Alts [Seq [Plus cls_d; Ch (ord "."); Plus cls_d];
        Seq [Plus cls_d; Lit "kg"]; Seq [Plus cls_d; Lit "lb"];
        Seq [Plus cls_d; Lit "ft"]; Seq [Plus cls_d; Lit "m"];
        Seq [Plus cls_d; Lit "km"]; Seq [Plus cls_d; Lit "mph"];
        Seq [Plus cls_d; Lit "kmh"]].
Definition re_paren_code : regex :=
  Seq [Ch (ord "(");
       Plus (Chr (fun c => is_AZ c || is_digit c || (c =? ord "-")%N));
       Ch (ord ")")].
Definition re_tech_spec : regex :=
  Alts [Lit "WEIGHT"; Lit "DIMENSIONS"; Lit "POWERPLANT"; Lit "CEILING";
        Lit "RANGE"; Lit "ARMAMENT"].
Definition re_operators : regex :=
  Alts [Lit "OPERATORS"; Lit "AIR FORCE"; Lit "NAVY"; Lit "MARINES"].
Definition re_block : regex :=
  Seq [Lit "F-16"; Opt cls_AZ; Plus cls_s; Lit "BLOCK"; Plus cls_s; Plus cls_d].
Definition re_photo : regex :=
  Alts [Lit "PHOTO"; Lit "PICTURE"; Lit "IMAGE"; Lit "COVER"].
Definition re_circa_s : regex := Seq [Lit "circa"; Plus cls_s; Rep 4 cls_d].
Definition re_year_semi : regex :=
  Seq [Rep 4 cls_d; Ch (ord ";"); Plus cls_s; Plus cls_w].
Definition re_comma_year : regex := Seq [Ch (ord ","); Star cls_s; Rep 4 cls_d].
Definition re_semi_word : regex := Seq [Ch (ord ";"); Star cls_s; Plus cls_w].
Definition re_social : regex :=
  Alts [Lit "Facebook"; Lit "Instagram"; Lit "Twitter"; Lit "LinkedIn";
        Lit "Youtube"].
Definition re_nth : regex :=
  Seq [Plus cls_d; Lit "th"; Plus cls_s; Plus cls_w; Plus cls_s; Plus cls_w].
Definition re_guard : regex :=
  Alts [Lit "Guard"; Lit "Wing"; Lit "Squadron"; Lit "Air Force";
        Lit "National Guard"].
Definition re_publisher : regex :=
  Alts [Lit "COPYRIGHT"; Lit "AMBER"; Lit "BOOKS"; Lit "LTD"; Lit "RESEARCHER"].
Definition re_front : regex :=
  Alts [Lit "INTRODUCTION"; Lit "PREFACE"; Lit "FOREWORD"].
Definition re_page_ref : regex :=
  Alts [Seq [Plus cls_d; Plus cls_s; Eol];
        Seq [Plus cls_d; Ch (ord "."); Plus cls_d; Plus cls_s; Eol]].

Definition reject_long (line : str) : bool := 45 <? length line.
Definition reject_short (line : str) : bool := length line <? 30.
(** [len(set(words)) < len(words) * 0.85], in hundredths. *)
Definition reject_repeats (line : str) : bool :=
  let words := split_ws (upper line) in
  100 * length (nodup (list_eq_dec N.eq_dec) words) <? 85 * length words.
Definition reject_units (line : str) : bool := re_search re_units line.
Definition reject_paren_code (line : str) : bool := re_search re_paren_code line.
Definition reject_tech_spec (line : str) : bool :=
  re_search re_tech_spec (upper line).
Definition reject_operators (line : str) : bool :=
  re_search re_operators (upper line).
Definition reject_block (line : str) : bool := re_search re_block (upper line).
Definition reject_photo (line : str) : bool := re_search re_photo (upper line).
Definition reject_caption (line : str) : bool :=
  re_search re_circa_s (upper line) || re_search re_year_semi (upper line).
Definition reject_date_list (line : str) : bool :=
  re_search re_comma_year line || re_search re_semi_word line.
Definition reject_social (line : str) : bool := re_search re_social (upper line).
Definition reject_nth (line : str) : bool :=
  re_search re_nth (upper line) && (length line <? 40).
Definition reject_guard (line : str) : bool :=
  re_search re_guard (upper line) && (length line <? 50).
Definition reject_publisher (line : str) : bool :=
  re_search re_publisher (upper line).
Definition reject_front (line : str) : bool := re_search re_front (upper line).
Definition reject_page_ref (line : str) : bool := re_search re_page_ref line.
Definition reject_few_words (line : str) : bool := length (split_ws line) <? 6.

Definition is_main_heading (line : str) : bool :=
  if accept_chapter line then true
  else if accept_numbered line then true
  else if accept_upper line then true
  else if accept_keyword line then true
  else if reject_long line then false
  else if reject_short line then false
  else if reject_repeats line then false
  else if reject_units line then false
  else if reject_paren_code line then false
  else if reject_tech_spec line then false
  else if reject_operators line then false
  else if reject_block line then false
  else if reject_photo line then false
  else if reject_caption line then false
  else if reject_date_list line then false
  else if reject_social line then false
  else if reject_nth line then false
  else if reject_guard line then false
  else if reject_publisher line then false
  else if reject_front line then false
  else if reject_page_ref line then false
  else if reject_few_words line then false
  else false.



(** ** Enrichment heuristics *)

Inductive module_type : Type :=
| FLIGHT_CONTROL | ENGINE_SYSTEM | WEAPONS_SYSTEM | AVIONICS | MAINTENANCE
| SAFETY | ELECTRICAL | HYDRAULIC | FUEL | LANDING | COCKPIT | RADAR
| NAVIGATION | COMMUNICATION | EMERGENCY | GENERAL.

Definition module_type_eq_dec (a b : module_type) : {a = b} + {a <> b}.
Proof. decide equality. Defined.

(** [self.module_codes]. *)
Definition module_codes : list (module_type * str) :=
  [(FLIGHT_CONTROL, py "DMC-FC001"); (ENGINE_SYSTEM, py "DMC-ES002");
   (WEAPONS_SYSTEM, py "DMC-WS003"); (AVIONICS, py "DMC-AV004");
   (MAINTENANCE, py "DMC-MT005"); (SAFETY, py "DMC-SF006");
   (ELECTRICAL, py "DMC-EL007"); (HYDRAULIC, py "DMC-HY008");
   (FUEL, py "DMC-FL009"); (LANDING, py "DMC-LG010");
   (COCKPIT, py "DMC-CP011"); (RADAR, py "DMC-RD012");
   (NAVIGATION, py "DMC-NV013"); (COMMUNICATION, py "DMC-CM014");
   (EMERGENCY, py "DMC-EM015"); (GENERAL, py "DMC-GN016")].

(** [d.get(key, default)]. *)
Fixpoint dict_get (d : list (module_type * str)) (key : module_type)
  (default : str) : str :=
  match d with
  | [] => default
  | (k, v) :: t => if module_type_eq_dec k key then v else dict_get t key default
  end.

(** [kw in text], for a keyword written as a literal. *)
Definition has (kw : string) (text : str) : bool := contains (py kw) text.

Definition detect_module_type (title : str) : module_type :=
  let title_upper := upper title in
  if has "FLIGHT" title_upper || has "CONTROL" title_upper
     || has "DIGITAL" title_upper then FLIGHT_CONTROL
  else if has "ENGINE" title_upper || has "POWER" title_upper
          || has "TURBINE" title_upper then ENGINE_SYSTEM
  else if has "WEAPON" title_upper || has "MISSILE" title_upper
          || has "BOMB" title_upper then WEAPONS_SYSTEM
  else if has "AVIONICS" title_upper || has "COMPUTER" title_upper
          || has "SOFTWARE" title_upper then AVIONICS
  else if has "ELECTRICAL" title_upper || has "ELECTRIC" title_upper
          || has "POWER" title_upper then ELECTRICAL
  else if has "HYDRAULIC" title_upper then HYDRAULIC
  else if has "FUEL" title_upper then FUEL
  else if has "LANDING" title_upper || has "GEAR" title_upper then LANDING
  else if has "COCKPIT" title_upper || has "INSTRUMENT" title_upper then COCKPIT
  else if has "RADAR" title_upper then RADAR
  else if has "NAVIGATION" title_upper || has "GPS" title_upper then NAVIGATION
  else if has "COMMUNICATION" title_upper || has "RADIO" title_upper
       then COMMUNICATION
  else if has "SAFETY" title_upper || has "EMERGENCY" title_upper then SAFETY
  else if has "MAINTENANCE" title_upper || has "SERVICE" title_upper
          || has "REPAIR" title_upper then MAINTENANCE
  else GENERAL.

(** The keywords [detect_module_type] looks for. *)
Definition domain_keywords : list string :=
  ["FLIGHT"; "CONTROL"; "DIGITAL"; "ENGINE"; "POWER"; "TURBINE"; "WEAPON";
   "MISSILE"; "BOMB"; "AVIONICS"; "COMPUTER"; "SOFTWARE"; "ELECTRICAL";
   "ELECTRIC"; "HYDRAULIC"; "FUEL"; "LANDING"; "GEAR"; "COCKPIT";
   "INSTRUMENT"; "RADAR"; "NAVIGATION"; "GPS"; "COMMUNICATION"; "RADIO";
   "SAFETY"; "EMERGENCY"; "MAINTENANCE"; "SERVICE"; "REPAIR"].

(** The values [detect_applicability] returns. *)
Inductive applic : Type :=
| All_Models | F16_AB | F16_CD | F16_A | F16_B | F16_C | F16_D | General.

Definition applic_text (a : applic) : str :=
  match a with
  | All_Models => py "All Models"
  | F16_AB => py "F-16A/B"
  | F16_CD => py "F-16C/D"
  | F16_A => py "F-16A"
  | F16_B => py "F-16B"
  | F16_C => py "F-16C"
  | F16_D => py "F-16D"
  | General => py "General"
  end.

Definition detect_applicability (content : str) : applic :=
  let content_upper := upper content in
  if has "ALL MODELS" content_upper || has "ALL VARIANTS" content_upper
  then All_Models
  else if has "F-16A" content_upper && has "F-16B" content_upper then F16_AB
  else if has "F-16C" content_upper && has "F-16D" content_upper then F16_CD
  else if has "F-16A" content_upper then F16_A
  else if has "F-16B" content_upper then F16_B
  else if has "F-16C" content_upper then F16_C
  else if has "F-16D" content_upper then F16_D
  else General.

(** The tokens [detect_applicability] looks for. *)
Definition variant_tokens : list string :=
  ["ALL MODELS"; "ALL VARIANTS"; "F-16A"; "F-16B"; "F-16C"; "F-16D"].

Definition graphics_keywords : list string :=
  ["FIGURE"; "FIG."; "IMAGE"; "DIAGRAM"; "CHART"; "GRAPH"; "PICTURE"].

Definition detect_graphics (content : str) : bool :=
  let content_upper := upper content in
  existsb (fun keyword => has keyword content_upper) graphics_keywords.

Inductive content_type : Type :=
| CT_PROCEDURE | CT_FAULT | CT_ILLUSTRATED_PARTS_DATA | CT_DESCRIPTION
| CT_MAINTENANCE | CT_TECHNICAL_DATA | CT_SAFETY | CT_MAIN_HEADING_SECTION.

(** [any(keyword in text for keyword in kws)]. *)
Definition any_in (kws : list string) (text : str) : bool :=
  existsb (fun keyword => has keyword text) kws.

(** The tiers of [detect_content_type]: the value returned, the keywords
    looked for in the title and those looked for in the content. *)
Definition content_tiers : list (content_type * list string * list string) :=
  [(CT_PROCEDURE, ["PROCEDURE"; "STEP"; "INSTRUCTION"; "MANUAL"],
    ["STEP 1"; "STEP 2"; "FIRST"; "THEN"; "NEXT"; "FINALLY"]);
   (CT_FAULT, ["FAULT"; "ERROR"; "TROUBLESHOOT"; "MALFUNCTION"],
    ["ERROR CODE"; "FAULT CODE"; "TROUBLESHOOT"; "MALFUNCTION"]);
   (CT_ILLUSTRATED_PARTS_DATA, ["PARTS"; "COMPONENT"; "ASSEMBLY"; "SUPPLY"],
    ["PART NUMBER"; "ITEM NUMBER"; "QUANTITY"; "REFERENCE"]);
   (CT_DESCRIPTION, ["DESCRIPTION"; "OVERVIEW"; "INTRODUCTION"; "SYSTEM"],
    ["SYSTEM DESCRIPTION"; "OVERVIEW"; "INTRODUCTION"; "PURPOSE"]);
   (CT_MAINTENANCE, ["MAINTENANCE"; "SERVICE"; "INSPECTION"; "REPAIR"],
    ["MAINTENANCE"; "SERVICE"; "INSPECTION"; "REPAIR"; "SCHEDULE"]);
   (CT_TECHNICAL_DATA, ["SPECIFICATION"; "TECHNICAL"; "PERFORMANCE"; "DATA"],
    ["SPECIFICATION"; "PERFORMANCE"; "TECHNICAL DATA"; "CHARACTERISTICS"]);
   (CT_SAFETY, ["SAFETY"; "WARNING"; "CAUTION"; "HAZARD"],
    ["WARNING"; "CAUTION"; "SAFETY"; "HAZARD"; "DANGER"])].

(** [detect_content_type] on the two entries of the section it reads. *)
Definition detect_content_type_of (title content : str) : content_type :=
  let title := upper title in
  let content := upper content in
  if any_in ["PROCEDURE"; "STEP"; "INSTRUCTION"; "MANUAL"] title
  then CT_PROCEDURE
  else if any_in ["STEP 1"; "STEP 2"; "FIRST"; "THEN"; "NEXT"; "FINALLY"] content
  then CT_PROCEDURE
  else if any_in ["FAULT"; "ERROR"; "TROUBLESHOOT"; "MALFUNCTION"] title
  then CT_FAULT
  else if any_in ["ERROR CODE"; "FAULT CODE"; "TROUBLESHOOT"; "MALFUNCTION"]
            content
  then CT_FAULT
  else if any_in ["PARTS"; "COMPONENT"; "ASSEMBLY"; "SUPPLY"] title
  then CT_ILLUSTRATED_PARTS_DATA
  else if any_in ["PART NUMBER"; "ITEM NUMBER"; "QUANTITY"; "REFERENCE"] content
  then CT_ILLUSTRATED_PARTS_DATA
  else if any_in ["DESCRIPTION"; "OVERVIEW"; "INTRODUCTION"; "SYSTEM"] title
  then CT_DESCRIPTION
  else if any_in ["SYSTEM DESCRIPTION"; "OVERVIEW"; "INTRODUCTION"; "PURPOSE"]
            content
  then CT_DESCRIPTION
  else if any_in ["MAINTENANCE"; "SERVICE"; "INSPECTION"; "REPAIR"] title
  then CT_MAINTENANCE
  else if any_in ["MAINTENANCE"; "SERVICE"; "INSPECTION"; "REPAIR"; "SCHEDULE"]
            content
  then CT_MAINTENANCE
  else if any_in ["SPECIFICATION"; "TECHNICAL"; "PERFORMANCE"; "DATA"] title
  then CT_TECHNICAL_DATA
  else if any_in ["SPECIFICATION"; "PERFORMANCE"; "TECHNICAL DATA";
                  "CHARACTERISTICS"] content
  then CT_TECHNICAL_DATA
  else if any_in ["SAFETY"; "WARNING"; "CAUTION"; "HAZARD"] title
  then CT_SAFETY
  else if any_in ["WARNING"; "CAUTION"; "SAFETY"; "HAZARD"; "DANGER"] content
  then CT_SAFETY
  else CT_MAIN_HEADING_SECTION.

(** *** [create_content_summary] *)

Definition re_social_handle : regex :=
  Alts [Seq [Lit "Facebook: "; Plus cls_w]; Seq [Lit "Instagram: "; Plus cls_w];
        Seq [Lit "Twitter: "; Plus cls_w]].
Definition re_isbn : regex :=
  Seq [Lit "ISBN: "; Plus cls_d;
       Star (Chr (fun c => (c =? ord "-")%N || is_digit c))].
Definition re_ws : regex := Plus cls_s.
Definition re_page_tag : regex := Seq [Lit "[PAGE_"; Plus cls_d; Ch (ord "]")].
Definition re_sentence_end : regex :=
  Plus (Chr (fun c => mem_char c [ord "."; ord "!"; ord "?"])).

(** [re.findall(r'\[PAGE_(\d+)\]', content)]: the digits of each tag, that
    is the matched text without its six leading characters and its last. *)
Definition page_numbers (content : str) : list str :=
  map (fun m => firstn (length m - 7) (skipn 6 m)) (re_matches re_page_tag content).

(** Order of [str]: by code point, a proper prefix first. *)
Fixpoint str_leb (a b : str) : bool :=
  match a, b with
  | [], _ => true
  | _ :: _, [] => false
  | x :: a', y :: b' => (x <? y)%N || ((x =? y)%N && str_leb a' b')
  end.

Fixpoint insert_sorted (x : str) (l : list str) : list str :=
  match l with
  | [] => [x]
  | y :: t => if str_leb x y then x :: l else y :: insert_sorted x t
  end.

(** [sorted(set(l))]. *)
Definition sorted_set (l : list str) : list str :=
  fold_right insert_sorted [] (nodup (list_eq_dec N.eq_dec) l).

Definition nonempty {A : Type} (l : list A) : bool :=
  match l with [] => false | _ => true end.

(** The loop over the sentences: the first one whose stripped length is over
    30 and under 150 and that is not empty once cleaned gives the clause. *)
Fixpoint first_description (sentences : list str) : list str :=
  match sentences with
  | [] => []
  | sentence :: rest =>
      let sentence := strip sentence in
      if (30 <? length sentence) && (length sentence <? 150) then
        let sentence := re_sub re_social_handle [] sentence in
        let sentence := re_sub re_isbn [] sentence in
        let sentence := strip (re_sub re_ws [sp] sentence) in
        if nonempty sentence then [py "Description: " ++ sentence]
        else first_description rest
      else first_description rest
  end.

Definition summary_parts (content : str) : list str :=
  let summary_parts := [] in
  let summary_parts :=
    if has "[PAGE_" content then
      let page_matches := page_numbers content in
      if nonempty page_matches then
        let pages := sorted_set page_matches in
        summary_parts ++ [py "Pages: " ++ hd [] pages ++ py "-" ++ last pages []]
      else summary_parts
    else summary_parts in
  let technical_terms :=
    (if has "F-16" content then [py "F-16"] else [])
    ++ (if has "USAF" content then [py "USAF"] else [])
    ++ (if has "squadron" (lower content) then [py "Squadron"] else [])
    ++ (if has "aircraft" (lower content) then [py "Aircraft"] else []) in
  let summary_parts :=
    if nonempty technical_terms
    then summary_parts ++ [py "Technical: " ++ join (py ", ") technical_terms]
    else summary_parts in
  let content_type :=
    if has "procedure" (lower content) then py "Procedures"
    else if has "specification" (lower content) then py "Specifications"
    else if has "operator" (lower content) then py "Operators"
    else if has "image" (lower content) || has "photo" (lower content)
         then py "Images"
    else py "General Information" in
  let summary_parts := summary_parts ++ [py "Type: " ++ content_type] in
  let sentences := re_split re_sentence_end content in
  summary_parts ++ first_description sentences.

Definition create_content_summary (content : str) : str :=
  if nonempty content
  then join (py " | ") (firstn 4 (summary_parts content))
  else py "No content available".

(** ** Section assembler: [parse_main_headings_only] *)

(** The dictionary appended to [sections]. *)
Record section : Type := mkSection {
  title : str;
  content : str;
  module_code : str;
  start_page : Z;
  end_page : Z;
  section_type : module_type;
  page_count : Z;
  content_summary : str;
  applicability : applic;
  has_graphics : bool
}.

Definition detect_content_type (s : section) : content_type :=
  detect_content_type_of (title s) (content s).

(** The dictionary [current_section] of the loop. *)
Record open_section : Type := mkOpen {
  o_title : str;
  o_module_code : str;
  o_type : module_type;
  o_page : Z;
  o_page_count : Z
}.

(** The variables of the loop. *)
Record parser : Type := mkParser {
  sections : list section;
  current_section : option open_section;
  current_content : list str;
  current_page : Z
}.

Definition parser_init : parser := mkParser [] None [] 1.

(** The section closed when the next heading is read ([final = false]) or
    at the end of the text ([final = true]). *)
Definition close_section (cur : open_section) (body : list str) (page : Z)
  (final : bool) : section :=
  let text := join [nl] body in
  {| title := o_title cur;
     content := text;
     module_code := o_module_code cur;
     start_page := o_page cur;
     end_page := if final then page else (page - 1)%Z;
     section_type := o_type cur;
     page_count := if final then (page - o_page cur + 1)%Z
                   else (page - o_page cur)%Z;
     content_summary := create_content_summary text;
     applicability := detect_applicability text;
     has_graphics := detect_graphics text |}.

(** [sections] once the open section, if it has any content, is saved. *)
Definition flush (st : parser) (final : bool) : list section :=
  match current_section st, current_content st with
  | Some cur, _ :: _ =>
      sections st ++ [close_section cur (current_content st) (current_page st) final]
  | _, _ => sections st
  end.

(** One turn of the loop; [None] is the [ValueError] of [int]. *)
Definition parse_line (st : parser) (raw : str) : option parser :=
  let line := strip raw in
  if negb (nonempty line) then Some st
  else if startswith (py "[PAGE_") line then
    match py_int (replace (py "]") [] (replace (py "[PAGE_") [] line)) with
    | Some n => Some (mkParser (sections st) (current_section st)
                               (current_content st) n)
    | None => None
    end
  else if is_main_heading line then
    let module_type := detect_module_type line in
    Some (mkParser (flush st false)
            (Some {| o_title := line;
                     o_module_code := dict_get module_codes module_type
                                               (py "DMC-GN016");
                     o_type := module_type;
                     o_page := current_page st;
                     o_page_count := 1 |})
            [] (current_page st))
  else match current_section st with
       | Some _ => Some (mkParser (sections st) (current_section st)
                                  (current_content st ++ [line])
                                  (current_page st))
       | None => Some st
       end.

Fixpoint parse_lines (st : parser) (lines : list str) : option parser :=
  match lines with
  | [] => Some st
  | raw :: rest =>
      match parse_line st raw with
      | Some st' => parse_lines st' rest
      | None => None
      end
  end.

Definition parse_main_headings_only (text : str) : option (list section) :=
  match parse_lines parser_init (split_on nl text) with
  | Some st => Some (flush st true)
  | None => None
  end.

(** ** Section merger: [merge_short_sections] *)

(** The earlier section after it has taken in a short one. *)
Definition absorb (current s : section) : section :=
  let text := content current ++ [nl; nl] ++ title s ++ [nl] ++ content s in
  {| title := title current;
     content := text;
     module_code := module_code current;
     start_page := start_page current;
     end_page := end_page s;
     section_type := section_type current;
     page_count := page_count current;
     content_summary := create_content_summary text;
     applicability := applicability current;
     has_graphics := has_graphics current || has_graphics s |}.

Definition page_span (s : section) : Z := (end_page s - start_page s)%Z.

Fixpoint merge_loop (merged_sections : list section) (current : section)
  (rest : list section) : list section :=
  match rest with
  | [] => merged_sections ++ [current]
  | s :: rest' =>
      if (page_span s <? 1)%Z
      then merge_loop merged_sections (absorb current s) rest'
      else merge_loop (merged_sections ++ [current]) s rest'
  end.

Definition merge_short_sections (sections : list section) : list section :=
  match sections with
  | [] => sections
  | [_] => sections
  | first :: rest => merge_loop [] first rest
  end.

(** ** Text normaliser *)

Definition re_circa : regex := Seq [Lit "circa "; Rep 4 cls_d].

(** The single characters [clean_paragraph] keeps as words: lower-case
    c-cedilla, g-breve, dotless i, o-umlaut, s-cedilla, u-umlaut and the
    capitals C-cedilla, G-breve, I, O-umlaut, S-cedilla, U-umlaut. *)
Definition kept_letters : str :=
  [231; 287; 305; 246; 351; 252; 199; 286; 73; 214; 350; 220]%N.

(** The test of the loop: [true] when the word is skipped. *)
Definition dropped_word (word : str) : bool :=
  ((length word =? 1) && negb (contains word kept_letters))
  || (isdigit word && (length word <? 4)).

Definition clean_paragraph (text : str) : str :=
  if negb (nonempty text) then []
  else
    let text := re_sub re_social_handle [] text in
    let text := re_sub re_isbn [] text in
    let text := re_sub re_circa [] text in
    let text := re_sub re_ws [sp] text in
    let text := strip text in
    if length text <? 10 then []
    else
      let words := split_ws text in
      let cleaned_words := filter (fun word => negb (dropped_word word)) words in
      let text := join [sp] cleaned_words in
      let text := strip (re_sub re_ws [sp] text) in
      if length text <? 20 then [] else text.

Definition re_numbered_title : regex := Seq [Plus cls_d; Ch (ord ".")].
Definition re_caps_title : regex :=
  Seq [cls_AZ; Plus (Chr (fun c => is_AZ c || is_space c)); Eol].
(** [^CHAPTER|SECTION|PART] under [re.match], which ties every alternative
    to the start of the line. *)
Definition re_chapter_word : regex :=
  Alts [Lit "CHAPTER"; Lit "SECTION"; Lit "PART"].

Definition title_patterns : list regex :=
  [re_numbered_title; re_caps_title; re_chapter_word].

Definition count_upper (line : str) : nat := length (filter is_upper_char line).

(** [upper_count / len(line) > 0.7] is compared in tenths. *)
Definition is_likely_title (line : str) : bool :=
  if (length line <? 5) || (60 <? length line) then false
  else if 7 * length line <? 10 * count_upper line then true
  else existsb (fun pattern => re_match pattern line) title_patterns.

Definition clean_title_line (line : str) : str :=
  if negb (nonempty line) then []
  else
    let line := re_sub re_social_handle [] line in
    let line := re_sub re_isbn [] line in
    let line := strip (re_sub re_ws [sp] line) in
    if length line <? 5 then [] else line.

(** The split points of [split_long_paragraph], in order. *)
Definition split_points : list regex :=
  [Seq [Ch (ord "."); Plus cls_s; cls_AZ];
   Seq [Ch (ord ";"); Plus cls_s];
   Seq [Ch (ord "."); Star cls_s; Eol];
   Seq [Ch (ord "?"); Plus cls_s];
   Seq [Ch (ord "!"); Plus cls_s]].

(** The loop over the split points: the paragraphs collected so far and the
    text still to be split.  Returning before the list is used up is the
    [break] of the source. *)
Fixpoint split_loop (patterns : list regex) (paragraphs : list str)
  (current_text : str) : list str * str :=
  match patterns with
  | [] => (paragraphs, current_text)
  | pattern :: rest =>
      if length current_text <=? 500 then (paragraphs, current_text)
      else
        let parts := re_split_group pattern current_text in
        if 1 <? length parts then
          let first_part := strip (hd [] parts) in
          let paragraphs :=
            if nonempty first_part && (20 <? length first_part)
            then paragraphs ++ [first_part] else paragraphs in
          let remaining := strip (concat (tl parts)) in
          if nonempty remaining then split_loop rest paragraphs remaining
          else (paragraphs, current_text)
        else split_loop rest paragraphs current_text
  end.

Definition split_long_paragraph (text : str) : list str :=
  if length text <=? 500 then [text]
  else
    let '(paragraphs, current_text) := split_loop split_points [] text in
    let paragraphs :=
      if nonempty (strip current_text) && (20 <? length (strip current_text))
      then paragraphs ++ [strip current_text] else paragraphs in
    match paragraphs with
    | [only] =>
        if (500 <? length only) && (50 <? length (split_ws only)) then
          let words := split_ws only in
          let mid_point := length words / 2 in
          [join [sp] (firstn mid_point words); join [sp] (skipn mid_point words)]
        else paragraphs
    | [] => [text]
    | _ => paragraphs
    end.

(** The paragraph in progress, cleaned and saved if anything is left. *)
Definition flush_paragraph (paragraphs : list str) (current_paragraph : list str)
  : list str :=
  let para_text := clean_paragraph (join [sp] current_paragraph) in
  if nonempty para_text then paragraphs ++ [para_text] else paragraphs.

(** The loop over the lines: [(paragraphs, current_paragraph)]. *)
Fixpoint paragraph_loop (lines : list str) (paragraphs : list str)
  (current_paragraph : list str) : list str * list str :=
  match lines with
  | [] => (paragraphs, current_paragraph)
  | raw :: rest =>
      let line := strip raw in
      if negb (nonempty line) then
        if nonempty current_paragraph
        then paragraph_loop rest (flush_paragraph paragraphs current_paragraph) []
        else paragraph_loop rest paragraphs current_paragraph
      else if (length line <? 40) && (isupper line || is_likely_title line) then
        let paragraphs :=
          if nonempty current_paragraph
          then flush_paragraph paragraphs current_paragraph else paragraphs in
        let clean_title := clean_title_line line in
        let paragraphs :=
          if nonempty clean_title then paragraphs ++ [clean_title]
          else paragraphs in
        paragraph_loop rest paragraphs []
      else
        let current_paragraph := current_paragraph ++ [line] in
        if 300 <? length (join [sp] current_paragraph)
        then paragraph_loop rest (flush_paragraph paragraphs current_paragraph) []
        else paragraph_loop rest paragraphs current_paragraph
  end.

Definition split_content_into_paragraphs (content : str) : list str :=
  if negb (nonempty content) || (length (strip content) <? 50) then
    if nonempty (strip content) then [strip content] else []
  else
    let content := replace [cr] [nl] (replace [cr; nl] [nl] content) in
    let lines := split_on nl content in
    let '(paragraphs, current_paragraph) := paragraph_loop lines [] [] in
    let paragraphs :=
      if nonempty current_paragraph
      then flush_paragraph paragraphs current_paragraph else paragraphs in
    let final_paragraphs :=
      flat_map (fun para => if 500 <? length para then split_long_paragraph para
                            else [para]) paragraphs in
    filter (fun p => nonempty (strip p) && (10 <? length (strip p)))
           final_paragraphs.

(** ** Numbers in text *)

(** The character of a decimal digit string, most significant first. *)
Fixpoint chars_of_uint (d : Decimal.uint) : str :=
  match d with
  | Decimal.Nil => []
  | Decimal.D0 d' => 48%N :: chars_of_uint d'
  | Decimal.D1 d' => 49%N :: chars_of_uint d'
  | Decimal.D2 d' => 50%N :: chars_of_uint d'
  | Decimal.D3 d' => 51%N :: chars_of_uint d'
  | Decimal.D4 d' => 52%N :: chars_of_uint d'
  | Decimal.D5 d' => 53%N :: chars_of_uint d'
  | Decimal.D6 d' => 54%N :: chars_of_uint d'
  | Decimal.D7 d' => 55%N :: chars_of_uint d'
  | Decimal.D8 d' => 56%N :: chars_of_uint d'
  | Decimal.D9 d' => 57%N :: chars_of_uint d'
  end.

(** [str(n)] for an integer that is not negative. *)
Definition str_of_nat (n : nat) : str := chars_of_uint (Nat.to_uint n).

(** [str(z)]. *)
Definition str_of_Z (z : Z) : str :=
  if (z <? 0)%Z then ord "-" :: str_of_nat (Z.to_nat (- z))
  else str_of_nat (Z.to_nat z).

(** [f"{n:0wd}"] for an integer that is not negative: [str(n)] with zeros in
    front up to the width [w]. *)
Definition format_0d (w n : nat) : str :=
  repeat (ord "0") (w - length (str_of_nat n)) ++ str_of_nat n.

(** ** Text extraction: [extract_smart_sections] *)

(** The marker line written in front of the text of page [n]. *)
Definition page_tag (n : nat) : str := py "[PAGE_" ++ str_of_nat n ++ py "]".

(** The loop over the pages: [pages] holds what [extract_text] returns for
    each page, [None] or a text, and [page_num] is the index of the first
    of them.  A page without text adds nothing. *)
Fixpoint full_text_from (page_num : nat) (pages : list (option str)) : str :=
  match pages with
  | [] => []
  | page :: rest =>
      match page with
      | Some ((_ :: _) as page_text) =>
          page_tag (page_num + 1) ++ [nl] ++ page_text ++ [nl; nl]
      | _ => []
      end ++ full_text_from (S page_num) rest
  end.

Definition full_text (pages : list (option str)) : str := full_text_from 0 pages.

(** The sections of a document; an exception raised on the way leaves the
    empty list. *)
Definition extract_smart_sections (pages : list (option str)) : list section :=
  match parse_main_headings_only (full_text pages) with
  | Some smart_sections => smart_sections
  | None => []
  end.

(** ** File names *)

(** [re.sub(r, f(match), s)] for a pattern whose matches are never empty:
    each match is replaced by what [f] makes of the matched text. *)
Fixpoint re_sub_with_from (r : regex) (f : str -> str) (skip : nat) (s : str)
  : str :=
  match s with
  | [] => []
  | c :: t =>
      match skip with
      | S k => re_sub_with_from r f k t
      | O =>
          match match_len r s with
          | Some (S n) => f (firstn (S n) s) ++ re_sub_with_from r f n t
          | _ => c :: re_sub_with_from r f 0 t
          end
      end
  end.

Definition re_sub_with (r : regex) (f : str -> str) (s : str) : str :=
  re_sub_with_from r f 0 s.

(** [s.lstrip(chars)], [s.rstrip(chars)] and [s.strip(chars)]. *)
Fixpoint lstrip_chars (chars : str) (s : str) : str :=
  match s with
  | [] => []
  | c :: t => if mem_char c chars then lstrip_chars chars t else s
  end.

Definition rstrip_chars (chars : str) (s : str) : str :=
  rev (lstrip_chars chars (rev s)).
Definition strip_chars (chars : str) (s : str) : str :=
  rstrip_chars chars (lstrip_chars chars s).

(** The dictionary [replacements] of [clean_title_for_filename], in its
    order: the Turkish letters and the ASCII letters that stand for them. *)
Definition replacements : list (char * char) :=
  [(231, 99); (287, 103); (305, 105); (246, 111); (351, 115); (252, 117);
   (199, 67); (286, 71); (304, 73); (214, 79); (350, 83); (220, 85)]%N.

(** [[^a-zA-Z0-9\s]]. *)
Definition re_not_alnum_space : regex :=
  Chr (fun c => negb (is_az c || is_AZ c || is_digit c || is_space c)).
(** [_+]. *)
Definition re_underscores : regex := Plus (Ch (ord "_")).

Definition clean_title_for_filename (title : str) : str :=
  if negb (nonempty title) then py "Unknown_Topic"
  else
    let clean_title :=
      fold_left (fun clean_title '(tr_char, en_char) =>
                   replace [tr_char] [en_char] clean_title)
                replacements title in
    let clean_title := re_sub re_not_alnum_space [] clean_title in
    let clean_title := re_sub re_ws (py "_") clean_title in
    let clean_title := re_sub re_underscores (py "_") clean_title in
    let clean_title := strip_chars (py "_") clean_title in
    if negb (nonempty clean_title) then py "Unknown_Topic" else clean_title.

Definition create_meaningful_filename (title : str) (dm_number : nat) : str :=
  let clean_title := clean_title_for_filename title in
  let filename :=
    py "dm_" ++ format_0d 3 dm_number ++ py "_" ++ clean_title ++ py ".xml" in
  if 100 <? length filename then
    let clean_title_short := rstrip_chars (py "_") (firstn 50 clean_title) in
    py "dm_" ++ format_0d 3 dm_number ++ py "_" ++ clean_title_short
    ++ py ".xml"
  else filename.

(** ** Titles: [improve_title] *)

(** [\d+th.*Squadron]; the dot is any character but a line end. *)
Definition re_squadron : regex :=
  Seq [Plus cls_d; Lit "th"; Star (Chr (fun c => negb (c =? nl)%N));
       Lit "Squadron"].
Definition re_service : regex := Alts [Lit "USAF"; Lit "USN"; Lit "USMC"].
(** [Section \d+]. *)
Definition re_section : regex := Seq [Lit "Section "; Plus cls_d].

Definition improve_title (title : str) (module_number : nat) : str :=
  if negb (nonempty title) then py "Section " ++ format_0d 3 module_number
  else
    let clean_title := clean_title_line title in
    if length clean_title <? 10
    then py "Section " ++ format_0d 3 module_number ++ py ": " ++ clean_title
    else
      let clean_title :=
        if re_search re_circa clean_title
        then py "Aircraft Image: " ++ strip (re_sub re_circa [] clean_title)
        else clean_title in
      let clean_title :=
        if re_search re_squadron clean_title
        then re_sub_with re_squadron (fun m => py "USAF " ++ m) clean_title
        else clean_title in
      let clean_title :=
        if re_search re_service clean_title
        then py "USAF F-16: " ++ clean_title
        else clean_title in
      let clean_title :=
        if has "YF-16" clean_title
        then py "YF-16 Prototype: " ++ clean_title
        else if has "F-16" clean_title && has "CONTROL" clean_title
        then py "F-16 Control Systems: " ++ clean_title
        else if has "AFRICAN" clean_title && has "OPERATORS" clean_title
        then py "F-16 African and Middle Eastern Operators"
        else if has "BACK COVER" clean_title
        then py "F-16 Technical Guide: Back Cover Information"
        else clean_title in
      let clean_title :=
        if negb (re_search re_section clean_title)
        then py "Section " ++ format_0d 3 module_number ++ py ": "
             ++ clean_title
        else clean_title in
      strip clean_title.

(** ** Schema serializer: [create_smart_s1000d_dm] *)

(** An element of [xml.etree.ElementTree]: its tag, its attributes in the
    order they were set, its text and its children. *)
#[warnings="-register-all"]
Inductive xml : Type :=
| Element (tag : str) (attrib : list (str * str)) (text : option str)
          (children : list xml).

Definition xml_tag (x : xml) : str := let 'Element t _ _ _ := x in t.
Definition xml_attrib (x : xml) : list (str * str) :=
  let 'Element _ a _ _ := x in a.
Definition xml_text (x : xml) : option str := let 'Element _ _ t _ := x in t.
Definition xml_children (x : xml) : list xml := let 'Element _ _ _ c := x in c.

(** [elem.set(key, value)] on the attributes: a key that is there keeps its
    place and takes the value, a new one goes to the end. *)
Fixpoint attr_set (attrib : list (str * str)) (key value : str)
  : list (str * str) :=
  match attrib with
  | [] => [(key, value)]
  | (k, v) :: rest =>
      if str_eqb k key then (k, value) :: rest
      else (k, v) :: attr_set rest key value
  end.

(** A run of [set] calls on an element without attributes. *)
Definition set_all (calls : list (string * str)) : list (str * str) :=
  fold_left (fun attrib '(key, value) => attr_set attrib (py key) value)
            calls [].

(** [elem.get(key)]. *)
Fixpoint attr_get (attrib : list (str * str)) (key : str) : option str :=
  match attrib with
  | [] => None
  | (k, v) :: rest => if str_eqb k key then Some v else attr_get rest key
  end.

(** [elem.find(tag)]: the first child with that tag. *)
Definition xml_find (tag : string) (x : xml) : option xml :=
  find (fun child => str_eqb (xml_tag child) (py tag)) (xml_children x).

(** The names the source writes for the module types and the content
    types. *)
Definition module_type_name (m : module_type) : str :=
  match m with
  | FLIGHT_CONTROL => py "FLIGHT_CONTROL"
  | ENGINE_SYSTEM => py "ENGINE_SYSTEM"
  | WEAPONS_SYSTEM => py "WEAPONS_SYSTEM"
  | AVIONICS => py "AVIONICS"
  | MAINTENANCE => py "MAINTENANCE"
  | SAFETY => py "SAFETY"
  | ELECTRICAL => py "ELECTRICAL"
  | HYDRAULIC => py "HYDRAULIC"
  | FUEL => py "FUEL"
  | LANDING => py "LANDING"
  | COCKPIT => py "COCKPIT"
  | RADAR => py "RADAR"
  | NAVIGATION => py "NAVIGATION"
  | COMMUNICATION => py "COMMUNICATION"
  | EMERGENCY => py "EMERGENCY"
  | GENERAL => py "GENERAL"
  end.

Definition content_type_name (c : content_type) : str :=
  match c with
  | CT_PROCEDURE => py "PROCEDURE"
  | CT_FAULT => py "FAULT"
  | CT_ILLUSTRATED_PARTS_DATA => py "ILLUSTRATED_PARTS_DATA"
  | CT_DESCRIPTION => py "DESCRIPTION"
  | CT_MAINTENANCE => py "MAINTENANCE"
  | CT_TECHNICAL_DATA => py "TECHNICAL_DATA"
  | CT_SAFETY => py "SAFETY"
  | CT_MAIN_HEADING_SECTION => py "MAIN_HEADING_SECTION"
  end.

(** The [para] elements of a run of paragraphs: one for each paragraph that
    is not blank, holding the paragraph stripped. *)
Definition para_elements (paragraphs : list str) : list xml :=
  flat_map (fun para_text =>
              if nonempty (strip para_text)
              then [Element (py "para") [] (Some (strip para_text)) []]
              else []) paragraphs.

(** [[paragraphs[i:i + group_size] for i in range(0, len(paragraphs),
    group_size)]] with a group size of four. *)
Definition paragraph_groups (paragraphs : list str) : list (list str) :=
  let group_size := 4 in
  map (fun k => firstn group_size (skipn (k * group_size) paragraphs))
      (seq 0 ((length paragraphs + group_size - 1) / group_size)).

(** " - B" o-umlaut "l" u-umlaut "m ", the word the source puts between the
    title and the number of a subsection. *)
Definition bolum : str :=
  py " - B" ++ [246%N] ++ py "l" ++ [252%N] ++ py "m ".

(** [create_subsection_structure]: the [subSection] elements it appends to
    the description. *)
Definition create_subsection_structure (paragraphs : list str)
  (main_title : str) : list xml :=
  let groups := paragraph_groups paragraphs in
  map (fun '(i, group) =>
         Element (py "subSection")
                 (set_all [("id", py "subsection-" ++ str_of_nat i)])
                 None
                 (Element (py "title") []
                          (Some (main_title ++ bolum ++ str_of_nat i)) []
                  :: para_elements group))
      (combine (seq 1 (length groups)) groups).

(** [create_smart_s1000d_dm]; [today] is what
    [datetime.now().strftime('%Y-%m-%d')] returns. *)
Definition create_smart_s1000d_dm (today : str) (s : section)
  (dm_number total_dms : nat) : xml :=
  let ident :=
    Element (py "ident")
      (set_all
         [("model", py "F-16"); ("system", py "AIRCRAFT");
          ("systemCode", py "F16-001");
          ("subSystem", module_type_name (section_type s));
          ("subSystemCode", module_code s);
          ("assy", py "MANUAL"); ("assyCode", py "MAN-001");
          ("disassy", py "SECTION");
          ("disassyCode", py "DM" ++ format_0d 3 dm_number);
          ("disassyCodeVariant", py "A"); ("infoCode", py "DESC");
          ("infoCodeVariant", py "001"); ("itemLocationCode", py "LOC-001");
          ("learnCode", py "LRN-001"); ("learnEventCode", py "EVT-001");
          ("item", py "ITEM-001"); ("itemCode", py "ITM-001");
          ("itemCodeVariant", py "A")])
      None [] in
  let status :=
    Element (py "status")
      (set_all [("work", py "new"); ("date", today);
                ("reason", py "smart_processing_main_headings")])
      None [] in
  let issue_info :=
    Element (py "issueInfo")
      (set_all [("issueNumber", py "001"); ("issueDate", today);
                ("inWork", py "false"); ("released", py "true")])
      None [] in
  let dm_status := Element (py "dmStatus") [] None [ident; status; issue_info] in
  let title_elem :=
    Element (py "title") [] (Some (improve_title (title s) dm_number)) [] in
  let paragraphs := split_content_into_paragraphs (content s) in
  let body :=
    if 8 <? length paragraphs
    then create_subsection_structure paragraphs (title s)
    else para_elements paragraphs in
  let applic_assert :=
    Element (py "applicAssert")
      (set_all [("applicPropertyIdent", py "AIRCRAFT_MODEL");
                ("applicPropertyValue", py "F-16")])
      None [] in
  let applic :=
    Element (py "applic")
      (set_all [("applicPropertyIdent", py "AIRCRAFT_MODEL");
                ("applicPropertyValue", py "F-16")])
      None [Element (py "applicability") [] None [applic_assert]] in
  let start_page := start_page s in
  let end_page := end_page s in
  let source_page :=
    if (start_page =? end_page)%Z then str_of_Z start_page
    else str_of_Z start_page ++ py "-" ++ str_of_Z end_page in
  let module_info :=
    Element (py "moduleInfo")
      (set_all
         [("moduleNumber", format_0d 3 dm_number);
          ("totalModules", format_0d 3 total_dms);
          ("sourcePage", source_page);
          ("contentType", content_type_name (detect_content_type s));
          ("applicability", applic_text (applicability s));
          ("hasGraphics", if has_graphics s then py "true" else py "false");
          ("contentSummary", firstn 200 (content_summary s))])
      None [] in
  let description :=
    Element (py "description") [] None
            ([title_elem] ++ body ++ [applic; module_info]) in
  Element (py "dm")
    (set_all [("xmlns", py "http://www.s1000d.org/S1000D_4-1");
              ("xmlns:xsi", py "http://www.w3.org/2001/XMLSchema-instance");
              ("xmlns:xlink", py "http://www.w3.org/1999/xlink")])
    None
    [dm_status; Element (py "content") [] None [description]].

(** ** The run: [process_smart_pdf] *)

(** The modules of a document, each with the name of the file it is written
    to; [None] when no section was found.  The files, the report and the
    module list written on the way are left out. *)
Definition process_smart_pdf (today : str) (pages : list (option str))
  : option (list (str * xml)) :=
  let smart_sections := extract_smart_sections pages in
  if negb (nonempty smart_sections) then None
  else
    let smart_sections := merge_short_sections smart_sections in
    let total_dms := length smart_sections in
    Some (map (fun '(i, section) =>
                 (create_meaningful_filename (title section) i,
                  create_smart_s1000d_dm today section i total_dms))
              (combine (seq 1 total_dms) smart_sections)).

(** ** The module list and the report *)

(** The entries [process_smart_pdf] keeps of each module it writes and
    gives to the report. *)
Record created_module : Type := mkCreated {
  cm_filename : str;
  cm_title : str;
  cm_module_code : str;
  cm_page : Z;
  cm_section_type : module_type
}.

(** [create_smart_report] groups the modules by type in a dictionary, which
    keeps its keys in the order they were first set:
    [if module_type not in module_types: module_types[module_type] = []]
    and then [module_types[module_type].append(module)]. *)
Fixpoint types_add (module_types : list (module_type * list created_module))
  (module : created_module) : list (module_type * list created_module) :=
  match module_types with
  | [] => [(cm_section_type module, [module])]
  | (module_type, type_modules) :: rest =>
      if module_type_eq_dec module_type (cm_section_type module)
      then (module_type, type_modules ++ [module]) :: rest
      else (module_type, type_modules) :: types_add rest module
  end.

Definition group_by_type (modules : list created_module)
  : list (module_type * list created_module) :=
  fold_left types_add modules [].

(** The statistics lines of the report: a type and the number of its
    modules. *)
Definition report_statistics (modules : list created_module)
  : list (module_type * nat) :=
  map (fun '(module_type, type_modules) => (module_type, length type_modules))
      (group_by_type modules).

(** The page range [create_module_list] writes. *)
Definition page_range (section : section) : str :=
  if negb (start_page section =? end_page section)%Z
  then str_of_Z (start_page section) ++ py "-" ++ str_of_Z (end_page section)
  else str_of_Z (start_page section).

(** A row of [module_list.csv] as it is given to the writer. *)
Record list_row : Type := mkRow {
  row_number : nat;
  row_filename : str;
  row_title : str;
  row_module_code : str;
  row_page_range : str;
  row_content_type : content_type
}.

(** The rows [create_module_list] writes after the header. *)
Definition module_list_rows (smart_sections : list section) : list list_row :=
  map (fun '(i, section) =>
         mkRow i (create_meaningful_filename (title section) i)
               (title section) (module_code section) (page_range section)
               (detect_content_type section))
      (combine (seq 1 (length smart_sections)) smart_sections).

(** ** Statements and sample inputs

    The predicates the properties below are stated with, the readings of
    the specification that are compared with the code, and the inputs the
    properties are tried on. *)


(** A section in which no keyword of the classifiers occurs. *)
Definition plain_section : section :=
  {| title := py "Wing layout"; content := py "Two spars and ribs.";
     module_code := py "DMC-GN016"; start_page := 1; end_page := 2;
     section_type := GENERAL; page_count := 2;
     content_summary := py "Type: General Information";
     applicability := General; has_graphics := false |}.

(** A text of three chapters: the first runs over pages 1 and 2, the second
    and the third take less than a page each. *)
Definition manual_text : str :=
  join [nl] (map py
    ["[PAGE_1]"; "CHAPTER 1"; "Airframe layout.";
     "[PAGE_3]"; "CHAPTER 2"; "Fitted to the F-16A only.";
     "[PAGE_4]"; "CHAPTER 3"; "Closing remarks."]).

(** The section of a chapter heading, which has no domain keyword. *)
Definition chapter (n : string) (body : string) (first last count : Z)
  (summary : string) (a : applic) : section :=
  {| title := py "CHAPTER " ++ py n; content := py body;
     module_code := py "DMC-GN016"; start_page := first; end_page := last;
     section_type := GENERAL; page_count := count;
     content_summary := py summary; applicability := a;
     has_graphics := false |}.

(** The sections of [manual_text]. *)
Definition manual_sections : list section :=
  [chapter "1" "Airframe layout." 1 2 2 "Type: General Information" General;
   chapter "2" "Fitted to the F-16A only." 3 3 1
           "Technical: F-16 | Type: General Information" F16_A;
   chapter "3" "Closing remarks." 4 4 1 "Type: General Information" General].

(** The text a section brings to the merged sequence: its own content, and
    when it is taken in by the section before it, two line ends, its title
    and a line end in front of that. *)
Definition merged_piece (s : section) : str :=
  if (page_span s <? 1)%Z
  then [nl; nl] ++ title s ++ [nl] ++ content s
  else content s.

(** The reading of the specification: the contents, put end to end, are the
    same before and after the merge. *)
Definition conserves_content (ss : list section) : Prop :=
  concat (map content (merge_short_sections ss)) = concat (map content ss).

(** The end pages from [e] on never go down. *)
Fixpoint ends_from (e : Z) (ss : list section) : Prop :=
  match ss with
  | [] => True
  | s :: rest => (e <= end_page s)%Z /\ ends_from (end_page s) rest
  end.

(** The end pages of a sequence of sections never go down. *)
Definition ends_nondecreasing (ss : list section) : Prop :=
  match ss with
  | [] => True
  | first :: rest => ends_from (end_page first) rest
  end.

(** The reading of the specification: one pass is enough, and it leaves no
    section of less than a page, the first included. *)
Definition merge_converges (ss : list section) : Prop :=
  merge_short_sections (merge_short_sections ss) = merge_short_sections ss /\
  Forall (fun s => (1 <= page_span s)%Z) (merge_short_sections ss).

(** A first chapter that ends on the page it starts on, followed by one of
    three pages: the merger returns both as they are. *)
Definition two_chapter_text : str :=
  join [nl] (map py
    ["[PAGE_1]"; "CHAPTER 1"; "Airframe layout.";
     "[PAGE_2]"; "CHAPTER 2"; "Engine bay."; "[PAGE_4]"; "Exhaust nozzle."]).

(** The sections of [two_chapter_text]. *)
Definition two_chapters : list section :=
  [chapter "1" "Airframe layout." 1 1 1 "Type: General Information" General;
   {| title := py "CHAPTER 2";
      content := py "Engine bay." ++ [nl] ++ py "Exhaust nozzle.";
      module_code := py "DMC-GN016"; start_page := 2; end_page := 4;
      section_type := GENERAL; page_count := 3;
      content_summary := py "Type: General Information";
      applicability := General; has_graphics := false |}].

(** The page number a line sets, when the loop reads it as a page marker. *)
Definition page_mark (raw : str) : option Z :=
  let line := strip raw in
  if nonempty line && startswith (py "[PAGE_") line
  then py_int (replace (py "]") [] (replace (py "[PAGE_") [] line))
  else None.

(** The page numbers the loop reads, in order. *)
Definition page_marks (lines : list str) : list Z :=
  flat_map (fun raw => match page_mark raw with
                       | Some n => [n]
                       | None => []
                       end) lines.

(** The page numbers from [p] on never go down. *)
Fixpoint pages_from (p : Z) (marks : list Z) : Prop :=
  match marks with
  | [] => True
  | q :: rest => (p <= q)%Z /\ pages_from q rest
  end.

(** The page markers of a text never go down, from page 1 on. *)
Definition pages_nondecreasing (text : str) : Prop :=
  pages_from 1 (page_marks (split_on nl text)).

(** A section ends no earlier than the page before the one it starts on,
    and its page count is that of its page range. *)
Definition page_bounds (s : section) : Prop :=
  (start_page s <= end_page s + 1)%Z /\
  page_count s = (end_page s - start_page s + 1)%Z.

(** What the loop keeps true: the saved sections are within bounds and the
    open section did not start after the current page. *)
Definition parser_ok (st : parser) : Prop :=
  Forall page_bounds (sections st) /\
  forall cur, current_section st = Some cur -> (o_page cur <= current_page st)%Z.



(** [re.sub(r'\s+', ' ', s)], one character at a time: [in_ws] says that
    the character before was white space. *)
Fixpoint collapse_from (in_ws : bool) (s : str) : str :=
  match s with
  | [] => []
  | c :: t =>
      if is_space c
      then if in_ws then collapse_from true t else sp :: collapse_from true t
      else c :: collapse_from false t
  end.

(** A word: not empty and without white space. *)
Definition is_token (w : str) : Prop := w <> [] /\ existsb is_space w = false.



(** No two spaces in a row. *)
Fixpoint no_double_space (s : str) : bool :=
  match s with
  | [] => true
  | a :: t =>
      match t with
      | b :: _ => negb ((a =? sp)%N && (b =? sp)%N)
      | [] => true
      end && no_double_space t
  end.

(** No paragraph has two spaces in a row. *)
Definition all_tidy (ps : list str) : Prop :=
  Forall (fun p => no_double_space p = true) ps.

(** The reading of the specification: every paragraph of an input of fifty
    characters or more is 20 to 500 characters long, is not blank and has
    no two spaces in a row. *)
Definition paragraph_bounds (content : str) : Prop :=
  50 <= length (strip content) ->
  Forall (fun p => 20 <= length p <= 500 /\ strip p <> [] /\
                   no_double_space p = true)
         (split_content_into_paragraphs content).

(** A title of thirteen characters above a body of fifty-nine. *)
Definition titled_content : str :=
  py "ENGINE SYSTEM" ++ [nl]
  ++ py "The engine of the aircraft is a turbofan with afterburner.".






(** A content with two page tags, two technical terms and one sentence of
    the right length. *)
Definition tagged_content : str :=
  py "see [PAGE_10] and [PAGE_9]. The F-16 is a multirole fighter aircraft.".

(** Every section the assembler saves carries the summary, the applicability
    and the graphics flag of its own content. *)
Definition enriched (s : section) : Prop :=
  content_summary s = create_content_summary (content s) /\
  applicability s = detect_applicability (content s) /\
  has_graphics s = detect_graphics (content s).

(** What the loop keeps true of the end pages: they never go down and all
    lie before the current page. *)
Definition ends_ok (st : parser) : Prop :=
  ends_nondecreasing (sections st) /\
  Forall (fun s => (end_page s < current_page st)%Z) (sections st).

(** A line the assembler reads as a page marker: not blank and, once
    stripped, starting with "[PAGE_". *)
Definition marker_line (raw : str) : bool :=
  nonempty (strip raw) && startswith (py "[PAGE_") (strip raw).

(** A line the assembler reads as a heading, and one it reads as body. *)
Definition heading_line (raw : str) : bool :=
  nonempty (strip raw) && negb (startswith (py "[PAGE_") (strip raw))
  && is_main_heading (strip raw).
Definition body_line (raw : str) : bool :=
  nonempty (strip raw) && negb (startswith (py "[PAGE_") (strip raw))
  && negb (is_main_heading (strip raw)).

(** The body lines of a text, stripped, from the first heading on;
    [in_section] says that a heading has been seen. *)
Fixpoint body_lines (in_section : bool) (lines : list str) : list str :=
  match lines with
  | [] => []
  | raw :: rest =>
      if heading_line raw then body_lines true rest
      else if in_section && body_line raw
           then strip raw :: body_lines in_section rest
           else body_lines in_section rest
  end.

(** No line of a text reads as a page marker. *)
Definition no_marker_lines (text : str) : Prop :=
  Forall (fun raw => marker_line raw = false) (split_on nl text).

(** No page text of a document holds a line that reads as a page marker. *)
Definition pages_unmarked (pages : list (option str)) : Prop :=
  Forall (fun page => match page with
                      | Some page_text => no_marker_lines page_text
                      | None => True
                      end) pages.

(** The numbers of the pages that have text, the first page of the list
    being page [page_num + 1]. *)
Fixpoint text_pages_from (page_num : nat) (pages : list (option str)) : list Z :=
  match pages with
  | [] => []
  | page :: rest =>
      match page with
      | Some (_ :: _) => [Z.of_nat (page_num + 1)]
      | _ => []
      end ++ text_pages_from (S page_num) rest
  end.

(** A section as the assembler makes it: the title is a heading, the
    content is not empty, the type is that of the title and the code that
    of the type. *)
Definition assembled (s : section) : Prop :=
  is_main_heading (title s) = true /\ strip (title s) = title s /\
  title s <> [] /\ content s <> [] /\
  section_type s = detect_module_type (title s) /\
  module_code s = dict_get module_codes (section_type s) (py "DMC-GN016").

(** A sample document of four pages, the second without text. *)
Definition manual_pages : list (option str) :=
  [Some (py "CHAPTER 1" ++ [nl] ++ py "Airframe layout."); None;
   Some (py "CHAPTER 2" ++ [nl] ++ py "Fitted to the F-16A only.");
   Some (py "CHAPTER 3" ++ [nl] ++ py "Closing remarks.")].

(** A line that, if it reads as a page marker, holds a number. *)
Definition readable (raw : str) : Prop :=
  marker_line raw = true -> page_mark raw <> None.

(** The open section of the loop is as the assembler makes it. *)
Definition open_ok (cur : open_section) : Prop :=
  is_main_heading (o_title cur) = true /\ strip (o_title cur) = o_title cur /\
  o_title cur <> [] /\
  o_type cur = detect_module_type (o_title cur) /\
  o_module_code cur = dict_get module_codes (o_type cur) (py "DMC-GN016").

(** A text without line end. *)
Definition one_line (l : str) : Prop :=
  forallb (fun c => negb (c =? nl)%N) l = true.

(** The lines held by the loop: those of the sections saved and those
    collected for the open section. *)
Definition lines_held (st : parser) : list str :=
  flat_map (fun s => split_on nl (content s)) (sections st)
  ++ current_content st.

(** What the loop keeps true of the lines collected: there are none while
    no section is open, and each is one line. *)
Definition content_ok (st : parser) : Prop :=
  (current_section st = None -> current_content st = []) /\
  Forall one_line (current_content st).

Definition is_open (st : parser) : bool :=
  match current_section st with Some _ => true | None => false end.

(** A text with a page marker and two body lines but no heading. *)
Definition plain_text : str :=
  py "[PAGE_1]" ++ [nl] ++ py "Airframe layout." ++ [nl] ++ py "Engine bay.".

(** A section that spans less than a page, which the merger folds into the
    section before it. *)
Definition short_section (s : section) : bool := (page_span s <? 1)%Z.

(** What a merged section keeps of the section that opened it. *)
Definition section_head (s : section)
  : str * str * Z * module_type * Z * applic :=
  (title s, module_code s, start_page s, section_type s, page_count s,
   applicability s).

(** The summary of a section is that of its content, and its graphics flag
    is only set when the content names a graphic. *)
Definition in_step (s : section) : Prop :=
  content_summary s = create_content_summary (content s) /\
  (has_graphics s = true -> detect_graphics (content s) = true).

(** What is left of [s] after the longest run of characters of the class
    [p] it starts with. *)
Fixpoint drop_class (p : char -> bool) (s : str) : str :=
  match s with
  | [] => []
  | c :: t => if p c then drop_class p t else s
  end.

(** [re.sub(p+, x, s)] for a class [p] and one character [x], one character
    at a time: [in_run] says that the character before was of the class. *)
Fixpoint squeeze (p : char -> bool) (x : char) (in_run : bool) (s : str) : str :=
  match s with
  | [] => []
  | c :: t =>
      if p c
      then if in_run then squeeze p x true t else x :: squeeze p x true t
      else c :: squeeze p x false t
  end.


(** The characters of a file name stem: ASCII letters, digits and the
    underscore. *)
Definition stem_char (c : char) : bool :=
  is_az c || is_AZ c || is_digit c || (c =? ord "_")%N.




(** The texts of the [para] elements of a tree, in document order. *)
Fixpoint para_texts (x : xml) : list str :=
  match x with
  | Element tag _ text children =>
      (if str_eqb tag (py "para")
       then [match text with Some t => t | None => [] end]
       else [])
      ++ flat_map para_texts children
  end.

(** The element at the end of a path of tags. *)
Fixpoint xml_path (path : list string) (x : xml) : option xml :=
  match path with
  | [] => Some x
  | tag :: rest =>
      match xml_find tag x with
      | Some child => xml_path rest child
      | None => None
      end
  end.

(** The attribute of an element, read as an integer. *)
Definition attr_int (x : xml) (key : string) : option Z :=
  match attr_get (xml_attrib x) (py key) with
  | Some v => py_int v
  | None => None
  end.

(** The code a title is filed under. *)
Definition code_of_title (title : str) : str :=
  dict_get module_codes (detect_module_type title) (py "DMC-GN016").

(** What a row of the module list says of a module and what the document
    of the module says agree. *)
Definition row_matches (row : list_row) (module : str * xml) : Prop :=
  row_filename row = fst module /\
  exists info ident,
    xml_path ["content"; "description"; "moduleInfo"] (snd module) = Some info /\
    xml_path ["dmStatus"; "ident"] (snd module) = Some ident /\
    attr_int info "moduleNumber" = Some (Z.of_nat (row_number row)) /\
    attr_get (xml_attrib info) (py "sourcePage") = Some (row_page_range row) /\
    attr_get (xml_attrib info) (py "contentType")
    = Some (content_type_name (row_content_type row)) /\
    attr_get (xml_attrib ident) (py "subSystemCode")
    = Some (row_module_code row).

(** The modules of a type, in their order. *)
Definition of_type (k : module_type) (modules : list created_module)
  : list created_module :=
  filter (fun m => if module_type_eq_dec (cm_section_type m) k
                   then true else false) modules.

(** What the loop of the report keeps true of the groups it has made of the
    modules read so far. *)
Definition groups_ok (groups : list (module_type * list created_module))
  (modules : list created_module) : Prop :=
  NoDup (map fst groups) /\
  (forall k ms, In (k, ms) groups -> ms = of_type k modules /\ ms <> []) /\
  (forall m, In m modules -> In (cm_section_type m) (map fst groups)) /\
  list_sum (map (fun g => length (snd g)) groups) = length modules.

(** * Properties *)

(** ** Characters *)





(** ** Line classifier *)





(** C4.  The third acceptance test upper-cases the line before it asks
    whether the line is upper-case, so a lower-case line of forty characters
    that matches none of the other acceptance tests is taken for a
    heading. *)
Theorem lower_case_line_is_heading :
  let line := py "the engine was started before takeoff ok" in
  isupper line = false /\ length line = 40 /\
  accept_chapter line = false /\ accept_numbered line = false /\
  accept_keyword line = false /\
  is_main_heading line = true.
Proof. vm_compute. repeat split; reflexivity. Qed.

(** ** Classification defaults *)

Ltac in_list := simpl; repeat first [left; reflexivity | right].

Lemma detect_module_type_default (t : str) :
  (forall kw, In kw domain_keywords -> has kw (upper t) = false) ->
  detect_module_type t = GENERAL.
Proof.
  intros H. unfold detect_module_type. cbv zeta.
  rewrite !H by in_list. reflexivity.
Qed.

Lemma detect_applicability_default (c : str) :
  (forall kw, In kw variant_tokens -> has kw (upper c) = false) ->
  detect_applicability c = General.
Proof.
  intros H. unfold detect_applicability. cbv zeta.
  rewrite !H by in_list. reflexivity.
Qed.

Lemma detect_content_type_default (t c : str) :
  (forall ct tk bk, In (ct, tk, bk) content_tiers ->
     any_in tk (upper t) = false /\ any_in bk (upper c) = false) ->
  detect_content_type_of t c = CT_MAIN_HEADING_SECTION.
Proof.
  intros H. unfold detect_content_type_of. cbv zeta.
  repeat match goal with
         | |- context [any_in ?kws (upper t)] =>
             match goal with
             | |- context [any_in ?kws' (upper c)] =>
                 let ct := fresh "ct" in
                 evar (ct : content_type);
                 destruct (H ct kws kws') as [-> ->];
                 [subst ct; in_list | subst ct]
             end
         end.
  reflexivity.
Qed.

(** C9.  The three classifiers are total functions, and an input in which
    none of their keywords occurs gets the default: [GENERAL] for the
    domain of a title, [MAIN_HEADING_SECTION] for the content type of a
    section, [General] for the applicability of a content. *)
Theorem classifiers_fall_through (t : str) (s : section) (c : str)
  (Hdomain : forall kw, In kw domain_keywords -> has kw (upper t) = false)
  (Htiers : forall ct tk bk, In (ct, tk, bk) content_tiers ->
              any_in tk (upper (title s)) = false /\
              any_in bk (upper (content s)) = false)
  (Hvariant : forall kw, In kw variant_tokens -> has kw (upper c) = false) :
  detect_module_type t = GENERAL /\
  detect_content_type s = CT_MAIN_HEADING_SECTION /\
  detect_applicability c = General.
Proof.
  split; [now apply detect_module_type_default|].
  split; [now apply detect_content_type_default|].
  now apply detect_applicability_default.
Qed.

Lemma classifiers_fall_through_witness :
  detect_module_type (py "Wing layout") = GENERAL /\
  detect_content_type plain_section = CT_MAIN_HEADING_SECTION /\
  detect_applicability (py "Two spars and ribs.") = General.
Proof.
  apply (classifiers_fall_through (py "Wing layout") plain_section
           (py "Two spars and ribs.")).
  - intros kw Hin. simpl in Hin.
    repeat (destruct Hin as [<- | Hin]; [vm_compute; reflexivity|]).
    destruct Hin.
  - intros ct tk bk Hin. simpl in Hin.
    repeat (destruct Hin as [Heq | Hin];
            [inversion Heq; subst; split; vm_compute; reflexivity|]).
    destruct Hin.
  - intros kw Hin. simpl in Hin.
    repeat (destruct Hin as [<- | Hin]; [vm_compute; reflexivity|]).
    destruct Hin.
Defined.

(** ** Section merger *)

Lemma manual_text_sections :
  parse_main_headings_only manual_text = Some manual_sections.
Proof. vm_compute. reflexivity. Qed.

Lemma merge_loop_content (rest merged : list section) (current : section) :
  concat (map content (merge_loop merged current rest)) =
  concat (map content merged) ++ content current
  ++ concat (map merged_piece rest).
Proof.
  revert merged current.
  induction rest as [|s rest IH]; intros merged current; simpl.
  - rewrite map_app, concat_app. simpl. now rewrite !app_nil_r.
  - unfold merged_piece at 1. destruct (page_span s <? 1)%Z.
    + rewrite IH. cbn [absorb content].
      repeat (rewrite <- app_assoc; cbn [app]). reflexivity.
    + rewrite IH, map_app, concat_app. cbn [map concat].
      now rewrite app_nil_r, <- !app_assoc.
Qed.

(** C2, as amended.  The contents of the merged sections, put end to end,
    are the contents of the given sections in their order, none dropped and
    none repeated, where each section that was taken in by its predecessor
    (any section but the first whose page span is under one) is preceded by
    two line ends, its title and a line end. *)
Theorem merge_keeps_content_adds_titles (ss : list section) :
  concat (map content (merge_short_sections ss)) =
  match ss with
  | [] => []
  | first :: rest => content first ++ concat (map merged_piece rest)
  end.
Proof.
  destruct ss as [|first [|second rest]]; [reflexivity | reflexivity |].
  unfold merge_short_sections. now rewrite merge_loop_content.
Qed.

(** Two chapters are taken in by the first and their titles come with
    them. *)
Lemma merge_adds_title_lines : ~ conserves_content manual_sections.
Proof. unfold conserves_content. vm_compute. discriminate. Qed.

(** The merger leaves alone a sequence in which every section after the
    first spans a page or more. *)
Lemma merge_loop_fixed (rest merged : list section) (current : section) :
  Forall (fun s => (1 <= page_span s)%Z) rest ->
  merge_loop merged current rest = merged ++ current :: rest.
Proof.
  revert merged current.
  induction rest as [|s rest IH]; intros merged current H; simpl.
  - reflexivity.
  - inversion H as [|? ? Hs Hrest]; subst.
    replace (page_span s <? 1)%Z with false by (symmetry; apply Z.ltb_ge; lia).
    rewrite IH by assumption. now rewrite <- app_assoc.
Qed.

Lemma merge_fixed (ss : list section) :
  Forall (fun s => (1 <= page_span s)%Z) (tl ss) ->
  merge_short_sections ss = ss.
Proof.
  destruct ss as [|first [|second rest]]; [reflexivity | reflexivity |].
  intros H. unfold merge_short_sections. now rewrite merge_loop_fixed.
Qed.

Lemma merge_loop_prefix (rest merged : list section) (current : section) :
  merge_loop merged current rest = merged ++ merge_loop [] current rest.
Proof.
  revert merged current.
  induction rest as [|s rest IH]; intros merged current; simpl.
  - reflexivity.
  - destruct (page_span s <? 1)%Z.
    + apply IH.
    + rewrite IH, (IH [current]). now rewrite <- app_assoc.
Qed.

Lemma merge_loop_shape (rest : list section) (current : section) :
  ends_from (end_page current) rest ->
  exists current' out,
    merge_loop [] current rest = current' :: out /\
    start_page current' = start_page current /\
    (end_page current <= end_page current')%Z /\
    Forall (fun s => (1 <= page_span s)%Z) out.
Proof.
  revert current.
  induction rest as [|s rest IH]; intros current H; simpl.
  - exists current, []. repeat split; [lia | constructor].
  - destruct H as [Hle Hrest].
    destruct (page_span s <? 1)%Z eqn:Hspan.
    + destruct (IH (absorb current s)) as (c' & out & -> & Hstart & Hend & Hout);
        [exact Hrest|].
      exists c', out. simpl in Hstart, Hend. repeat split; auto; lia.
    + apply Z.ltb_ge in Hspan.
      destruct (IH s Hrest) as (s' & out & Heq & Hstart & Hend & Hout).
      rewrite merge_loop_prefix, Heq.
      exists current, (s' :: out). repeat split; [lia|].
      constructor; [|exact Hout]. unfold page_span in *. lia.
Qed.

(** After one pass over a sequence whose end pages never go down, every
    section but the first spans a page or more. *)
Lemma merge_tail_spans (ss : list section) :
  ends_nondecreasing ss ->
  Forall (fun s => (1 <= page_span s)%Z) (tl (merge_short_sections ss)).
Proof.
  intros Hends.
  destruct ss as [|first [|second rest]]; [constructor | constructor |].
  unfold merge_short_sections.
  destruct (merge_loop_shape (second :: rest) first Hends)
    as (c' & out & -> & _ & _ & Hout).
  exact Hout.
Qed.

(** C6, as amended.  For a sequence of sections whose end pages never go
    down, merging the merged sequence again changes nothing, and every
    section of the merged sequence but the first spans a page or more; the
    first is kept whatever its span, as there is no section before it to
    take it in. *)
Theorem merge_idempotent_after_first (ss : list section)
  (Hends : ends_nondecreasing ss) :
  merge_short_sections (merge_short_sections ss) = merge_short_sections ss /\
  Forall (fun s => (1 <= page_span s)%Z) (tl (merge_short_sections ss)).
Proof.
  pose proof (merge_tail_spans ss Hends) as Htl.
  split; [now apply merge_fixed | exact Htl].
Qed.

Lemma merge_idempotent_after_first_witness :
  merge_short_sections (merge_short_sections manual_sections)
  = merge_short_sections manual_sections /\
  Forall (fun s => (1 <= page_span s)%Z)
         (tl (merge_short_sections manual_sections)).
Proof.
  apply (merge_idempotent_after_first manual_sections).
  simpl. lia.
Defined.

Lemma two_chapter_text_sections :
  parse_main_headings_only two_chapter_text = Some two_chapters.
Proof. vm_compute. reflexivity. Qed.

Lemma first_section_kept_short : ~ merge_converges two_chapters.
Proof.
  unfold merge_converges. intros [_ H].
  inversion H as [|s l Hs _]; subst.
  vm_compute in Hs. apply Hs. reflexivity.
Qed.

(** Without the order on end pages a second pass can still merge: the
    second section takes in a third that ends before it starts. *)
Lemma merge_twice_differs_unordered :
  let ss := [chapter "1" "a" 1 5 5 "Type: General Information" General;
             chapter "2" "b" 2 5 4 "Type: General Information" General;
             chapter "3" "c" 1 1 1 "Type: General Information" General] in
  merge_short_sections (merge_short_sections ss) <> merge_short_sections ss.
Proof. vm_compute. discriminate. Qed.

(** C7.  When a section takes in a shorter one the merger recomputes the
    summary and the graphics flag from the merged content but leaves the
    applicability as it was: the three chapters of [manual_text] become one
    section whose content names the F-16A and whose applicability still is
    [General]. *)
Theorem merged_applicability_not_recomputed :
  exists merged,
    parse_main_headings_only manual_text = Some manual_sections /\
    merge_short_sections manual_sections = [merged] /\
    Forall (fun s => applicability s = detect_applicability (content s))
           manual_sections /\
    content_summary merged = create_content_summary (content merged) /\
    applicability merged = General /\
    detect_applicability (content merged) = F16_A.
Proof.
  eexists. split; [exact manual_text_sections|].
  split; [vm_compute; reflexivity|].
  split; [repeat constructor|].
  vm_compute. repeat split; reflexivity.
Qed.

(** ** Section assembler *)

Lemma flush_ok (st : parser) (final : bool) :
  parser_ok st -> Forall page_bounds (flush st final).
Proof.
  intros [Hsec Hcur]. unfold flush.
  destruct (current_section st) as [cur|] eqn:Ecur; [|exact Hsec].
  destruct (current_content st) as [|l body]; [exact Hsec|].
  apply Forall_app. split; [exact Hsec|].
  constructor; [|constructor].
  specialize (Hcur cur eq_refl).
  unfold page_bounds, close_section; destruct final; simpl; lia.
Qed.

Lemma parse_line_ok (st st' : parser) (raw : str) :
  parser_ok st ->
  parse_line st raw = Some st' ->
  (forall n, page_mark raw = Some n -> (current_page st <= n)%Z) ->
  parser_ok st' /\
  current_page st' = match page_mark raw with
                     | Some n => n
                     | None => current_page st
                     end.
Proof.
  intros Hok Hstep Hmark. unfold parse_line in Hstep.
  unfold page_mark in *. cbv zeta in *.
  destruct (nonempty (strip raw)) eqn:Hne; cbn [negb andb] in *.
  2:{ inversion Hstep; subst. now split. }
  destruct (startswith (py "[PAGE_") (strip raw)) eqn:Hpage.
  - destruct (py_int _) as [n|] eqn:Hint; [|discriminate].
    inversion Hstep; subst; clear Hstep. split; [|reflexivity].
    destruct Hok as [Hsec Hcur]. split; [exact Hsec|]. simpl.
    intros cur Hc. specialize (Hcur cur Hc). specialize (Hmark n eq_refl). lia.
  - destruct (is_main_heading (strip raw)).
    + inversion Hstep; subst; clear Hstep. split; [|reflexivity].
      split; simpl.
      * now apply flush_ok.
      * intros cur Hc. inversion Hc; subst. simpl. lia.
    + destruct (current_section st) as [cur|] eqn:Ecur;
        inversion Hstep; subst; clear Hstep; (split; [|reflexivity]).
      * destruct Hok as [Hsec Hcur]. split; simpl; [exact Hsec|].
        rewrite Ecur in *. exact Hcur.
      * exact Hok.
Qed.

Lemma parse_lines_ok (lines : list str) (st st' : parser) :
  parser_ok st ->
  pages_from (current_page st) (page_marks lines) ->
  parse_lines st lines = Some st' ->
  parser_ok st'.
Proof.
  revert st. induction lines as [|raw lines IH]; intros st Hok Hpages Hrun.
  - inversion Hrun; subst. exact Hok.
  - simpl in Hrun. destruct (parse_line st raw) as [st1|] eqn:Hstep;
      [|discriminate].
    simpl in Hpages.
    destruct (parse_line_ok st st1 raw Hok Hstep) as [Hok1 Hpage1].
    + intros n Hn. rewrite Hn in Hpages. simpl in Hpages. tauto.
    + apply (IH st1 Hok1); [|exact Hrun].
      rewrite Hpage1. destruct (page_mark raw); simpl in Hpages; tauto.
Qed.





(** ** White space: [\s+], [strip] and [split] *)

(** One step of a greedy repetition of a character class. *)
Lemma bt_star_chr (p : char -> bool) (c : char) (t : str)
  (k : str -> option str) :
  bt (Star (Chr p)) (c :: t) k =
  if p c then match bt (Star (Chr p)) t k with
              | Some x => Some x
              | None => k (c :: t)
              end
  else k (c :: t).
Proof.
  cbn [bt length]. destruct (p c); [|reflexivity].
  replace (length t <? S (length t)) with true
    by (symmetry; apply Nat.ltb_lt; lia).
  reflexivity.
Qed.

Lemma bt_star_space (s : str) :
  bt (Star (Chr is_space)) s (@Some str) = Some (lstrip s).
Proof.
  induction s as [|c t IH].
  - reflexivity.
  - rewrite bt_star_chr, IH. simpl. now destruct (is_space c).
Qed.

Lemma length_lstrip (s : str) : length (lstrip s) <= length s.
Proof.
  induction s as [|c t IH]; simpl; [lia|].
  destruct (is_space c); simpl; lia.
Qed.

(** The match of [\s+] at the start of a text: the white space it starts
    with. *)
Lemma match_len_ws (c : char) (t : str) :
  match_len re_ws (c :: t) =
  if is_space c then Some (S (length t - length (lstrip t))) else None.
Proof.
  unfold match_len, re_rest, re_ws, Plus, cls_s.
  change (bt (Cat (Chr is_space) (Star (Chr is_space))) (c :: t) (@Some str))
    with (if is_space c then bt (Star (Chr is_space)) t (@Some str) else None).
  destruct (is_space c); [|reflexivity].
  rewrite bt_star_space. cbn [option_map length].
  pose proof (length_lstrip t). f_equal. lia.
Qed.

Lemma re_sub_skip (r : regex) (repl : str) (s : str) (k : nat) :
  re_sub_from r repl k s = re_sub_from r repl 0 (skipn k s).
Proof.
  revert k. induction s as [|c t IH]; intros [|k]; try reflexivity.
  simpl. apply IH.
Qed.

Lemma skipn_lstrip (s : str) : skipn (length s - length (lstrip s)) s = lstrip s.
Proof.
  induction s as [|c t IH]; [reflexivity|].
  simpl lstrip. destruct (is_space c).
  - pose proof (length_lstrip t).
    replace (length (c :: t) - length (lstrip t))
      with (S (length t - length (lstrip t))) by (cbn [length]; lia).
    cbn [skipn]. exact IH.
  - now rewrite Nat.sub_diag.
Qed.

Lemma collapse_lstrip (s : str) :
  collapse_from true s = collapse_from false (lstrip s).
Proof.
  induction s as [|c t IH]; [reflexivity|].
  simpl. destruct (is_space c) eqn:Hc; [exact IH|].
  simpl. now rewrite Hc.
Qed.

Lemma re_sub_ws_collapse (s : str) :
  re_sub re_ws [sp] s = collapse_from false s.
Proof.
  unfold re_sub.
  remember (length s) as n eqn:Hn. revert s Hn.
  induction n as [n IH] using lt_wf_ind. intros [|c t] Hn; [reflexivity|].
  cbn [re_sub_from]. rewrite match_len_ws. cbn [collapse_from].
  destruct (is_space c).
  - rewrite re_sub_skip, skipn_lstrip, collapse_lstrip.
    rewrite (IH (length (lstrip t))); [reflexivity | | reflexivity].
    pose proof (length_lstrip t). simpl in Hn. lia.
  - rewrite (IH (length t)); [reflexivity | simpl in Hn; lia | reflexivity].
Qed.

Lemma lstrip_decomp (s : str) :
  exists ws, forallb is_space ws = true /\ s = ws ++ lstrip s.
Proof.
  induction s as [|c t (ws & Hws & Heq)]; [now exists []|].
  simpl. destruct (is_space c) eqn:Hc.
  - exists (c :: ws). simpl. rewrite Hc, Hws. split; [reflexivity|].
    now rewrite <- Heq.
  - now exists [].
Qed.

Lemma rstrip_decomp (s : str) :
  exists ws, forallb is_space ws = true /\ s = rstrip s ++ ws.
Proof.
  unfold rstrip. destruct (lstrip_decomp (rev s)) as (ws & Hws & Heq).
  exists (rev ws). split.
  - rewrite forallb_forall in *. intros x Hx. apply Hws. now apply in_rev.
  - rewrite <- rev_app_distr, <- Heq. now rewrite rev_involutive.
Qed.

Lemma strip_decomp (s : str) :
  exists l r, forallb is_space l = true /\ forallb is_space r = true /\
              s = l ++ strip s ++ r.
Proof.
  unfold strip.
  destruct (lstrip_decomp s) as (l & Hl & Heq).
  destruct (rstrip_decomp (lstrip s)) as (r & Hr & Heq').
  exists l, r. repeat split; auto. now rewrite <- Heq'.
Qed.







Lemma split_ws_from_tokens (s cur : str) :
  existsb is_space cur = false -> Forall is_token (split_ws_from cur s).
Proof.
  revert cur. induction s as [|c t IH]; intros cur Hcur; simpl.
  - destruct cur; repeat constructor; [discriminate | exact Hcur].
  - destruct (is_space c) eqn:Hc.
    + destruct cur; [now apply IH|].
      constructor; [split; [discriminate | exact Hcur] | now apply IH].
    + apply IH. rewrite existsb_app, Hcur. simpl. now rewrite Hc.
Qed.

Lemma split_ws_tokens (s : str) : Forall is_token (split_ws s).
Proof. now apply split_ws_from_tokens. Qed.



(** ** Paragraph cleaning *)







(** ** Paragraphs *)

Lemma nds_app_r (a b : str) :
  no_double_space (a ++ b) = true -> no_double_space b = true.
Proof.
  induction a as [|x a IH]; [auto|].
  cbn [app no_double_space]. intros H. apply andb_true_iff in H as [_ H]. auto.
Qed.

Lemma nds_app_l (a b : str) :
  no_double_space (a ++ b) = true -> no_double_space a = true.
Proof.
  induction a as [|x a IH]; [reflexivity|].
  cbn [app no_double_space]. intros H. apply andb_true_iff in H as [H1 H2].
  rewrite (IH H2), andb_true_r. destruct a; [reflexivity | exact H1].
Qed.

Lemma nds_strip (s : str) :
  no_double_space s = true -> no_double_space (strip s) = true.
Proof.
  destruct (strip_decomp s) as (l & r & _ & _ & Heq). intros H.
  rewrite Heq in H. apply nds_app_r in H. now apply nds_app_l in H.
Qed.

Lemma not_space_not_sp (c : char) : is_space c = false -> (c =? sp)%N = false.
Proof.
  intros H. apply N.eqb_neq. intros ->. discriminate.
Qed.

Lemma collapse_head (s : str) :
  match collapse_from true s with
  | c :: _ => is_space c = false
  | [] => True
  end.
Proof.
  induction s as [|c t IH]; simpl; [exact I|].
  destruct (is_space c) eqn:Hc; [exact IH | exact Hc].
Qed.

Lemma nds_collapse (s : str) (in_ws : bool) :
  no_double_space (collapse_from in_ws s) = true.
Proof.
  revert in_ws. induction s as [|c t IH]; intros in_ws; [reflexivity|].
  cbn [collapse_from]. destruct (is_space c) eqn:Hc.
  - destruct in_ws; [apply IH|].
    cbn [no_double_space]. rewrite IH, andb_true_r.
    pose proof (collapse_head t) as Hh.
    destruct (collapse_from true t) as [|b l]; [reflexivity|].
    now rewrite (not_space_not_sp b Hh), andb_false_r.
  - cbn [no_double_space]. rewrite IH, andb_true_r.
    rewrite (not_space_not_sp c Hc).
    now destruct (collapse_from false t).
Qed.

Lemma nds_tidy (s : str) :
  no_double_space (strip (re_sub re_ws [sp] s)) = true.
Proof. apply nds_strip. rewrite re_sub_ws_collapse. apply nds_collapse. Qed.

Lemma nds_token_space (w r : str) :
  existsb is_space w = false ->
  match r with b :: _ => is_space b = false | [] => True end ->
  no_double_space r = true ->
  no_double_space (w ++ sp :: r) = true.
Proof.
  intros Hw Hr Hnds. induction w as [|c t IH].
  - cbn [app no_double_space]. rewrite Hnds, andb_true_r.
    destruct r as [|b r']; [reflexivity|].
    now rewrite (not_space_not_sp b Hr), andb_false_r.
  - simpl in Hw. apply orb_false_iff in Hw as [Hc Ht].
    cbn [app no_double_space]. rewrite (IH Ht), andb_true_r.
    rewrite (not_space_not_sp c Hc). now destruct (t ++ sp :: r).
Qed.

Lemma nds_token (w : str) :
  existsb is_space w = false -> no_double_space w = true.
Proof.
  induction w as [|c t IH]; [reflexivity|].
  simpl. intros H. apply orb_false_iff in H as [Hc Ht].
  rewrite (IH Ht), andb_true_r, (not_space_not_sp c Hc). now destruct t.
Qed.

Lemma join_head (ws : list str) :
  Forall is_token ws ->
  match join [sp] ws with b :: _ => is_space b = false | [] => True end.
Proof.
  intros H. destruct ws as [|w ws]; [exact I|].
  inversion H as [|? ? [Hne Hw] _]; subst.
  destruct w as [|c t]; [contradiction|].
  simpl in Hw. apply orb_false_iff in Hw as [Hc _].
  simpl. now destruct ws.
Qed.

Lemma nds_join (ws : list str) :
  Forall is_token ws -> no_double_space (join [sp] ws) = true.
Proof.
  induction ws as [|w ws IH]; intros H; [reflexivity|].
  inversion H as [|? ? [Hne Hw] Hws]; subst.
  cbn [join]. destruct ws as [|w' ws'].
  - now apply nds_token.
  - apply nds_token_space; [exact Hw | now apply join_head | now apply IH].
Qed.

Lemma nds_clean_paragraph (text : str) :
  no_double_space (clean_paragraph text) = true.
Proof.
  unfold clean_paragraph. cbv zeta.
  destruct (negb (nonempty text)); [reflexivity|].
  match goal with |- context [length ?t <? 10] => destruct (length t <? 10) end;
    [reflexivity|].
  match goal with |- context [length ?t <? 20] => destruct (length t <? 20) end;
    [reflexivity|].
  apply nds_tidy.
Qed.

Lemma nds_clean_title_line (line : str) :
  no_double_space (clean_title_line line) = true.
Proof.
  unfold clean_title_line. cbv zeta.
  destruct (negb (nonempty line)); [reflexivity|].
  match goal with |- context [length ?t <? 5] => destruct (length t <? 5) end;
    [reflexivity|].
  apply nds_tidy.
Qed.

Lemma all_tidy_snoc (ps : list str) (p : str) :
  all_tidy ps -> no_double_space p = true -> all_tidy (ps ++ [p]).
Proof.
  intros H Hp. apply Forall_app. split; [exact H | now constructor].
Qed.

Lemma flush_paragraph_tidy (ps cur : list str) :
  all_tidy ps -> all_tidy (flush_paragraph ps cur).
Proof.
  intros H. unfold flush_paragraph. cbv zeta.
  destruct (nonempty _); [|exact H].
  apply all_tidy_snoc; [exact H | apply nds_clean_paragraph].
Qed.

Lemma paragraph_loop_tidy (lines ps cur : list str) :
  all_tidy ps -> all_tidy (fst (paragraph_loop lines ps cur)).
Proof.
  revert ps cur. induction lines as [|raw lines IH]; intros ps cur H.
  - exact H.
  - cbn [paragraph_loop]. cbv zeta.
    destruct (negb (nonempty (strip raw))).
    + destruct (nonempty cur); apply IH; [now apply flush_paragraph_tidy|exact H].
    + destruct ((length (strip raw) <? 40)
                && (isupper (strip raw) || is_likely_title (strip raw))).
      * apply IH.
        assert (H1 : all_tidy (if nonempty cur then flush_paragraph ps cur
                               else ps))
          by (destruct (nonempty cur); [now apply flush_paragraph_tidy|exact H]).
        destruct (nonempty (clean_title_line (strip raw))); [|exact H1].
        apply all_tidy_snoc; [exact H1 | apply nds_clean_title_line].
      * destruct (300 <? _); apply IH;
          [now apply flush_paragraph_tidy | exact H].
Qed.

(** The pieces and the matched texts of a split, put end to end, are the
    text that was split. *)
Lemma re_split_from_concat (r : regex) (s cur : str) (skip : nat) :
  concat (re_split_from r true cur skip s) = cur ++ skipn skip s.
Proof.
  revert cur skip. induction s as [|c t IH]; intros cur skip.
  - destruct skip; reflexivity.
  - destruct skip as [|k]; cbn [re_split_from skipn].
    + destruct (match_len r (c :: t)) as [[|n]|].
      * rewrite IH. cbn [skipn]. now rewrite <- app_assoc.
      * cbn [concat app]. rewrite IH. cbn [app firstn].
        now rewrite firstn_skipn.
      * rewrite IH. cbn [skipn]. now rewrite <- app_assoc.
    + apply IH.
Qed.

Lemma re_split_group_parts (r : regex) (s : str) :
  exists first others,
    re_split_group r s = first :: others /\ first ++ concat others = s.
Proof.
  pose proof (re_split_from_concat r s [] 0) as H.
  unfold re_split_group.
  destruct (re_split_from r true [] 0 s) as [|first others] eqn:E.
  - destruct s as [|c t]; [discriminate E|].
    cbn [re_split_from] in E.
    destruct (match_len r (c :: t)) as [[|n]|]; try discriminate E.
    + destruct t; discriminate H.
    + destruct t; discriminate H.
  - exists first, others. split; [reflexivity | exact H].
Qed.

Lemma split_loop_tidy (patterns : list regex) (ps : list str) (text : str) :
  all_tidy ps -> no_double_space text = true ->
  all_tidy (fst (split_loop patterns ps text)) /\
  no_double_space (snd (split_loop patterns ps text)) = true.
Proof.
  revert ps text. induction patterns as [|pattern rest IH]; intros ps text Hps Ht.
  - now split.
  - cbn [split_loop]. cbv zeta.
    destruct (length text <=? 500); [now split|].
    destruct (re_split_group_parts pattern text) as (first & others & -> & Heq).
    cbn [hd tl].
    destruct (1 <? length (first :: others)); [|now apply IH].
    assert (Hfirst : no_double_space (strip first) = true).
    { apply nds_strip. rewrite <- Heq in Ht. now apply nds_app_l in Ht. }
    assert (Hrem : no_double_space (strip (concat others)) = true).
    { apply nds_strip. rewrite <- Heq in Ht. now apply nds_app_r in Ht. }
    set (ps' := if nonempty (strip first) && (20 <? length (strip first))
                then ps ++ [strip first] else ps).
    assert (Hps' : all_tidy ps').
    { unfold ps'. destruct (_ && _); [now apply all_tidy_snoc | exact Hps]. }
    destruct (nonempty (strip (concat others))); [now apply IH|].
    now split.
Qed.

Lemma all_tidy_parts (ws : list str) (n : nat) :
  Forall is_token ws ->
  Forall is_token (firstn n ws) /\ Forall is_token (skipn n ws).
Proof.
  intros H. rewrite <- (firstn_skipn n ws) in H. now apply Forall_app in H.
Qed.

Lemma split_long_paragraph_tidy (text : str) :
  no_double_space text = true -> all_tidy (split_long_paragraph text).
Proof.
  intros Ht. unfold split_long_paragraph.
  destruct (length text <=? 500); [now repeat constructor|].
  destruct (split_loop_tidy split_points [] text)
    as [Hps Hct]; [constructor | exact Ht |].
  destruct (split_loop split_points [] text) as [ps ct].
  cbn [fst snd] in Hps, Hct. cbv zeta.
  set (ps' := if nonempty (strip ct) && (20 <? length (strip ct))
              then ps ++ [strip ct] else ps).
  assert (Hps' : all_tidy ps').
  { unfold ps'. destruct (_ && _); [|exact Hps].
    apply all_tidy_snoc; [exact Hps | now apply nds_strip]. }
  destruct ps' as [|only [|second more]]; [now repeat constructor | | exact Hps'].
  destruct ((500 <? length only) && (50 <? length (split_ws only)));
    [|exact Hps'].
  destruct (all_tidy_parts (split_ws only) (length (split_ws only) / 2)
              (split_ws_tokens only))
    as [H1 H2].
  repeat constructor; now apply nds_join.
Qed.

(** C5, as amended.  For every input of fifty characters or more once
    stripped, every paragraph emitted is more than ten characters long once
    stripped, so neither empty nor blank, and has no two spaces in a row.
    A paragraph can be shorter than twenty characters: a short title-like
    line is emitted as a paragraph of its own once [clean_title_line] has
    kept it, and only paragraphs of ten characters or fewer are dropped. *)
Theorem paragraphs_are_tidy (content : str)
  (Hlong : 50 <= length (strip content)) :
  Forall (fun p => 10 < length (strip p) /\ strip p <> [] /\ p <> [] /\
                   no_double_space p = true)
         (split_content_into_paragraphs content).
Proof.
  unfold split_content_into_paragraphs.
  replace (length (strip content) <? 50) with false
    by (symmetry; apply Nat.ltb_ge; exact Hlong).
  destruct content as [|c0 content0]; [simpl in Hlong; lia|].
  cbn [nonempty negb orb].
  set (lines := split_on nl _).
  pose proof (paragraph_loop_tidy lines [] [] (Forall_nil _)) as Hloop.
  destruct (paragraph_loop lines [] []) as [ps cur]. cbn [fst] in Hloop.
  cbv zeta.
  set (ps' := if nonempty cur then flush_paragraph ps cur else ps).
  assert (Hps' : all_tidy ps').
  { unfold ps'. destruct (nonempty cur);
      [now apply flush_paragraph_tidy | exact Hloop]. }
  apply Forall_forall. intros p Hp.
  apply filter_In in Hp as [Hin Hkeep].
  apply andb_true_iff in Hkeep as [Hne Hlen]. apply Nat.ltb_lt in Hlen.
  assert (Hstrip : strip p <> []) by (intros E; rewrite E in Hlen; simpl in Hlen; lia).
  repeat split; [exact Hlen | exact Hstrip | |].
  - intros ->. now apply Hstrip.
  - apply in_flat_map in Hin as (para & Hpara & Hin).
    unfold all_tidy in Hps'. rewrite Forall_forall in Hps'.
    specialize (Hps' para Hpara).
    destruct (500 <? length para).
    + pose proof (split_long_paragraph_tidy para Hps') as Hsplit.
      unfold all_tidy in Hsplit. rewrite Forall_forall in Hsplit. now apply Hsplit.
    + destruct Hin as [<- | []]. exact Hps'.
Qed.

Lemma paragraphs_are_tidy_witness :
  Forall (fun p => 10 < length (strip p) /\ strip p <> [] /\ p <> [] /\
                   no_double_space p = true)
         (split_content_into_paragraphs titled_content).
Proof.
  apply (paragraphs_are_tidy titled_content).
  vm_compute. repeat constructor.
Defined.

Lemma title_paragraph_under_twenty : ~ paragraph_bounds titled_content.
Proof.
  unfold paragraph_bounds. intros H.
  assert (Hlong : 50 <= length (strip titled_content))
    by (vm_compute; repeat constructor).
  specialize (H Hlong).
  assert (Hps : split_content_into_paragraphs titled_content
                = [py "ENGINE SYSTEM";
                   py "The engine of the aircraft is turbofan with afterburner."])
    by (vm_compute; reflexivity).
  rewrite Hps in H. inversion H as [|p l [[Hlo _] _] _]; subst.
  vm_compute in Hlo. lia.
Qed.

(** Nor is five hundred an upper bound: a paragraph of twenty-six words of
    twenty letters has no split point and too few words to be cut in two. *)
Lemma long_paragraph_kept_whole :
  let content := join [sp] (repeat (py "abcdefghijklmnopqrst") 26) in
  length content = 545 /\ split_content_into_paragraphs content = [content].
Proof. vm_compute. split; reflexivity. Qed.

(** ** Content summary *)














Lemma tagged_content_summary :
  create_content_summary tagged_content
  = py "Pages: 10-9 | Technical: F-16, Aircraft | Type: General Information | Description: The F-16 is a multirole fighter aircraft".
Proof. vm_compute. reflexivity. Qed.


(** A sentence of exactly thirty characters is passed over, and the length
    that counts is the one before cleaning. *)
Lemma thirty_character_sentence_skipped :
  length (py "General layout of the airframe") = 30 /\
  create_content_summary (py "General layout of the airframe.")
  = py "Type: General Information".
Proof. vm_compute. split; reflexivity. Qed.

Lemma empty_content_summary :
  create_content_summary [] = py "No content available".
Proof. reflexivity. Qed.

(** ** What the assembler hands to the merger *)

Lemma flush_enriched (st : parser) (final : bool) :
  Forall enriched (sections st) -> Forall enriched (flush st final).
Proof.
  intros H. unfold flush.
  destruct (current_section st) as [cur|]; [|exact H].
  destruct (current_content st) as [|l body]; [exact H|].
  apply Forall_app. split; [exact H|]. repeat constructor.
Qed.

Lemma parse_line_enriched (st st' : parser) (raw : str) :
  parse_line st raw = Some st' ->
  Forall enriched (sections st) -> Forall enriched (sections st').
Proof.
  unfold parse_line. cbv zeta. intros Hstep H.
  destruct (negb (nonempty (strip raw))); [now inversion Hstep; subst|].
  destruct (startswith (py "[PAGE_") (strip raw)).
  - destruct (py_int _); [|discriminate]. now inversion Hstep; subst.
  - destruct (is_main_heading (strip raw)).
    + inversion Hstep; subst. cbn [sections]. now apply flush_enriched.
    + destruct (current_section st); now inversion Hstep; subst.
Qed.

Lemma assembled_sections_enriched (text : str) (ss : list section) :
  parse_main_headings_only text = Some ss -> Forall enriched ss.
Proof.
  unfold parse_main_headings_only.
  assert (Hrun : forall lines st st',
             parse_lines st lines = Some st' ->
             Forall enriched (sections st) -> Forall enriched (sections st')).
  { induction lines as [|raw lines IH]; intros st st' Hrun H.
    - now inversion Hrun; subst.
    - simpl in Hrun. destruct (parse_line st raw) as [st1|] eqn:Hstep;
        [|discriminate].
      apply (IH st1 st' Hrun). now apply (parse_line_enriched st st1 raw Hstep). }
  destruct (parse_lines parser_init (split_on nl text)) as [st|] eqn:E;
    [|discriminate].
  intros Hss. inversion Hss; subst. apply flush_enriched.
  apply (Hrun _ _ _ E). constructor.
Qed.

Lemma ends_from_snoc (ss : list section) (s : section) (e : Z) :
  ends_from e ss -> (e <= end_page s)%Z ->
  Forall (fun x => (end_page x <= end_page s)%Z) ss ->
  ends_from e (ss ++ [s]).
Proof.
  revert e. induction ss as [|x ss IH]; intros e He Hes Hall; simpl.
  - now split.
  - destruct He as [Hex Hrest]. inversion Hall as [|? ? Hx Hall']; subst.
    split; [exact Hex | now apply IH].
Qed.

Lemma ends_nondecreasing_snoc (ss : list section) (s : section) :
  ends_nondecreasing ss ->
  Forall (fun x => (end_page x <= end_page s)%Z) ss ->
  ends_nondecreasing (ss ++ [s]).
Proof.
  destruct ss as [|x ss]; [intros; exact I|].
  intros He Hall. inversion Hall as [|? ? Hx Hall']; subst.
  simpl. now apply ends_from_snoc.
Qed.

Lemma flush_ends (st : parser) (final : bool) :
  ends_ok st ->
  ends_nondecreasing (flush st final) /\
  (final = false ->
   Forall (fun s => (end_page s < current_page st)%Z) (flush st final)).
Proof.
  intros [Hs Hall]. unfold flush.
  destruct (current_section st) as [cur|]; [|now split].
  destruct (current_content st) as [|l body]; [now split|].
  split.
  - apply ends_nondecreasing_snoc; [exact Hs|].
    eapply Forall_impl; [|exact Hall]. intros x Hx.
    destruct final; cbn in Hx |- *; lia.
  - intros ->. apply Forall_app. split; [exact Hall|].
    repeat constructor. simpl. lia.
Qed.

Lemma parse_line_ends (st st' : parser) (raw : str) :
  ends_ok st ->
  parse_line st raw = Some st' ->
  (forall n, page_mark raw = Some n -> (current_page st <= n)%Z) ->
  ends_ok st'.
Proof.
  intros Hok Hstep Hmark. unfold parse_line in Hstep.
  unfold page_mark in Hmark. cbv zeta in *.
  destruct (nonempty (strip raw)) eqn:Hne; cbn [negb andb] in *.
  2:{ now inversion Hstep; subst. }
  destruct (startswith (py "[PAGE_") (strip raw)) eqn:Hpage.
  - destruct (py_int _) as [n|] eqn:Hint; [|discriminate].
    inversion Hstep; subst; clear Hstep.
    destruct Hok as [Hs Hall]. split; [exact Hs|]. cbn [sections current_page].
    specialize (Hmark n eq_refl).
    eapply Forall_impl; [|exact Hall]. intros x Hx. simpl in Hx. lia.
  - destruct (is_main_heading (strip raw)).
    + inversion Hstep; subst; clear Hstep.
      destruct (flush_ends st false Hok) as [H1 H2].
      split; cbn [sections current_page]; [exact H1 | now apply H2].
    + destruct (current_section st); inversion Hstep; subst; exact Hok.
Qed.

Lemma parse_lines_ends (lines : list str) (st st' : parser) :
  ends_ok st ->
  pages_from (current_page st) (page_marks lines) ->
  parse_lines st lines = Some st' ->
  ends_ok st'.
Proof.
  revert st. induction lines as [|raw lines IH]; intros st Hok Hpages Hrun.
  - now inversion Hrun; subst.
  - simpl in Hrun. destruct (parse_line st raw) as [st1|] eqn:Hstep;
      [|discriminate].
    simpl in Hpages.
    assert (Hmark : forall n, page_mark raw = Some n ->
                              (current_page st <= n)%Z).
    { intros n Hn. rewrite Hn in Hpages. simpl in Hpages. tauto. }
    pose proof (parse_line_ends st st1 raw Hok Hstep Hmark) as Hok1.
    apply (IH st1 Hok1); [|exact Hrun].
    assert (Hpage1 : current_page st1
                     = match page_mark raw with
                       | Some n => n
                       | None => current_page st
                       end).
    { clear - Hstep. unfold parse_line, page_mark in *. cbv zeta in *.
      destruct (nonempty (strip raw)); cbn [negb andb] in *;
        [|now inversion Hstep].
      destruct (startswith (py "[PAGE_") (strip raw)).
      - destruct (py_int _); [now inversion Hstep | discriminate].
      - destruct (is_main_heading (strip raw)); [now inversion Hstep|].
        destruct (current_section st); now inversion Hstep. }
    rewrite Hpage1. destruct (page_mark raw); simpl in Hpages; tauto.
Qed.

(** The sections of a text whose page markers never go down have end pages
    that never go down. *)
Lemma assembled_ends_nondecreasing (text : str) (ss : list section) :
  pages_nondecreasing text ->
  parse_main_headings_only text = Some ss ->
  ends_nondecreasing ss.
Proof.
  unfold parse_main_headings_only. intros Hpages Hparse.
  destruct (parse_lines parser_init (split_on nl text)) as [st|] eqn:Hrun;
    [|discriminate].
  inversion Hparse; subst; clear Hparse.
  apply flush_ends.
  apply (parse_lines_ends (split_on nl text) parser_init st).
  - split; [exact I | constructor].
  - exact Hpages.
  - exact Hrun.
Qed.

(** So a second pass of the merger changes nothing to what the first pass
    made of an assembled text. *)
Lemma merge_idempotent_on_assembled (text : str) (ss : list section) :
  pages_nondecreasing text ->
  parse_main_headings_only text = Some ss ->
  merge_short_sections (merge_short_sections ss) = merge_short_sections ss.
Proof.
  intros Hpages Hparse. apply merge_fixed, merge_tail_spans.
  now apply (assembled_ends_nondecreasing text).
Qed.

(** * Further properties *)

(** ** Numbers written and read back *)

Lemma is_digit_not_space (c : char) : is_digit c = true -> is_space c = false.
Proof.
  unfold is_digit, is_space, between, mem_char. intros H.
  apply andb_true_iff in H as [H1 H2].
  apply N.leb_le in H1, H2. cbn [existsb].
  repeat match goal with
         | |- context [(?a <=? ?b)%N] =>
             destruct (N.leb_spec a b); try lia
         | |- context [(?a =? ?b)%N] =>
             destruct (N.eqb_spec a b); try lia
         end.
Qed.

Lemma chars_of_uint_digits (d : Decimal.uint) :
  forallb is_digit (chars_of_uint d) = true.
Proof. induction d; simpl; auto. Qed.

Lemma to_uint_nonnil (n : nat) : Nat.to_uint n <> Decimal.Nil.
Proof.
  intros E. pose proof (DecimalNat.Unsigned.of_to n) as H.
  rewrite E in H. simpl in H. subst n. discriminate E.
Qed.

Lemma str_of_nat_digits (n : nat) : forallb is_digit (str_of_nat n) = true.
Proof. apply chars_of_uint_digits. Qed.

Lemma str_of_nat_nonempty (n : nat) : str_of_nat n <> [].
Proof.
  unfold str_of_nat. pose proof (to_uint_nonnil n) as H.
  destruct (Nat.to_uint n); try discriminate. contradiction.
Qed.

(** Reading digits one by one computes what [Nat.of_uint] computes. *)
Lemma int_digits_uint (d : Decimal.uint) (acc : nat) (after : bool) :
  int_digits (Z.of_nat acc) after (chars_of_uint d) =
  match d with
  | Decimal.Nil => if after then Some (Z.of_nat acc) else None
  | _ => Some (Z.of_nat (Nat.of_uint_acc d acc))
  end.
Proof.
  revert acc after.
  induction d as [|d IH|d IH|d IH|d IH|d IH|d IH|d IH|d IH|d IH|d IH];
    intros acc after; [reflexivity|..];
    cbn [chars_of_uint int_digits Nat.of_uint_acc];
    match goal with
    | |- context [is_digit ?c] =>
        replace (is_digit c) with true by reflexivity
    end;
    match goal with
    | |- int_digits ?z true _ = _ =>
        match goal with
        | |- _ = Some (Z.of_nat (Nat.of_uint_acc _ ?a)) =>
            replace z with (Z.of_nat a)
              by (rewrite Nat.tail_mul_spec; simpl Z.of_N; lia)
        end
    end;
    rewrite IH; destruct d; reflexivity.
Qed.

Lemma int_digits_str_of_nat (n : nat) (after : bool) :
  int_digits 0 after (str_of_nat n) = Some (Z.of_nat n).
Proof.
  unfold str_of_nat. change 0%Z with (Z.of_nat 0).
  rewrite int_digits_uint.
  pose proof (to_uint_nonnil n) as Hn.
  pose proof (DecimalNat.Unsigned.of_to n) as Hof. unfold Nat.of_uint in Hof.
  destruct (Nat.to_uint n); try contradiction; now rewrite Hof.
Qed.

Lemma int_digits_zeros (k : nat) (s : str) (after : bool) :
  s <> [] ->
  int_digits 0 after (repeat (ord "0") k ++ s) = int_digits 0 (after || (0 <? k)) s.
Proof.
  intros Hs. revert after. induction k as [|k IH]; intros after.
  - simpl. now rewrite orb_false_r.
  - cbn [repeat app int_digits].
    replace (is_digit (ord "0")) with true by reflexivity.
    change (10 * 0 + Z.of_N (ord "0" - 48))%Z with 0%Z.
    rewrite IH. simpl. now rewrite orb_true_r.
Qed.

(** A text without white space at either end is its own [strip]. *)
Lemma lstrip_fixed (s : str) :
  match s with c :: _ => is_space c = false | [] => True end -> lstrip s = s.
Proof. destruct s as [|c t]; [reflexivity|]. simpl. now intros ->. Qed.

Lemma existsb_rev_eq {A : Type} (f : A -> bool) (l : list A) :
  existsb f (rev l) = existsb f l.
Proof.
  induction l as [|x l IH]; [reflexivity|].
  simpl. rewrite existsb_app, IH. simpl. rewrite orb_false_r. apply orb_comm.
Qed.

Lemma strip_no_space (s : str) : existsb is_space s = false -> strip s = s.
Proof.
  intros H. unfold strip, rstrip.
  assert (Hl : forall t, existsb is_space t = false -> lstrip t = t).
  { intros [|c t] Ht; [reflexivity|]. simpl in *.
    apply orb_false_iff in Ht as [Hc _]. now rewrite Hc. }
  rewrite (Hl s H), Hl; [apply rev_involutive|].
  rewrite existsb_rev_eq. exact H.
Qed.

Lemma digits_no_space (s : str) :
  forallb is_digit s = true -> existsb is_space s = false.
Proof.
  induction s as [|c t IH]; [reflexivity|]. simpl. intros H.
  apply andb_true_iff in H as [Hc Ht].
  now rewrite (is_digit_not_space c Hc), (IH Ht).
Qed.

Lemma py_int_digits (s : str) :
  forallb is_digit s = true -> py_int s = int_digits 0 false s.
Proof.
  intros H. unfold py_int. rewrite (strip_no_space s (digits_no_space s H)).
  destruct s as [|c t]; [reflexivity|].
  simpl in H. apply andb_true_iff in H as [Hc _].
  unfold is_digit, between in Hc. apply andb_true_iff in Hc as [H1 H2].
  apply N.leb_le in H1, H2.
  destruct c as [|p]; [lia|].
  do 6 (destruct p as [p|p|]; try reflexivity; try lia).
Qed.

Lemma format_0d_digits (w n : nat) : forallb is_digit (format_0d w n) = true.
Proof.
  unfold format_0d. rewrite forallb_app, str_of_nat_digits, andb_true_r.
  induction (w - length (str_of_nat n)); simpl; auto.
Qed.

Lemma format_0d_nonempty (w n : nat) : format_0d w n <> [].
Proof.
  unfold format_0d. intros E. apply app_eq_nil in E as [_ E].
  now apply (str_of_nat_nonempty n).
Qed.

Lemma py_int_str_of_nat (n : nat) : py_int (str_of_nat n) = Some (Z.of_nat n).
Proof.
  rewrite py_int_digits by apply str_of_nat_digits.
  apply int_digits_str_of_nat.
Qed.

Lemma py_int_format_0d (w n : nat) : py_int (format_0d w n) = Some (Z.of_nat n).
Proof.
  rewrite py_int_digits by apply format_0d_digits.
  unfold format_0d. rewrite int_digits_zeros by apply str_of_nat_nonempty.
  apply int_digits_str_of_nat.
Qed.

Lemma py_int_str_of_Z (z : Z) : py_int (str_of_Z z) = Some z.
Proof.
  unfold str_of_Z. destruct (z <? 0)%Z eqn:Hz.
  - apply Z.ltb_lt in Hz. unfold py_int.
    assert (Hs : strip (ord "-" :: str_of_nat (Z.to_nat (- z)))
                 = ord "-" :: str_of_nat (Z.to_nat (- z))).
    { apply strip_no_space. cbn [existsb].
      now rewrite (digits_no_space _ (str_of_nat_digits _)). }
    rewrite Hs. change (ord "-") with 45%N. cbv iota beta.
    rewrite int_digits_str_of_nat. simpl. f_equal. lia.
  - apply Z.ltb_ge in Hz. rewrite py_int_str_of_nat. f_equal. lia.
Qed.

(** ** Page markers and lines *)

Lemma replace_absent (old new s : str) (o : char) (rest : str) :
  old = o :: rest -> forallb (fun c => negb (o =? c)%N) s = true ->
  replace old new s = s.
Proof.
  intros -> H. unfold replace. induction s as [|c t IH]; [reflexivity|].
  simpl in H. apply andb_true_iff in H as [Hc Ht].
  cbn [replace_from startswith]. apply negb_true_iff in Hc. rewrite Hc.
  cbn [andb]. now rewrite (IH Ht).
Qed.

Lemma replace_single_remove (c : char) (s : str) :
  replace [c] [] s = filter (fun x => negb (c =? x)%N) s.
Proof.
  unfold replace. induction s as [|x t IH]; [reflexivity|].
  cbn [replace_from startswith filter length Nat.sub app].
  rewrite andb_true_r. destruct (c =? x)%N; cbn [negb]; now rewrite IH.
Qed.

Lemma digit_is_not (c x : char) :
  is_digit x = true -> is_digit c = false -> (c =? x)%N = false.
Proof.
  intros Hx Hc. apply N.eqb_neq. intros ->. congruence.
Qed.

Lemma digits_avoid (c : char) (s : str) :
  is_digit c = false -> forallb is_digit s = true ->
  forallb (fun x => negb (c =? x)%N) s = true.
Proof.
  intros Hc. induction s as [|x t IH]; [reflexivity|]. simpl. intros H.
  apply andb_true_iff in H as [Hx Ht].
  now rewrite (digit_is_not c x Hx Hc), (IH Ht).
Qed.

Lemma filter_all {A : Type} (f : A -> bool) (l : list A) :
  forallb f l = true -> filter f l = l.
Proof.
  induction l as [|x l IH]; [reflexivity|]. simpl. intros H.
  apply andb_true_iff in H as [Hx Hl]. now rewrite Hx, (IH Hl).
Qed.

Lemma page_tag_no_space (n : nat) : existsb is_space (page_tag n) = false.
Proof.
  unfold page_tag. rewrite !existsb_app.
  now rewrite (digits_no_space _ (str_of_nat_digits n)).
Qed.

(** What is left of a page marker once "[PAGE_" and "]" are taken out is
    the number. *)
Lemma page_tag_number (n : nat) :
  replace (py "]") [] (replace (py "[PAGE_") [] (page_tag n)) = str_of_nat n.
Proof.
  assert (H1 : replace (py "[PAGE_") [] (page_tag n)
               = str_of_nat n ++ py "]").
  { unfold page_tag, replace.
    change (replace_from (py "[PAGE_") [] 0
              (py "[PAGE_" ++ str_of_nat n ++ py "]"))
      with (replace (py "[PAGE_") [] (str_of_nat n ++ py "]")).
    apply (replace_absent (py "[PAGE_") [] _ (ord "[") (py "PAGE_"));
      [reflexivity|].
    rewrite forallb_app. apply andb_true_iff. split; [|reflexivity].
    apply digits_avoid; [reflexivity | apply str_of_nat_digits]. }
  rewrite H1. change (py "]") with [ord "]"].
  rewrite replace_single_remove, filter_app. cbn [filter app].
  replace (ord "]" =? ord "]")%N with true by reflexivity. cbn [negb].
  rewrite app_nil_r. apply filter_all, digits_avoid;
    [reflexivity | apply str_of_nat_digits].
Qed.

Lemma page_mark_tag (n : nat) : page_mark (page_tag n) = Some (Z.of_nat n).
Proof.
  unfold page_mark. cbv zeta.
  rewrite (strip_no_space _ (page_tag_no_space n)), page_tag_number.
  replace (nonempty (page_tag n) && startswith (py "[PAGE_") (page_tag n))
    with true by reflexivity.
  apply py_int_str_of_nat.
Qed.

(** X1.  The marker line that [extract_smart_sections] writes in front of
    page [n] is read back by the assembler as page [n]: the line sets the
    current page to [n] and changes nothing else. *)
Theorem page_marker_round_trip (n : nat) (st : parser) :
  parse_line st (page_tag n) =
  Some (mkParser (sections st) (current_section st) (current_content st)
                 (Z.of_nat n)).
Proof.
  unfold parse_line. cbv zeta.
  rewrite (strip_no_space _ (page_tag_no_space n)), page_tag_number.
  replace (nonempty (page_tag n)) with true by reflexivity.
  replace (startswith (py "[PAGE_") (page_tag n)) with true by reflexivity.
  cbn [negb]. now rewrite py_int_str_of_nat.
Qed.

(** ** When the assembler fails *)

Lemma parse_line_none (st : parser) (raw : str) :
  parse_line st raw = None <->
  marker_line raw = true /\ page_mark raw = None.
Proof.
  unfold parse_line, marker_line, page_mark. cbv zeta.
  destruct (nonempty (strip raw)); cbn [negb andb].
  2:{ split; [discriminate | intros [H _]; discriminate H]. }
  destruct (startswith (py "[PAGE_") (strip raw)).
  - destruct (py_int _); split; try discriminate; auto.
    intros [_ H]; discriminate H.
  - split; [|intros [H _]; discriminate H].
    destruct (is_main_heading (strip raw)); [discriminate|].
    destruct (current_section st); discriminate.
Qed.

Lemma parse_lines_none (lines : list str) (st : parser) :
  parse_lines st lines = None <->
  Exists (fun raw => marker_line raw = true /\ page_mark raw = None) lines.
Proof.
  revert st. induction lines as [|raw lines IH]; intros st; simpl.
  - split; [discriminate | intros H; inversion H].
  - destruct (parse_line st raw) as [st1|] eqn:Hstep.
    + rewrite IH. split; [now right|].
      intros H. inversion H as [? ? Hbad | ? ? Hrest]; subst; [|exact Hrest].
      apply (parse_line_none st raw) in Hbad. congruence.
    + split; [|reflexivity]. intros _. left.
      now apply (parse_line_none st raw).
Qed.

Lemma assembler_fails_on_bad_marker_aux (text : str) :
  parse_main_headings_only text = None ->
  Exists (fun raw => marker_line raw = true /\ page_mark raw = None)
         (split_on nl text).
Proof.
  unfold parse_main_headings_only. intros H.
  apply (parse_lines_none _ parser_init).
  destruct (parse_lines parser_init (split_on nl text)); [discriminate|].
  reflexivity.
Qed.


(** ** The lines of an extracted document *)

Lemma split_on_from_app (sep : char) (a b cur : str) :
  split_on_from sep cur (a ++ sep :: b) =
  split_on_from sep cur a ++ split_on_from sep [] b.
Proof.
  revert cur. induction a as [|c a IH]; intros cur; simpl.
  - now rewrite N.eqb_refl.
  - destruct (c =? sep)%N; [now rewrite IH | apply IH].
Qed.

Lemma split_on_from_no_sep (sep : char) (s cur : str) :
  forallb (fun c => negb (c =? sep)%N) s = true ->
  split_on_from sep cur s = [cur ++ s].
Proof.
  revert cur. induction s as [|c s IH]; intros cur H; simpl.
  - now rewrite app_nil_r.
  - simpl in H. apply andb_true_iff in H as [Hc Hs].
    apply negb_true_iff in Hc. rewrite Hc, (IH _ Hs).
    now rewrite <- app_assoc.
Qed.

Lemma page_tag_one_line (n : nat) : split_on nl (page_tag n) = [page_tag n].
Proof.
  unfold split_on. apply split_on_from_no_sep.
  unfold page_tag. rewrite !forallb_app.
  apply andb_true_iff. split; [reflexivity|].
  apply andb_true_iff. split; [|reflexivity].
  pose proof (str_of_nat_digits n) as H.
  induction (str_of_nat n) as [|c s IH]; [reflexivity|]. simpl in *.
  apply andb_true_iff in H as [Hc Hs]. rewrite (IH Hs), andb_true_r.
  apply negb_true_iff, N.eqb_neq. intros ->. discriminate Hc.
Qed.

Lemma page_marks_app (a b : list str) :
  page_marks (a ++ b) = page_marks a ++ page_marks b.
Proof. apply flat_map_app. Qed.

Lemma page_mark_unmarked (raw : str) :
  marker_line raw = false -> page_mark raw = None.
Proof.
  unfold marker_line, page_mark. cbv zeta. now intros ->.
Qed.

Lemma page_marks_unmarked (lines : list str) :
  Forall (fun raw => marker_line raw = false) lines -> page_marks lines = [].
Proof.
  induction 1 as [|raw lines Hraw _ IH]; [reflexivity|].
  simpl. now rewrite (page_mark_unmarked raw Hraw), IH.
Qed.

(** The lines of the text of a page that has text, followed by the text of
    the pages after it. *)
Lemma page_lines (n : nat) (page_text rest : str) :
  split_on nl ((page_tag n ++ [nl] ++ page_text ++ [nl; nl]) ++ rest) =
  page_tag n :: split_on nl page_text ++ [] :: split_on nl rest.
Proof.
  unfold split_on.
  replace ((page_tag n ++ [nl] ++ page_text ++ [nl; nl]) ++ rest)
    with (page_tag n ++ nl :: (page_text ++ nl :: ([] ++ nl :: rest)))
    by (cbn [app]; rewrite <- !app_assoc; cbn [app];
        now rewrite <- !app_assoc).
  rewrite !split_on_from_app.
  change (split_on_from nl [] (page_tag n)) with (split_on nl (page_tag n)).
  now rewrite page_tag_one_line.
Qed.

Lemma full_text_lines (pages : list (option str)) (page_num : nat) :
  pages_unmarked pages ->
  page_marks (split_on nl (full_text_from page_num pages))
  = text_pages_from page_num pages /\
  Forall readable (split_on nl (full_text_from page_num pages)).
Proof.
  intros H. revert page_num.
  induction H as [|page pages Hpage _ IH]; intros page_num.
  - split; [reflexivity|]. repeat constructor. intros E. discriminate E.
  - destruct (IH (S page_num)) as [IH1 IH2].
    destruct page as [[|c page_text]|];
      try (cbn [full_text_from text_pages_from app]; split; assumption).
    change (full_text_from page_num (Some (c :: page_text) :: pages))
      with ((page_tag (page_num + 1) ++ [nl] ++ (c :: page_text) ++ [nl; nl])
            ++ full_text_from (S page_num) pages).
    cbn [text_pages_from].
    rewrite page_lines. split.
    + cbn [page_marks flat_map]. rewrite page_mark_tag.
      change (flat_map _ ?l) with (page_marks l).
      rewrite page_marks_app, (page_marks_unmarked _ Hpage).
      cbn [page_marks flat_map app]. change (flat_map _ ?l) with (page_marks l).
      replace (page_mark []) with (@None Z) by reflexivity.
      cbn [app]. now rewrite IH1.
    + constructor.
      * intros _. rewrite page_mark_tag. discriminate.
      * apply Forall_app. split.
        -- eapply Forall_impl; [|exact Hpage]. intros raw Hraw E. congruence.
        -- constructor; [intros E; discriminate E | exact IH2].
Qed.

Lemma pages_from_weaken (p q : Z) (marks : list Z) :
  (p <= q)%Z -> pages_from q marks -> pages_from p marks.
Proof. destruct marks as [|m marks]; simpl; [auto|]. intros ? [? ?]. split; [lia | auto]. Qed.

Lemma text_pages_from_sorted (pages : list (option str)) (page_num : nat) :
  pages_from (Z.of_nat (page_num + 1)) (text_pages_from page_num pages).
Proof.
  revert page_num. induction pages as [|page pages IH]; intros page_num;
    [exact I|].
  specialize (IH (S page_num)).
  assert (Hrest : pages_from (Z.of_nat (page_num + 1))
                             (text_pages_from (S page_num) pages)).
  { apply (pages_from_weaken _ (Z.of_nat (S page_num + 1))); [lia | exact IH]. }
  destruct page as [[|c t]|]; cbn [text_pages_from app]; try exact Hrest.
  split; [lia | exact Hrest].
Qed.

(** X3.  For a document none of whose page texts holds a line that reads as
    a page marker, the page numbers the assembler reads are the numbers of
    the pages that have text, in order; the assembler does not fail, every
    section it emits satisfies [start_page <= end_page + 1], and the end
    pages never go down. *)
Theorem extraction_reads_pages_back (pages : list (option str))
  (Hpages : pages_unmarked pages) :
  page_marks (split_on nl (full_text pages)) = text_pages_from 0 pages /\
  exists ss,
    parse_main_headings_only (full_text pages) = Some ss /\
    extract_smart_sections pages = ss /\
    Forall page_bounds ss /\ ends_nondecreasing ss.
Proof.
  destruct (full_text_lines pages 0 Hpages) as [Hmarks Hread].
  fold (full_text pages) in Hmarks, Hread. split; [exact Hmarks|].
  assert (Hnd : pages_nondecreasing (full_text pages)).
  { unfold pages_nondecreasing. rewrite Hmarks.
    apply (text_pages_from_sorted pages 0). }
  destruct (parse_main_headings_only (full_text pages)) as [ss|] eqn:Hparse.
  - exists ss. split; [reflexivity|].
    split; [unfold extract_smart_sections; now rewrite Hparse|].
    split; [|now apply (assembled_ends_nondecreasing (full_text pages))].
    unfold parse_main_headings_only in Hparse.
    destruct (parse_lines parser_init (split_on nl (full_text pages)))
      as [st|] eqn:Hrun; [|discriminate].
    inversion Hparse; subst. apply flush_ok.
    apply (parse_lines_ok (split_on nl (full_text pages)) parser_init st).
    + split; [constructor | intros cur Hc; discriminate].
    + exact Hnd.
    + exact Hrun.
  - exfalso. apply assembler_fails_on_bad_marker_aux in Hparse.
    rewrite Exists_exists in Hparse. destruct Hparse as (raw & Hin & Hm & Hnone).
    rewrite Forall_forall in Hread. now apply (Hread raw Hin Hm).
Qed.

Lemma extraction_reads_pages_back_witness :
  page_marks (split_on nl (full_text manual_pages)) = [1; 3; 4]%Z /\
  exists ss,
    parse_main_headings_only (full_text manual_pages) = Some ss /\
    extract_smart_sections manual_pages = ss /\
    Forall page_bounds ss /\ ends_nondecreasing ss.
Proof.
  apply (extraction_reads_pages_back manual_pages).
  repeat constructor.
Defined.

(** ** What the assembler emits *)

Lemma lstrip_head (s : str) :
  match lstrip s with c :: _ => is_space c = false | [] => True end.
Proof.
  induction s as [|c t IH]; simpl; [exact I|].
  destruct (is_space c) eqn:Hc; [exact IH | exact Hc].
Qed.

(** Stripping a stripped text changes nothing. *)
Lemma strip_idempotent (s : str) : strip (strip s) = strip s.
Proof.
  unfold strip at 1.
  assert (Hl : lstrip (strip s) = strip s).
  { apply lstrip_fixed. unfold strip.
    destruct (rstrip_decomp (lstrip s)) as (ws & _ & Heq).
    pose proof (lstrip_head s) as Hh.
    destruct (rstrip (lstrip s)) as [|c m]; [exact I|].
    rewrite Heq in Hh. exact Hh. }
  rewrite Hl. unfold strip, rstrip. rewrite rev_involutive.
  rewrite (lstrip_fixed (lstrip (rev (lstrip s)))); [reflexivity|].
  apply lstrip_head.
Qed.

Lemma join_nonempty (sep l : str) (rest : list str) :
  l <> [] -> join sep (l :: rest) <> [].
Proof.
  intros Hl. cbn [join]. destruct rest; [exact Hl|].
  intros E. apply app_eq_nil in E as [E _]. contradiction.
Qed.

Lemma nonempty_true {A : Type} (l : list A) : nonempty l = true -> l <> [].
Proof. destruct l; [discriminate | discriminate]. Qed.

Lemma flush_assembled (st : parser) (final : bool) :
  Forall assembled (sections st) ->
  (forall cur, current_section st = Some cur -> open_ok cur) ->
  Forall (fun l => l <> []) (current_content st) ->
  Forall assembled (flush st final).
Proof.
  intros Hs Hcur Hbody. unfold flush.
  destruct (current_section st) as [cur|]; [|exact Hs].
  destruct (current_content st) as [|l body] eqn:Ebody; [exact Hs|].
  apply Forall_app. split; [exact Hs|]. constructor; [|constructor].
  destruct (Hcur cur eq_refl) as (H1 & H2 & H3 & H4 & H5).
  inversion Hbody; subst.
  unfold assembled, close_section. cbn [title content section_type module_code].
  repeat split; auto. now apply join_nonempty.
Qed.

Lemma parse_line_assembled (st st' : parser) (raw : str) :
  parse_line st raw = Some st' ->
  Forall assembled (sections st) /\
  (forall cur, current_section st = Some cur -> open_ok cur) /\
  Forall (fun l => l <> []) (current_content st) ->
  Forall assembled (sections st') /\
  (forall cur, current_section st' = Some cur -> open_ok cur) /\
  Forall (fun l => l <> []) (current_content st').
Proof.
  unfold parse_line. cbv zeta. intros Hstep (Hs & Hcur & Hbody).
  destruct (nonempty (strip raw)) eqn:Hne; cbn [negb] in Hstep.
  2:{ now inversion Hstep; subst. }
  destruct (startswith (py "[PAGE_") (strip raw)).
  { destruct (py_int _); [|discriminate]. now inversion Hstep; subst. }
  destruct (is_main_heading (strip raw)) eqn:Hhead.
  - injection Hstep as <-. cbn [sections current_section current_content].
    split; [now apply flush_assembled|]. split; [|constructor].
    intros cur Hc. injection Hc as <-. unfold open_ok.
    cbn [o_title o_type o_module_code].
    repeat split;
      [exact Hhead | apply strip_idempotent | now apply nonempty_true].
  - destruct (current_section st) as [cur|] eqn:Ecur;
      injection Hstep as <-.
    + cbn [sections current_section current_content].
      split; [exact Hs|]. split; [exact Hcur|].
      apply Forall_app. split; [exact Hbody|].
      constructor; [now apply nonempty_true | constructor].
    + rewrite Ecur. auto.
Qed.

(** X4.  Every section the assembler emits has a title that is a heading
    line of the text, stripped and not empty, a content that is not empty,
    the module type of its title and the module code of that type. *)
Theorem assembled_sections_wellformed (text : str) (ss : list section)
  (Hparse : parse_main_headings_only text = Some ss) :
  Forall assembled ss.
Proof.
  unfold parse_main_headings_only in Hparse.
  assert (Hrun : forall lines st st',
             parse_lines st lines = Some st' ->
             Forall assembled (sections st) /\
             (forall cur, current_section st = Some cur -> open_ok cur) /\
             Forall (fun l => l <> []) (current_content st) ->
             Forall assembled (sections st') /\
             (forall cur, current_section st' = Some cur -> open_ok cur) /\
             Forall (fun l => l <> []) (current_content st')).
  { induction lines as [|raw lines IH]; intros st st' Hrun H.
    - now inversion Hrun; subst.
    - simpl in Hrun. destruct (parse_line st raw) as [st1|] eqn:Hstep;
        [|discriminate].
      apply (IH st1 st' Hrun). now apply (parse_line_assembled st st1 raw). }
  destruct (parse_lines parser_init (split_on nl text)) as [st|] eqn:E;
    [|discriminate].
  inversion Hparse; subst.
  destruct (Hrun _ _ _ E) as (H1 & H2 & H3).
  - split; [constructor|]. split; [intros cur Hc; discriminate | constructor].
  - now apply flush_assembled.
Qed.

Lemma assembled_sections_wellformed_witness : Forall assembled manual_sections.
Proof.
  apply (assembled_sections_wellformed manual_text).
  vm_compute. reflexivity.
Defined.

(** ** Body lines *)

Lemma split_on_from_one_line (sep : char) (s cur : str) :
  forallb (fun c => negb (c =? sep)%N) cur = true ->
  Forall (fun l => forallb (fun c => negb (c =? sep)%N) l = true)
         (split_on_from sep cur s).
Proof.
  revert cur. induction s as [|c s IH]; intros cur Hcur; simpl.
  - now constructor.
  - destruct (c =? sep)%N eqn:Hc.
    + constructor; [exact Hcur | now apply IH].
    + apply IH. rewrite forallb_app. apply andb_true_iff.
      split; [exact Hcur | simpl; now rewrite Hc].
Qed.

Lemma strip_one_line (raw : str) : one_line raw -> one_line (strip raw).
Proof.
  unfold one_line. destruct (strip_decomp raw) as (l & r & _ & _ & Heq).
  intros H. rewrite Heq, !forallb_app in H.
  apply andb_true_iff in H as [_ H]. now apply andb_true_iff in H as [H _].
Qed.

(** Lines joined by line ends and split at line ends again are the lines. *)
Lemma split_join_lines (body : list str) :
  body <> [] -> Forall one_line body -> split_on nl (join [nl] body) = body.
Proof.
  unfold split_on. induction body as [|l body IH]; [contradiction|].
  intros _ H. inversion H as [|? ? Hl Hbody]; subst.
  cbn [join]. destruct body as [|l' body'].
  - now rewrite (split_on_from_no_sep nl l [] Hl).
  - cbn [app]. rewrite split_on_from_app, (split_on_from_no_sep nl l [] Hl).
    cbn [app]. f_equal. apply IH; [discriminate | exact Hbody].
Qed.

Lemma flush_lines (st : parser) (final : bool) :
  content_ok st ->
  flat_map (fun s => split_on nl (content s)) (flush st final) = lines_held st.
Proof.
  intros [Hnone Hone]. unfold flush, lines_held.
  destruct (current_section st) as [cur|].
  - destruct (current_content st) as [|l body] eqn:E;
      [now rewrite app_nil_r|].
    rewrite flat_map_app. cbn [flat_map close_section content].
    rewrite app_nil_r, split_join_lines; [reflexivity | discriminate | exact Hone].
  - rewrite (Hnone eq_refl). now rewrite app_nil_r.
Qed.

Lemma parse_line_lines (st st' : parser) (raw : str) (rest : list str) :
  content_ok st -> one_line raw ->
  parse_line st raw = Some st' ->
  content_ok st' /\
  lines_held st' ++ body_lines (is_open st') rest
  = lines_held st ++ body_lines (is_open st) (raw :: rest).
Proof.
  intros Hok Hraw Hstep. unfold parse_line in Hstep. cbv zeta in Hstep.
  cbn [body_lines]. unfold heading_line, body_line.
  destruct (nonempty (strip raw)) eqn:Hne; cbn [negb andb] in *.
  2:{ inversion Hstep; subst. rewrite andb_false_r. now split. }
  destruct (startswith (py "[PAGE_") (strip raw)); cbn [negb andb] in *.
  { destruct (py_int _); [|discriminate]. inversion Hstep; subst.
    rewrite andb_false_r. now split. }
  destruct (is_main_heading (strip raw)); cbn [negb andb] in *.
  - inversion Hstep; subst; clear Hstep. split.
    + split; [discriminate | constructor].
    + unfold lines_held at 1, is_open at 1.
      cbn [sections current_content current_section].
      now rewrite app_nil_r, flush_lines.
  - destruct Hok as [Hnone Hone].
    unfold is_open in *. destruct (current_section st) as [cur|] eqn:Ecur;
      inversion Hstep; subst; clear Hstep.
    + cbn [andb]. split.
      * split; [cbn [current_section]; discriminate|].
        cbn [current_content]. apply Forall_app. split; [exact Hone|].
        constructor; [now apply strip_one_line | constructor].
      * unfold lines_held. cbn [sections current_content current_section].
        now rewrite <- !app_assoc.
    + rewrite Ecur. cbn [andb]. split; [|reflexivity].
      split; [intros _; now apply Hnone | exact Hone].
Qed.

Lemma parse_lines_lines (lines : list str) (st st' : parser) :
  content_ok st -> Forall one_line lines ->
  parse_lines st lines = Some st' ->
  content_ok st' /\
  lines_held st' = lines_held st ++ body_lines (is_open st) lines.
Proof.
  revert st. induction lines as [|raw lines IH]; intros st Hok Hone Hrun.
  - inversion Hrun; subst. split; [exact Hok|]. simpl. now rewrite app_nil_r.
  - simpl in Hrun. destruct (parse_line st raw) as [st1|] eqn:Hstep;
      [|discriminate].
    inversion Hone as [|? ? Hraw Hrest]; subst.
    destruct (parse_line_lines st st1 raw lines Hok Hraw Hstep) as [Hok1 Heq].
    destruct (IH st1 Hok1 Hrest Hrun) as [Hok' Heq'].
    split; [exact Hok'|]. now rewrite Heq', Heq.
Qed.

(** X5.  The assembler keeps every body line: the lines of the contents of
    the sections, in order, are the lines of the text that come after the
    first heading and are neither blank, nor page markers, nor headings,
    each stripped.  Only what comes before the first heading is left
    out. *)
Theorem assembler_keeps_body_lines (text : str) (ss : list section)
  (Hparse : parse_main_headings_only text = Some ss) :
  flat_map (fun s => split_on nl (content s)) ss
  = body_lines false (split_on nl text).
Proof.
  unfold parse_main_headings_only in Hparse.
  destruct (parse_lines parser_init (split_on nl text)) as [st|] eqn:Hrun;
    [|discriminate].
  inversion Hparse; subst; clear Hparse.
  destruct (parse_lines_lines (split_on nl text) parser_init st) as [Hok Heq].
  - split; [reflexivity | constructor].
  - apply (split_on_from_one_line nl text []). reflexivity.
  - exact Hrun.
  - rewrite flush_lines by exact Hok. exact Heq.
Qed.

Lemma assembler_keeps_body_lines_witness :
  flat_map (fun s => split_on nl (content s)) manual_sections
  = body_lines false (split_on nl manual_text).
Proof.
  apply (assembler_keeps_body_lines manual_text).
  vm_compute. reflexivity.
Defined.

Lemma parse_lines_closed (lines : list str) (st st' : parser) :
  Forall (fun raw => heading_line raw = false) lines ->
  parse_lines st lines = Some st' ->
  sections st' = sections st /\ current_section st' = current_section st /\
  (current_section st = None -> current_content st' = current_content st).
Proof.
  intros H. revert st. induction H as [|raw lines Hraw _ IH]; intros st Hrun.
  - now inversion Hrun; subst.
  - simpl in Hrun. destruct (parse_line st raw) as [st1|] eqn:Hstep;
      [|discriminate].
    destruct (IH st1 Hrun) as (H1 & H2 & H3).
    unfold parse_line in Hstep. unfold heading_line in Hraw.
    cbv zeta in Hstep.
    destruct (nonempty (strip raw)); cbn [negb andb] in *;
      [|inversion Hstep; subst; auto].
    destruct (startswith (py "[PAGE_") (strip raw)); cbn [negb andb] in *.
    { destruct (py_int _); [|discriminate]. inversion Hstep; subst.
      cbn [sections current_section current_content] in *. auto. }
    rewrite Hraw in Hstep.
    destruct (current_section st) as [cur|] eqn:Ecur;
      inversion Hstep; subst;
      cbn [sections current_section current_content] in *.
    + repeat split; auto. discriminate.
    + rewrite Ecur in *. auto.
Qed.

(** X6.  A text in which no line is a heading gives no section, whatever
    else it holds. *)
Theorem no_heading_no_section (text : str) (ss : list section)
  (Hplain : Forall (fun raw => heading_line raw = false) (split_on nl text))
  (Hparse : parse_main_headings_only text = Some ss) :
  ss = [].
Proof.
  unfold parse_main_headings_only in Hparse.
  destruct (parse_lines parser_init (split_on nl text)) as [st|] eqn:Hrun;
    [|discriminate].
  inversion Hparse; subst; clear Hparse.
  destruct (parse_lines_closed _ _ _ Hplain Hrun) as (H1 & H2 & _).
  unfold flush. now rewrite H1, H2.
Qed.

Lemma no_heading_no_section_witness : @nil section = [].
Proof.
  apply (no_heading_no_section plain_text []).
  - replace (split_on nl plain_text)
      with [py "[PAGE_1]"; py "Airframe layout."; py "Engine bay."]
      by (vm_compute; reflexivity).
    repeat (constructor; [vm_compute; reflexivity|]). constructor.
  - vm_compute. reflexivity.
Defined.

(** ** More on the merger *)

Lemma merge_loop_length (rest merged : list section) (current : section) :
  length (merge_loop merged current rest)
  + length (filter short_section rest)
  = length merged + 1 + length rest.
Proof.
  revert merged current. induction rest as [|s rest IH]; intros merged current.
  - simpl. rewrite length_app. simpl. lia.
  - cbn [merge_loop filter].
    change (page_span s <? 1)%Z with (short_section s).
    destruct (short_section s).
    + cbn [length]. specialize (IH merged (absorb current s)). lia.
    + specialize (IH (merged ++ [current]) s). rewrite length_app in IH.
      cbn [length] in *. lia.
Qed.

(** X7.  The merger returns one section less for each section after the
    first that spans less than a page, and never an empty sequence for one
    that is not empty. *)
Theorem merge_count (ss : list section) :
  length (merge_short_sections ss) + length (filter short_section (tl ss))
  = length ss /\
  (ss <> [] -> merge_short_sections ss <> []).
Proof.
  destruct ss as [|first [|second rest]];
    [split; [reflexivity | auto] | split; [reflexivity | discriminate] |].
  unfold merge_short_sections. cbn [tl].
  pose proof (merge_loop_length (second :: rest) [] first) as H.
  split; [cbn [length] in *; lia|].
  intros _ E. rewrite E in H.
  pose proof (filter_length_le short_section (second :: rest)) as Hle.
  cbn [length] in H, Hle. lia.
Qed.

Lemma merge_loop_heads (rest merged : list section) (current : section) :
  map section_head (merge_loop merged current rest)
  = map section_head merged
    ++ section_head current
    :: map section_head (filter (fun s => negb (short_section s)) rest).
Proof.
  revert merged current. induction rest as [|s rest IH]; intros merged current.
  - simpl. now rewrite map_app.
  - cbn [merge_loop filter].
    change (page_span s <? 1)%Z with (short_section s).
    destruct (short_section s); cbn [negb].
    + rewrite IH. reflexivity.
    + rewrite IH, map_app. cbn [map]. now rewrite <- app_assoc.
Qed.

(** X8.  The merged sections are, in order, the first section and the
    later sections that span a page or more, each with the title, module
    code, start page, section type, page count and applicability it had:
    a section that takes others in only changes its content, end page,
    summary and graphics flag. *)
Theorem merge_keeps_heads (ss : list section) :
  map section_head (merge_short_sections ss)
  = match ss with
    | [] => []
    | first :: rest =>
        section_head first
        :: map section_head (filter (fun s => negb (short_section s)) rest)
    end.
Proof.
  destruct ss as [|first [|second rest]]; [reflexivity | reflexivity |].
  unfold merge_short_sections. now rewrite merge_loop_heads.
Qed.

Lemma merge_loop_last (rest merged : list section) (current d : section) :
  end_page (last (merge_loop merged current rest) d)
  = end_page (last (current :: rest) d).
Proof.
  revert merged current. induction rest as [|s rest IH]; intros merged current.
  - simpl. now rewrite last_last.
  - cbn [merge_loop]. destruct (page_span s <? 1)%Z; rewrite IH.
    + change (last (current :: s :: rest) d) with (last (s :: rest) d).
      destruct rest; reflexivity.
    + reflexivity.
Qed.

(** X9.  The merged sequence ends on the page the given sequence ends on,
    and starts on the page it starts on: the end page of the last merged
    section is that of the last section given, whether or not that one was
    folded into an earlier one. *)
Theorem merge_keeps_page_range (ss : list section) (d : section) :
  end_page (last (merge_short_sections ss) d) = end_page (last ss d) /\
  start_page (hd d (merge_short_sections ss)) = start_page (hd d ss).
Proof.
  destruct ss as [|first [|second rest]];
    [split; reflexivity | split; reflexivity |].
  unfold merge_short_sections. split; [apply merge_loop_last|].
  pose proof (merge_loop_heads (second :: rest) [] first) as H.
  destruct (merge_loop [] first (second :: rest)) as [|m ms];
    [discriminate H|].
  cbn [map app hd] in *. unfold section_head in H. congruence.
Qed.

Lemma startswith_app (p s t : str) :
  startswith p s = true -> startswith p (s ++ t) = true.
Proof.
  revert s. induction p as [|a p IH]; intros [|b s] H; try reflexivity;
    try discriminate.
  simpl in *. apply andb_true_iff in H as [H1 H2].
  now rewrite H1, (IH s H2).
Qed.

Lemma contains_app_l (sub s t : str) :
  contains sub s = true -> contains sub (s ++ t) = true.
Proof.
  induction s as [|c s IH]; simpl.
  - rewrite orb_false_r. intros H. destruct sub; [|discriminate].
    destruct t; reflexivity.
  - intros H. apply orb_true_iff in H as [H | H].
    + assert (H' : startswith sub ((c :: s) ++ t) = true)
        by now apply startswith_app.
      simpl in H'. now rewrite H'.
    + rewrite (IH H). apply orb_true_r.
Qed.

Lemma contains_app_r (sub s t : str) :
  contains sub t = true -> contains sub (s ++ t) = true.
Proof.
  intros H. induction s as [|c s IH]; [exact H|].
  simpl. rewrite IH. apply orb_true_r.
Qed.

Lemma detect_graphics_app (a b : str) :
  detect_graphics a = true \/ detect_graphics b = true ->
  detect_graphics (a ++ b) = true.
Proof.
  unfold detect_graphics. cbv zeta. unfold upper. rewrite map_app.
  intros [H | H]; apply existsb_exists in H as (kw & Hin & Hkw);
    apply existsb_exists; exists kw; (split; [exact Hin|]); unfold has in *.
  - now apply contains_app_l.
  - now apply contains_app_r.
Qed.

Lemma absorb_in_step (current s : section) :
  in_step current -> in_step s -> in_step (absorb current s).
Proof.
  intros [_ Hc] [_ Hs]. split; [reflexivity|].
  cbn [absorb has_graphics content]. intros H.
  apply orb_true_iff in H as [H | H].
  - apply detect_graphics_app. left. now apply Hc.
  - apply detect_graphics_app. right.
    change ([nl; nl] ++ title s ++ [nl] ++ content s)
      with (([nl; nl] ++ title s ++ [nl]) ++ content s)
      || rewrite !app_assoc.
    apply detect_graphics_app. right. now apply Hs.
Qed.

Lemma merge_loop_in_step (rest merged : list section) (current : section) :
  Forall in_step merged -> in_step current -> Forall in_step rest ->
  Forall in_step (merge_loop merged current rest).
Proof.
  revert merged current. induction rest as [|s rest IH];
    intros merged current Hm Hc Hr.
  - simpl. apply Forall_app. split; [exact Hm | now constructor].
  - inversion Hr as [|? ? Hs Hrest]; subst.
    cbn [merge_loop]. destruct (page_span s <? 1)%Z.
    + apply IH; [exact Hm | now apply absorb_in_step | exact Hrest].
    + apply IH; [|exact Hs | exact Hrest].
      apply Forall_app. split; [exact Hm | now constructor].
Qed.

(** X10.  The merger keeps the summary and the graphics flag in step with
    the content: if each section given carries the summary of its content
    and a graphics flag that is only set when its content names a graphic,
    so does each merged section. *)
Theorem merge_keeps_summary_in_step (ss : list section)
  (Hss : Forall in_step ss) :
  Forall in_step (merge_short_sections ss).
Proof.
  destruct ss as [|first [|second rest]]; [exact Hss | exact Hss |].
  inversion Hss as [|? ? Hfirst Hrest]; subst.
  unfold merge_short_sections.
  apply merge_loop_in_step; [constructor | exact Hfirst | exact Hrest].
Qed.

Lemma merge_keeps_summary_in_step_witness :
  Forall in_step (merge_short_sections manual_sections).
Proof.
  apply (merge_keeps_summary_in_step manual_sections).
  repeat constructor; vm_compute; discriminate.
Defined.

(** ** Substitution of a character class *)

Lemma match_len_chr (p : char -> bool) (c : char) (t : str) :
  match_len (Chr p) (c :: t) = if p c then Some 1 else None.
Proof.
  unfold match_len, re_rest. cbn [bt]. destruct (p c); [|reflexivity].
  cbn [option_map length]. f_equal. lia.
Qed.

(** Deleting the characters of a class is filtering them out. *)
Lemma re_sub_chr_delete (p : char -> bool) (s : str) :
  re_sub (Chr p) [] s = filter (fun c => negb (p c)) s.
Proof.
  unfold re_sub. induction s as [|c t IH]; [reflexivity|].
  cbn [re_sub_from filter]. rewrite match_len_chr.
  destruct (p c); cbn [negb app]; now rewrite IH.
Qed.

Lemma bt_star_class (p : char -> bool) (s : str) :
  bt (Star (Chr p)) s (@Some str) = Some (drop_class p s).
Proof.
  induction s as [|c t IH]; [reflexivity|].
  rewrite bt_star_chr, IH. simpl. now destruct (p c).
Qed.

Lemma length_drop_class (p : char -> bool) (s : str) :
  length (drop_class p s) <= length s.
Proof.
  induction s as [|c t IH]; simpl; [lia|]. destruct (p c); simpl; lia.
Qed.

Lemma match_len_plus_class (p : char -> bool) (c : char) (t : str) :
  match_len (Plus (Chr p)) (c :: t) =
  if p c then Some (S (length t - length (drop_class p t))) else None.
Proof.
  unfold match_len, re_rest, Plus.
  change (bt (Cat (Chr p) (Star (Chr p))) (c :: t) (@Some str))
    with (if p c then bt (Star (Chr p)) t (@Some str) else None).
  destruct (p c); [|reflexivity].
  rewrite bt_star_class. cbn [option_map length].
  pose proof (length_drop_class p t). f_equal. lia.
Qed.

Lemma skipn_drop_class (p : char -> bool) (s : str) :
  skipn (length s - length (drop_class p s)) s = drop_class p s.
Proof.
  induction s as [|c t IH]; [reflexivity|].
  simpl drop_class. destruct (p c).
  - pose proof (length_drop_class p t).
    replace (length (c :: t) - length (drop_class p t))
      with (S (length t - length (drop_class p t))) by (cbn [length]; lia).
    cbn [skipn]. exact IH.
  - now rewrite Nat.sub_diag.
Qed.

Lemma squeeze_drop_class (p : char -> bool) (x : char) (s : str) :
  squeeze p x true s = squeeze p x false (drop_class p s).
Proof.
  induction s as [|c t IH]; [reflexivity|].
  simpl. destruct (p c) eqn:Hc; [exact IH|]. simpl. now rewrite Hc.
Qed.

(** Replacing each run of a class by one character is [squeeze]. *)
Lemma re_sub_plus_class (p : char -> bool) (x : char) (s : str) :
  re_sub (Plus (Chr p)) [x] s = squeeze p x false s.
Proof.
  unfold re_sub.
  remember (length s) as n eqn:Hn. revert s Hn.
  induction n as [n IH] using lt_wf_ind. intros [|c t] Hn; [reflexivity|].
  cbn [re_sub_from]. rewrite match_len_plus_class. cbn [squeeze].
  destruct (p c).
  - rewrite re_sub_skip, skipn_drop_class, squeeze_drop_class.
    cbn [app].
    rewrite (IH (length (drop_class p t))); [reflexivity | | reflexivity].
    pose proof (length_drop_class p t). simpl in Hn. lia.
  - rewrite (IH (length t)); [reflexivity | simpl in Hn; lia | reflexivity].
Qed.

Lemma squeeze_forall (q p : char -> bool) (x : char) (s : str) (in_run : bool) :
  q x = true ->
  forallb (fun c => p c || q c) s = true ->
  forallb q (squeeze p x in_run s) = true.
Proof.
  intros Hx. revert in_run. induction s as [|c t IH]; intros in_run H;
    [reflexivity|].
  simpl in H. apply andb_true_iff in H as [Hc Ht].
  cbn [squeeze]. destruct (p c) eqn:Hp.
  - destruct in_run; [now apply IH|]. cbn [forallb]. now rewrite Hx, IH.
  - cbn [forallb]. simpl in Hc. now rewrite Hc, IH.
Qed.



(** ** Stripping a set of characters *)

Lemma lstrip_chars_decomp (chars s : str) :
  exists l, s = l ++ lstrip_chars chars s.
Proof.
  induction s as [|c t (l & Heq)]; [now exists []|].
  simpl. destruct (mem_char c chars).
  - exists (c :: l). simpl. now rewrite <- Heq.
  - now exists [].
Qed.


Lemma rstrip_chars_decomp (chars s : str) :
  exists r, s = rstrip_chars chars s ++ r.
Proof.
  unfold rstrip_chars. destruct (lstrip_chars_decomp chars (rev s)) as (l & Heq).
  exists (rev l). rewrite <- rev_app_distr, <- Heq. now rewrite rev_involutive.
Qed.



Lemma strip_chars_decomp (chars s : str) :
  exists l r, s = l ++ strip_chars chars s ++ r.
Proof.
  unfold strip_chars.
  destruct (lstrip_chars_decomp chars s) as (l & Heq).
  destruct (rstrip_chars_decomp chars (lstrip_chars chars s)) as (r & Heq').
  exists l, r. now rewrite <- Heq'.
Qed.



(** ** File names *)


Lemma stem_chars_kept (title : str) :
  forallb stem_char
    (re_sub re_underscores (py "_")
       (re_sub re_ws (py "_") (re_sub re_not_alnum_space [] title))) = true.
Proof.
  unfold re_underscores, re_ws, re_not_alnum_space, cls_s, Ch.
  change (py "_") with [ord "_"].
  rewrite !re_sub_plus_class, re_sub_chr_delete.
  apply squeeze_forall; [reflexivity|].
  eapply forallb_forall. intros c Hc. apply orb_true_iff. right.
  revert c Hc. apply forallb_forall.
  apply squeeze_forall; [reflexivity|].
  apply forallb_forall. intros c Hc. apply filter_In in Hc as [_ Hc].
  rewrite negb_involutive in Hc. unfold stem_char.
  destruct (is_space c); [reflexivity|]. rewrite orb_false_r in Hc.
  now rewrite Hc.
Qed.

Lemma forallb_sub {A : Type} (f : A -> bool) (l m r : list A) :
  forallb f (l ++ m ++ r) = true -> forallb f m = true.
Proof.
  rewrite !forallb_app. intros H. apply andb_true_iff in H as [_ H].
  now apply andb_true_iff in H as [H _].
Qed.

Lemma filename_stem_chars (title : str) :
  forallb stem_char (clean_title_for_filename title) = true.
Proof.
  unfold clean_title_for_filename. cbv zeta.
  destruct (negb (nonempty title)); [reflexivity|].
  set (t0 := fold_left _ replacements title).
  set (t3 := re_sub re_underscores (py "_")
               (re_sub re_ws (py "_") (re_sub re_not_alnum_space [] t0))).
  destruct (negb (nonempty (strip_chars (py "_") t3))); [reflexivity|].
  destruct (strip_chars_decomp (py "_") t3) as (l & r & Heq).
  apply (forallb_sub stem_char l _ r). rewrite <- Heq. apply stem_chars_kept.
Qed.


Lemma format_3_length (n : nat) : n <= 999 -> length (format_0d 3 n) = 3.
Proof.
  intros Hn.
  assert (H : forallb (fun k => length (format_0d 3 k) =? 3) (seq 0 1000) = true)
    by (vm_compute; reflexivity).
  rewrite forallb_forall in H. apply Nat.eqb_eq, H, in_seq. lia.
Qed.

Lemma forallb_firstn {A : Type} (f : A -> bool) (n : nat) (l : list A) :
  forallb f l = true -> forallb f (firstn n l) = true.
Proof.
  intros H. rewrite <- (firstn_skipn n l), forallb_app in H.
  now apply andb_true_iff in H as [H _].
Qed.

(** The parts of a file name: "dm_", the number on three digits or more, an
    underscore, a stem and ".xml". *)
Lemma filename_parts (title : str) (n : nat) :
  exists stem,
    create_meaningful_filename title n
    = py "dm_" ++ format_0d 3 n ++ py "_" ++ stem ++ py ".xml" /\
    forallb stem_char stem = true /\
    (length (py "dm_" ++ format_0d 3 n ++ py "_" ++ stem ++ py ".xml") <= 100
     \/ length stem <= 50).
Proof.
  pose proof (filename_stem_chars title) as Hchars.
  unfold create_meaningful_filename. cbv zeta.
  destruct (100 <? length _) eqn:Hlen.
  - exists (rstrip_chars (py "_") (firstn 50 (clean_title_for_filename title))).
    split; [reflexivity|].
    destruct (rstrip_chars_decomp (py "_")
                (firstn 50 (clean_title_for_filename title))) as (r & Heq).
    pose proof (forallb_firstn stem_char 50 _ Hchars) as Hf.
    pose proof (length_firstn 50 (clean_title_for_filename title)) as Hl.
    rewrite Heq in Hf, Hl. rewrite forallb_app in Hf. rewrite length_app in Hl.
    apply andb_true_iff in Hf as [Hf _]. split; [exact Hf|]. right. lia.
  - exists (clean_title_for_filename title). split; [reflexivity|].
    split; [exact Hchars|]. left. now apply Nat.ltb_ge in Hlen.
Qed.

(** X12.  A file name is "dm_", the module number on three digits or more,
    an underscore, a stem of letters, digits and underscores, and ".xml";
    for a module number up to 999 it is at most 100 characters long, a
    longer one being cut to a stem of at most 50 characters. *)
Theorem filename_shape_and_length (title : str) (n : nat) (Hn : n <= 999) :
  (exists stem,
     create_meaningful_filename title n
     = py "dm_" ++ format_0d 3 n ++ py "_" ++ stem ++ py ".xml" /\
     forallb stem_char stem = true) /\
  py_int (firstn 3 (skipn 3 (create_meaningful_filename title n)))
  = Some (Z.of_nat n) /\
  length (create_meaningful_filename title n) <= 100.
Proof.
  destruct (filename_parts title n) as (stem & Heq & Hchars & Hlen).
  pose proof (format_3_length n Hn) as H3.
  split; [now exists stem|]. rewrite Heq. split.
  - change (skipn 3 (py "dm_" ++ ?x)) with x.
    rewrite firstn_app, H3, Nat.sub_diag, firstn_all2 by lia.
    cbn [firstn]. rewrite app_nil_r. apply py_int_format_0d.
  - destruct Hlen as [Hlen | Hlen]; [exact Hlen|].
    rewrite !length_app, H3. simpl. lia.
Qed.

Lemma filename_shape_and_length_witness :
  length (create_meaningful_filename
            (py "Engine & Fuel System (F-16), with notes") 7) <= 100.
Proof.
  apply (filename_shape_and_length
           (py "Engine & Fuel System (F-16), with notes") 7).
  lia.
Defined.





(** ** Section labels in titles *)

Lemma bt_literal (l : str) (s : str) (k : str -> option str) :
  bt (fold_right (fun c r => Cat (Ch c) r) Eps l) s k =
  if startswith l s then k (skipn (length l) s) else None.
Proof.
  revert s. induction l as [|c l IH]; intros s; [reflexivity|].
  cbn [fold_right].
  change (bt (Cat (Ch c) (fold_right (fun c r => Cat (Ch c) r) Eps l)) s k)
    with (match s with
          | x :: t => if (c =? x)%N
                      then bt (fold_right (fun c r => Cat (Ch c) r) Eps l) t k
                      else None
          | [] => None
          end).
  destruct s as [|x t]; [reflexivity|].
  cbn [startswith length skipn]. destruct (c =? x)%N; [apply IH | reflexivity].
Qed.

(** A match of [Section \d+] at the start of a text: "Section " and a
    digit. *)
Lemma re_match_section (s : str) :
  re_match re_section s =
  startswith (py "Section ") s &&
  match skipn 8 s with d :: _ => is_digit d | [] => false end.
Proof.
  unfold re_match, re_rest, re_section, Seq, Lit. cbn [fold_right].
  change (bt (Cat (fold_right (fun c r => Cat (Ch c) r) Eps (py "Section "))
                  (Cat (Plus cls_d) Eps)) s (@Some str))
    with (bt (fold_right (fun c r => Cat (Ch c) r) Eps (py "Section ")) s
             (fun s' => bt (Cat (Plus cls_d) Eps) s' (@Some str))).
  rewrite bt_literal. change (length (py "Section ")) with 8.
  destruct (startswith (py "Section ") s); [|reflexivity]. cbn [andb].
  destruct (skipn 8 s) as [|d t]; [reflexivity|].
  unfold Plus, cls_d.
  change (bt (Cat (Cat (Chr is_digit) (Star (Chr is_digit))) Eps) (d :: t)
             (@Some str))
    with (if is_digit d then bt (Star (Chr is_digit)) t (@Some str) else None).
  destruct (is_digit d); [|reflexivity]. now rewrite bt_star_class.
Qed.

Lemma space_not_digit (c : char) : is_space c = true -> is_digit c = false.
Proof.
  intros H. destruct (is_digit c) eqn:E; [|reflexivity].
  apply is_digit_not_space in E. congruence.
Qed.

Lemma startswith_long (p s t : str) :
  length p <= length s -> startswith p (s ++ t) = startswith p s.
Proof.
  revert s. induction p as [|a p IH]; intros [|b s] H; try reflexivity.
  - simpl in H. lia.
  - simpl in *. rewrite IH by lia. reflexivity.
Qed.

Lemma re_match_section_trailing (s ws : str) :
  forallb is_space ws = true ->
  re_match re_section (s ++ ws) = re_match re_section s.
Proof.
  intros Hws. rewrite !re_match_section.
  destruct (Nat.le_gt_cases 9 (length s)) as [Hlen | Hlen].
  - rewrite startswith_long by (simpl; lia).
    rewrite skipn_app.
    destruct (skipn 8 s) as [|d t] eqn:E; [|reflexivity].
    apply (f_equal (@length char)) in E. rewrite length_skipn in E.
    simpl in E. lia.
  - assert (Hs : startswith (py "Section ") s
                 && match skipn 8 s with
                    | d :: _ => is_digit d
                    | [] => false
                    end = false).
    { rewrite (skipn_all2 s) by lia. apply andb_false_r. }
    rewrite Hs. rewrite skipn_app, (skipn_all2 s) by lia. cbn [app].
    pose proof (firstn_skipn (8 - length s) ws) as Hsplit.
    rewrite <- Hsplit, forallb_app in Hws.
    apply andb_true_iff in Hws as [_ Hws].
    destruct (skipn (8 - length s) ws) as [|d t];
      [apply andb_false_r|].
    simpl in Hws. apply andb_true_iff in Hws as [Hd _].
    rewrite (space_not_digit d Hd). apply andb_false_r.
Qed.

Lemma re_match_section_space (c : char) (s : str) :
  is_space c = true -> re_match re_section (c :: s) = false.
Proof.
  intros Hc. rewrite re_match_section.
  change (startswith (py "Section ") (c :: s))
    with ((ord "S" =? c)%N && startswith (py "ection ") s).
  destruct (N.eqb_spec (ord "S") c) as [<- | _]; [discriminate Hc|].
  reflexivity.
Qed.

Lemma re_search_section_leading (ws s : str) :
  forallb is_space ws = true ->
  re_search re_section (ws ++ s) = re_search re_section s.
Proof.
  induction ws as [|c ws IH]; intros H; [reflexivity|].
  simpl in H. apply andb_true_iff in H as [Hc Hws].
  cbn [app re_search]. now rewrite (re_match_section_space c _ Hc), IH.
Qed.

Lemma re_search_section_spaces (ws : str) :
  forallb is_space ws = true -> re_search re_section ws = false.
Proof.
  induction ws as [|c ws IH]; intros H; [reflexivity|].
  simpl in H. apply andb_true_iff in H as [Hc Hws].
  cbn [re_search]. now rewrite (re_match_section_space c _ Hc), IH.
Qed.

Lemma re_search_section_trailing (s ws : str) :
  forallb is_space ws = true ->
  re_search re_section (s ++ ws) = re_search re_section s.
Proof.
  intros Hws. induction s as [|c s IH].
  - cbn [app]. now rewrite re_search_section_spaces.
  - change ((c :: s) ++ ws) with (c :: (s ++ ws)).
    cbn [re_search]. rewrite IH.
    change (c :: (s ++ ws)) with ((c :: s) ++ ws).
    now rewrite re_match_section_trailing.
Qed.

(** A section label stays where it is when the text is stripped. *)
Lemma re_search_section_strip (s : str) :
  re_search re_section (strip s) = re_search re_section s.
Proof.
  destruct (strip_decomp s) as (l & r & Hl & Hr & Heq).
  rewrite Heq at 2.
  now rewrite re_search_section_leading, re_search_section_trailing.
Qed.

Lemma section_label_found (n : nat) (rest : str) :
  re_search re_section (py "Section " ++ format_0d 3 n ++ rest) = true.
Proof.
  assert (H : re_match re_section (py "Section " ++ format_0d 3 n ++ rest)
              = true).
  { rewrite re_match_section.
    change (skipn 8 (py "Section " ++ ?x)) with x.
    replace (startswith (py "Section ")
               (py "Section " ++ format_0d 3 n ++ rest))
      with true by reflexivity.
    pose proof (format_0d_digits 3 n) as Hd.
    pose proof (format_0d_nonempty 3 n) as Hne.
    destruct (format_0d 3 n) as [|d t]; [contradiction|].
    simpl in Hd. apply andb_true_iff in Hd as [Hd _]. exact Hd. }
  destruct (py "Section " ++ format_0d 3 n ++ rest); cbn [re_search];
    now rewrite H.
Qed.

(** X14.  Whatever the title and the module number, the improved title
    carries a section label: the word "Section", a space and a number. *)
Theorem improved_title_has_label (title : str) (n : nat) :
  re_search re_section (improve_title title n) = true.
Proof.
  unfold improve_title. cbv zeta.
  destruct (negb (nonempty title)).
  { rewrite <- (app_nil_r (format_0d 3 n)). apply section_label_found. }
  destruct (length (clean_title_line title) <? 10);
    [apply section_label_found|].
  rewrite re_search_section_strip.
  match goal with
  | |- context [negb (re_search re_section ?x)] =>
      destruct (re_search re_section x) eqn:E
  end; cbn [negb]; [exact E | apply section_label_found].
Qed.

(** ** Paragraphs on their way to the document *)

Lemma strip_spaces (s : str) : forallb is_space s = true -> strip s = [].
Proof.
  intros H. unfold strip.
  assert (Hl : lstrip s = []).
  { induction s as [|c t IH]; [reflexivity|]. simpl in *.
    apply andb_true_iff in H as [Hc Ht]. rewrite Hc. now apply IH. }
  now rewrite Hl.
Qed.

(** X15.  No paragraph that [split_content_into_paragraphs] returns is
    blank, for a short input as for a long one, and an input that is empty
    or all white space gives no paragraph. *)
Theorem paragraphs_never_blank (content : str) :
  Forall (fun p => strip p <> []) (split_content_into_paragraphs content) /\
  (forallb is_space content = true ->
   split_content_into_paragraphs content = []).
Proof.
  split.
  - unfold split_content_into_paragraphs.
    destruct (negb (nonempty content) || (length (strip content) <? 50)).
    + destruct (nonempty (strip content)) eqn:Hne; [|constructor].
      constructor; [|constructor]. rewrite strip_idempotent.
      now apply nonempty_true.
    + destruct (paragraph_loop _ [] []) as [ps cur]. cbv zeta.
      apply Forall_forall. intros p Hp. apply filter_In in Hp as [_ Hp].
      apply andb_true_iff in Hp as [Hp _]. now apply nonempty_true.
  - intros H. unfold split_content_into_paragraphs.
    rewrite (strip_spaces content H). cbn [length nonempty].
    replace (0 <? 50) with true by reflexivity. now rewrite orb_true_r.
Qed.

Lemma paragraphs_nonblank (content : str) :
  Forall (fun p => nonempty (strip p) = true)
         (split_content_into_paragraphs content).
Proof.
  unfold split_content_into_paragraphs.
  destruct (negb (nonempty content) || (length (strip content) <? 50)).
  - destruct (nonempty (strip content)) eqn:Hne; [|constructor].
    constructor; [|constructor]. now rewrite strip_idempotent.
  - destruct (paragraph_loop _ [] []) as [ps cur]. cbv zeta.
    apply Forall_forall. intros p Hp. apply filter_In in Hp as [_ Hp].
    now apply andb_true_iff in Hp as [Hp _].
Qed.

Lemma para_elements_texts (ps : list str) :
  Forall (fun p => nonempty (strip p) = true) ps ->
  flat_map para_texts (para_elements ps) = map strip ps.
Proof.
  unfold para_elements. induction 1 as [|p ps Hp _ IH]; [reflexivity|].
  cbn [flat_map map]. rewrite Hp, flat_map_app, IH. reflexivity.
Qed.

(** The groups of four, put end to end, are the paragraphs. *)
Lemma groups_prefix {A : Type} (l : list A) (m : nat) :
  concat (map (fun k => firstn 4 (skipn (k * 4) l)) (seq 0 m))
  = firstn (m * 4) l.
Proof.
  induction m as [|m IH]; [reflexivity|].
  rewrite seq_S, map_app, concat_app, IH. cbn [map concat Nat.add].
  rewrite app_nil_r.
  replace (S m * 4) with (m * 4 + 4) by lia.
  rewrite <- (firstn_skipn (m * 4) (firstn (m * 4 + 4) l)).
  rewrite firstn_firstn, Nat.min_l by lia. f_equal.
  rewrite skipn_firstn_comm. f_equal. lia.
Qed.

Lemma paragraph_groups_concat (ps : list str) :
  concat (paragraph_groups ps) = ps.
Proof.
  unfold paragraph_groups. cbv zeta. rewrite groups_prefix.
  apply firstn_all2.
  pose proof (Nat.div_mod_eq (length ps + 4 - 1) 4) as H.
  pose proof (Nat.mod_upper_bound (length ps + 4 - 1) 4) as Hm. lia.
Qed.

Lemma paragraph_groups_sizes (ps : list str) :
  Forall (fun g => 1 <= length g <= 4) (paragraph_groups ps) /\
  forall k, S k < length (paragraph_groups ps) ->
            length (nth k (paragraph_groups ps) []) = 4.
Proof.
  unfold paragraph_groups. cbv zeta.
  set (m := (length ps + 4 - 1) / 4).
  assert (Hm : (m - 1) * 4 < length ps \/ m = 0).
  { pose proof (Nat.div_mod_eq (length ps + 4 - 1) 4) as H.
    pose proof (Nat.mod_upper_bound (length ps + 4 - 1) 4) as Hu.
    fold m in H. lia. }
  split.
  - apply Forall_forall. intros g Hg. apply in_map_iff in Hg as (k & <- & Hk).
    apply in_seq in Hk. rewrite length_firstn, length_skipn. lia.
  - intros k Hk. rewrite length_map, length_seq in Hk.
    rewrite (nth_indep _ [] (firstn 4 (skipn (0 * 4) ps)))
      by (rewrite length_map, length_seq; lia).
    rewrite (map_nth (fun k => firstn 4 (skipn (k * 4) ps)) (seq 0 m) 0 k).
    rewrite seq_nth by lia. rewrite length_firstn, length_skipn.
    pose proof (Nat.div_mod_eq (length ps + 4 - 1) 4) as H.
    pose proof (Nat.mod_upper_bound (length ps + 4 - 1) 4) as Hu.
    fold m in H. lia.
Qed.

Lemma subsections_texts_from (groups : list (list str)) (main_title : str)
  (start : nat) :
  Forall (Forall (fun p => nonempty (strip p) = true)) groups ->
  flat_map para_texts
    (map (fun '(i, group) =>
            Element (py "subSection")
                    (set_all [("id", py "subsection-" ++ str_of_nat i)])
                    None
                    (Element (py "title") []
                             (Some (main_title ++ bolum ++ str_of_nat i)) []
                     :: para_elements group))
         (combine (seq start (length groups)) groups))
  = map strip (concat groups).
Proof.
  intros Hgroups. revert start.
  induction Hgroups as [|g gs Hg _ IH]; intros start; [reflexivity|].
  cbn [length seq combine map flat_map concat].
  rewrite map_app, <- (IH (S start)). f_equal.
  cbn [para_texts].
  replace (str_eqb (py "subSection") (py "para")) with false by reflexivity.
  cbn [app flat_map para_texts].
  replace (str_eqb (py "title") (py "para")) with false by reflexivity.
  cbn [app]. now apply para_elements_texts.
Qed.

Lemma subsections_texts (ps : list str) (main_title : str) :
  Forall (fun p => nonempty (strip p) = true) ps ->
  flat_map para_texts (create_subsection_structure ps main_title)
  = map strip ps.
Proof.
  intros Hps. unfold create_subsection_structure. cbv zeta.
  rewrite subsections_texts_from; [now rewrite paragraph_groups_concat|].
  apply Forall_forall. intros g Hg. apply Forall_forall. intros p Hp.
  rewrite Forall_forall in Hps. apply Hps.
  rewrite <- (paragraph_groups_concat ps). apply in_concat. now exists g.
Qed.

(** X16.  The document of a section holds one [para] element for each
    paragraph of its content, in order and with the paragraph's text
    stripped, whether the paragraphs are put under the description or, when
    there are more than eight, in subsections: none is lost, repeated or
    moved. *)
Theorem document_holds_every_paragraph (today : str) (s : section)
  (dm_number total_dms : nat) :
  para_texts (create_smart_s1000d_dm today s dm_number total_dms)
  = map strip (split_content_into_paragraphs (content s)).
Proof.
  unfold create_smart_s1000d_dm. cbv zeta.
  pose proof (paragraphs_nonblank (content s)) as Hps.
  set (ps := split_content_into_paragraphs (content s)) in *.
  set (body := if 8 <? length ps
               then create_subsection_structure ps (title s)
               else para_elements ps).
  assert (Hbody : flat_map para_texts body = map strip ps).
  { unfold body. destruct (8 <? length ps);
      [now apply subsections_texts | now apply para_elements_texts]. }
  cbn [para_texts flat_map].
  repeat match goal with
         | |- context [str_eqb (py ?a) (py "para")] =>
             replace (str_eqb (py a) (py "para")) with false by reflexivity
         end.
  cbn [app]. rewrite !app_nil_r.
  cbn [flat_map]. rewrite flat_map_app, Hbody.
  transitivity ([] ++ map strip ps ++ []);
    [reflexivity | now rewrite app_nil_r].
Qed.

(** ** Subsections and module information *)

Lemma subsections_shape (groups : list (list str)) (main_title : str)
  (start : nat) :
  let subs :=
    map (fun '(i, group) =>
           Element (py "subSection")
                   (set_all [("id", py "subsection-" ++ str_of_nat i)])
                   None
                   (Element (py "title") []
                            (Some (main_title ++ bolum ++ str_of_nat i)) []
                    :: para_elements group))
        (combine (seq start (length groups)) groups) in
  map (fun sub => (xml_tag sub, attr_get (xml_attrib sub) (py "id"),
                   option_map xml_text (hd_error (xml_children sub)),
                   tl (xml_children sub))) subs
  = map (fun '(i, group) =>
           (py "subSection", Some (py "subsection-" ++ str_of_nat i),
            Some (Some (main_title ++ bolum ++ str_of_nat i)),
            para_elements group))
        (combine (seq start (length groups)) groups).
Proof.
  cbv zeta. revert start. induction groups as [|g gs IH]; intros start;
    [reflexivity|].
  cbn [length seq combine map]. now rewrite IH.
Qed.

(** X17.  [create_subsection_structure] puts the paragraphs it is given in
    subsections of four: the subsections are numbered from 1 in their
    [id] and in their title, each holds a title and the [para] elements of
    one group, the groups put end to end are the paragraphs, every group
    has one to four paragraphs and every group but the last has four. *)
Theorem subsections_partition (paragraphs : list str) (main_title : str) :
  map (fun sub => (xml_tag sub, attr_get (xml_attrib sub) (py "id"),
                   option_map xml_text (hd_error (xml_children sub)),
                   tl (xml_children sub)))
      (create_subsection_structure paragraphs main_title)
  = map (fun '(i, group) =>
           (py "subSection", Some (py "subsection-" ++ str_of_nat i),
            Some (Some (main_title ++ bolum ++ str_of_nat i)),
            para_elements group))
        (combine (seq 1 (length (paragraph_groups paragraphs)))
                 (paragraph_groups paragraphs)) /\
  length (create_subsection_structure paragraphs main_title)
  = (length paragraphs + 3) / 4 /\
  concat (paragraph_groups paragraphs) = paragraphs /\
  Forall (fun g => 1 <= length g <= 4) (paragraph_groups paragraphs) /\
  (forall k, S k < length (paragraph_groups paragraphs) ->
             length (nth k (paragraph_groups paragraphs) []) = 4).
Proof.
  split; [apply subsections_shape|].
  split.
  { unfold create_subsection_structure. cbv zeta.
    rewrite length_map, length_combine, length_seq, Nat.min_id.
    unfold paragraph_groups. cbv zeta. rewrite length_map, length_seq.
    f_equal. lia. }
  split; [apply paragraph_groups_concat|]. apply paragraph_groups_sizes.
Qed.

Lemma find_skip {A : Type} (f : A -> bool) (a b : list A) :
  Forall (fun x => f x = false) a -> find f (a ++ b) = find f b.
Proof.
  induction 1 as [|x a Hx _ IH]; [reflexivity|]. simpl. now rewrite Hx.
Qed.

Lemma para_elements_tags (ps : list str) :
  Forall (fun x => xml_tag x = py "para") (para_elements ps).
Proof.
  unfold para_elements. induction ps as [|p ps IH]; [constructor|].
  cbn [flat_map]. apply Forall_app. split; [|exact IH].
  destruct (nonempty (strip p)); repeat constructor.
Qed.

Lemma subsections_tags (ps : list str) (main_title : str) :
  Forall (fun x => xml_tag x = py "subSection")
         (create_subsection_structure ps main_title).
Proof.
  unfold create_subsection_structure. cbv zeta.
  apply Forall_forall. intros x Hx. apply in_map_iff in Hx as ([i g] & <- & _).
  reflexivity.
Qed.

Lemma module_info_attrs (v1 v2 v3 v4 v5 v6 v7 : str) :
  let attrib :=
    set_all [("moduleNumber", v1); ("totalModules", v2); ("sourcePage", v3);
             ("contentType", v4); ("applicability", v5); ("hasGraphics", v6);
             ("contentSummary", v7)] in
  attr_get attrib (py "moduleNumber") = Some v1 /\
  attr_get attrib (py "totalModules") = Some v2 /\
  attr_get attrib (py "sourcePage") = Some v3 /\
  attr_get attrib (py "contentType") = Some v4 /\
  attr_get attrib (py "applicability") = Some v5 /\
  attr_get attrib (py "hasGraphics") = Some v6 /\
  attr_get attrib (py "contentSummary") = Some v7.
Proof. cbv zeta. repeat split; reflexivity. Qed.

(** X18.  The document of a section has a [moduleInfo] element under
    [content/description], whatever the paragraphs before it, and what it
    says can be read back: the module number and the number of modules as
    integers, the source page as the start page when the section starts
    and ends on one page and as "start-end" otherwise, the content type,
    the applicability, the graphics flag as "true" or "false", and the
    summary cut to 200 characters. *)
Theorem module_info_reads_back (today : str) (s : section)
  (dm_number total_dms : nat) :
  exists info,
    xml_path ["content"; "description"; "moduleInfo"]
             (create_smart_s1000d_dm today s dm_number total_dms)
    = Some info /\
    attr_int info "moduleNumber" = Some (Z.of_nat dm_number) /\
    attr_int info "totalModules" = Some (Z.of_nat total_dms) /\
    (start_page s = end_page s ->
     attr_int info "sourcePage" = Some (start_page s)) /\
    (start_page s <> end_page s ->
     attr_get (xml_attrib info) (py "sourcePage")
     = Some (str_of_Z (start_page s) ++ py "-" ++ str_of_Z (end_page s))) /\
    attr_get (xml_attrib info) (py "contentType")
    = Some (content_type_name (detect_content_type s)) /\
    attr_get (xml_attrib info) (py "applicability")
    = Some (applic_text (applicability s)) /\
    attr_get (xml_attrib info) (py "hasGraphics")
    = Some (if has_graphics s then py "true" else py "false") /\
    exists summary,
      attr_get (xml_attrib info) (py "contentSummary") = Some summary /\
      summary = firstn 200 (content_summary s) /\ length summary <= 200.
Proof.
  unfold create_smart_s1000d_dm. cbv zeta.
  set (ps := split_content_into_paragraphs (content s)).
  set (body := if 8 <? length ps
               then create_subsection_structure ps (title s)
               else para_elements ps).
  assert (Hbody : Forall (fun x => str_eqb (xml_tag x) (py "moduleInfo") = false)
                         body).
  { unfold body. destruct (8 <? length ps).
    - eapply Forall_impl; [|apply subsections_tags]. now intros x ->.
    - eapply Forall_impl; [|apply para_elements_tags]. now intros x ->. }
  set (source_page := if (start_page s =? end_page s)%Z
                      then str_of_Z (start_page s)
                      else str_of_Z (start_page s) ++ py "-"
                           ++ str_of_Z (end_page s)).
  destruct (module_info_attrs (format_0d 3 dm_number) (format_0d 3 total_dms)
              source_page (content_type_name (detect_content_type s))
              (applic_text (applicability s))
              (if has_graphics s then py "true" else py "false")
              (firstn 200 (content_summary s)))
    as (A1 & A2 & A3 & A4 & A5 & A6 & A7).
  eexists. split.
  { cbn [xml_path]. unfold xml_find at 1. cbn [xml_children find xml_tag].
    replace (str_eqb (py "dmStatus") (py "content")) with false by reflexivity.
    replace (str_eqb (py "content") (py "content")) with true by reflexivity.
    unfold xml_find at 1. cbn [xml_children find xml_tag].
    replace (str_eqb (py "description") (py "description")) with true
      by reflexivity.
    unfold xml_find. cbn [xml_children].
    cbn [app find xml_tag].
    replace (str_eqb (py "title") (py "moduleInfo")) with false by reflexivity.
    rewrite (find_skip _ body _ Hbody). cbn [find xml_tag].
    replace (str_eqb (py "applic") (py "moduleInfo")) with false by reflexivity.
    replace (str_eqb (py "moduleInfo") (py "moduleInfo")) with true
      by reflexivity.
    reflexivity. }
  unfold attr_int. cbn [xml_attrib].
  split; [exact (py_int_format_0d 3 dm_number)|].
  split; [exact (py_int_format_0d 3 total_dms)|].
  split.
  { intros E. change (py_int source_page = Some (start_page s)).
    unfold source_page. rewrite E, Z.eqb_refl. apply py_int_str_of_Z. }
  split.
  { intros E.
    change (Some source_page
            = Some (str_of_Z (start_page s) ++ py "-"
                    ++ str_of_Z (end_page s))).
    unfold source_page. apply Z.eqb_neq in E. now rewrite E. }
  split; [exact A4|]. split; [exact A5|]. split; [exact A6|].
  eexists. split; [exact A7|]. split; [reflexivity|]. apply firstn_le_length.
Qed.

(** ** Module types and module codes *)

Ltac split_on_keywords :=
  repeat match goal with
         | |- context [has ?kw ?u] =>
             destruct (has kw u) eqn:?; cbn [orb andb]
         end.

Lemma startswith_prefix (a b s : str) :
  startswith (a ++ b) s = true -> startswith a s = true.
Proof.
  revert s. induction a as [|x a IH]; intros s H; [reflexivity|].
  destruct s as [|y s]; [discriminate H|]. cbn [app startswith] in *.
  apply andb_true_iff in H as [H1 H2]. now rewrite H1, (IH s H2).
Qed.

Lemma contains_prefix (a b s : str) :
  contains (a ++ b) s = true -> contains a s = true.
Proof.
  induction s as [|c s IH]; cbn [contains]; intros H;
    apply orb_true_iff in H as [H | H].
  - now rewrite (startswith_prefix a b [] H).
  - discriminate H.
  - now rewrite (startswith_prefix a b (c :: s) H).
  - rewrite (IH H). apply orb_true_r.
Qed.

Lemma module_codes_injective (a b : module_type) :
  dict_get module_codes a (py "DMC-GN016")
  = dict_get module_codes b (py "DMC-GN016") -> a = b.
Proof.
  destruct a, b; intros H; try reflexivity; vm_compute in H; discriminate H.
Qed.

(** X19.  The code a title is filed under is the entry of [module_codes]
    for the type of the title, so the default of the look-up is never
    used, and the code tells the type.  No title is filed as [EMERGENCY],
    whose code "DMC-EM015" is never given; a title that names POWER is
    filed under flight control or engine, never under electrical; and a
    title filed under electrical names ELECTRIC. *)
Theorem module_code_of_title (title : str) :
  In (detect_module_type title, code_of_title title) module_codes /\
  detect_module_type title <> EMERGENCY /\
  code_of_title title <> py "DMC-EM015" /\
  (has "POWER" (upper title) = true ->
   detect_module_type title = FLIGHT_CONTROL \/
   detect_module_type title = ENGINE_SYSTEM) /\
  (detect_module_type title = ELECTRICAL ->
   has "ELECTRIC" (upper title) = true) /\
  (forall other, code_of_title other = code_of_title title ->
                 detect_module_type other = detect_module_type title).
Proof.
  assert (Hnever : detect_module_type title <> EMERGENCY).
  { unfold detect_module_type. cbv zeta. split_on_keywords; discriminate. }
  split.
  { unfold code_of_title. destruct (detect_module_type title); in_list. }
  split; [exact Hnever|]. split.
  { unfold code_of_title.
    destruct (detect_module_type title); try (vm_compute; discriminate).
    now elim Hnever. }
  split.
  { intros Hpower. unfold detect_module_type. cbv zeta. rewrite Hpower.
    destruct (has "FLIGHT" (upper title) || has "CONTROL" (upper title)
              || has "DIGITAL" (upper title)); [now left|].
    right. now rewrite orb_true_r. }
  split.
  { unfold detect_module_type. cbv zeta. intros H.
    destruct (has "ELECTRIC" (upper title)) eqn:He; [reflexivity|].
    assert (Hal : has "ELECTRICAL" (upper title) = false).
    { destruct (has "ELECTRICAL" (upper title)) eqn:Hal; [|reflexivity].
      apply (contains_prefix (py "ELECTRIC") (py "AL")) in Hal.
      unfold has in He. congruence. }
    rewrite Hal in H. revert H. split_on_keywords; discriminate. }
  intros other H. now apply module_codes_injective.
Qed.

(** ** Letter case *)

Lemma upper_char_high (c : char) : (352 <= c)%N -> upper_char c = c.
Proof.
  intros H. unfold upper_char, is_az, between.
  rewrite (proj2 (N.leb_gt c 122)) by lia. rewrite andb_false_r.
  repeat match goal with
         | |- context [(c =? ?k)%N] =>
             rewrite (proj2 (N.eqb_neq c k)) by lia
         end.
  reflexivity.
Qed.

Lemma upper_char_idempotent (c : char) :
  upper_char (upper_char c) = upper_char c.
Proof.
  destruct (N.lt_ge_cases c 352) as [H | H].
  - assert (Hall : forallb (fun n => (upper_char (upper_char (N.of_nat n))
                                      =? upper_char (N.of_nat n))%N)
                           (seq 0 352) = true) by (vm_compute; reflexivity).
    rewrite forallb_forall in Hall.
    specialize (Hall (N.to_nat c)). rewrite N2Nat.id in Hall.
    apply N.eqb_eq, Hall, in_seq. lia.
  - now rewrite !(upper_char_high c H).
Qed.

Lemma upper_idempotent (s : str) : upper (upper s) = upper s.
Proof.
  unfold upper. rewrite map_map. apply map_ext, upper_char_idempotent.
Qed.

(** X20.  The classifiers read their input through [upper], so they do not
    see letter case: the module type of a title, the applicability and the
    graphics flag of a content and the content type of a section are those
    of the same text in capitals. *)
Theorem classifiers_ignore_case (title content : str) :
  detect_module_type (upper title) = detect_module_type title /\
  detect_applicability (upper content) = detect_applicability content /\
  detect_graphics (upper content) = detect_graphics content /\
  detect_content_type_of (upper title) (upper content)
  = detect_content_type_of title content.
Proof.
  unfold detect_module_type, detect_applicability, detect_graphics,
    detect_content_type_of.
  cbv zeta. now rewrite !upper_idempotent.
Qed.

(** ** The module list and the documents *)

Lemma Forall2_map_both {A B C : Type} (R : B -> C -> Prop) (f : A -> B)
  (g : A -> C) (l : list A) :
  (forall x, In x l -> R (f x) (g x)) -> Forall2 R (map f l) (map g l).
Proof.
  induction l as [|x l IH]; intros H; [constructor|].
  cbn [map]. constructor; [apply H; now left|].
  apply IH. intros y Hy. apply H. now right.
Qed.

(** The [moduleInfo] element of a document. *)
Lemma module_info_element (today : str) (s : section)
  (dm_number total_dms : nat) :
  xml_path ["content"; "description"; "moduleInfo"]
           (create_smart_s1000d_dm today s dm_number total_dms)
  = Some (Element (py "moduleInfo")
            (set_all
               [("moduleNumber", format_0d 3 dm_number);
                ("totalModules", format_0d 3 total_dms);
                ("sourcePage",
                 if (start_page s =? end_page s)%Z
                 then str_of_Z (start_page s)
                 else str_of_Z (start_page s) ++ py "-"
                      ++ str_of_Z (end_page s));
                ("contentType", content_type_name (detect_content_type s));
                ("applicability", applic_text (applicability s));
                ("hasGraphics",
                 if has_graphics s then py "true" else py "false");
                ("contentSummary", firstn 200 (content_summary s))])
            None []).
Proof.
  unfold create_smart_s1000d_dm. cbv zeta.
  set (ps := split_content_into_paragraphs (content s)).
  set (body := if 8 <? length ps
               then create_subsection_structure ps (title s)
               else para_elements ps).
  assert (Hbody : Forall (fun x => str_eqb (xml_tag x) (py "moduleInfo") = false)
                         body).
  { unfold body. destruct (8 <? length ps).
    - eapply Forall_impl; [|apply subsections_tags]. now intros x ->.
    - eapply Forall_impl; [|apply para_elements_tags]. now intros x ->. }
  cbn [xml_path]. unfold xml_find at 1. cbn [xml_children find xml_tag].
  replace (str_eqb (py "dmStatus") (py "content")) with false by reflexivity.
  replace (str_eqb (py "content") (py "content")) with true by reflexivity.
  unfold xml_find at 1. cbn [xml_children find xml_tag].
  replace (str_eqb (py "description") (py "description")) with true
    by reflexivity.
  unfold xml_find. cbn [xml_children].
  cbn [app find xml_tag].
  replace (str_eqb (py "title") (py "moduleInfo")) with false by reflexivity.
  rewrite (find_skip _ body _ Hbody). cbn [find xml_tag].
  replace (str_eqb (py "applic") (py "moduleInfo")) with false by reflexivity.
  replace (str_eqb (py "moduleInfo") (py "moduleInfo")) with true
    by reflexivity.
  reflexivity.
Qed.

(** The [ident] element of a document carries the module code of the
    section. *)
Lemma ident_element (today : str) (s : section) (dm_number total_dms : nat) :
  exists ident,
    xml_path ["dmStatus"; "ident"]
             (create_smart_s1000d_dm today s dm_number total_dms)
    = Some ident /\
    attr_get (xml_attrib ident) (py "subSystemCode") = Some (module_code s).
Proof.
  unfold create_smart_s1000d_dm. cbv zeta. eexists. split.
  - cbn [xml_path]. unfold xml_find. cbn [xml_children find xml_tag].
    replace (str_eqb (py "dmStatus") (py "dmStatus")) with true by reflexivity.
    cbn [xml_children find xml_tag].
    replace (str_eqb (py "ident") (py "ident")) with true by reflexivity.
    reflexivity.
  - reflexivity.
Qed.

(** X21.  The module list of a run and its documents agree: row by row and
    in the same order, the file name of the row is the name the document is
    written to, the number of the row is the module number of the document,
    and its page range, content type and module code are the source page,
    the content type and the sub-system code the document carries. *)
Theorem module_list_matches_documents (today : str)
  (pages : list (option str)) :
  match process_smart_pdf today pages with
  | Some modules =>
      Forall2 row_matches
        (module_list_rows
           (merge_short_sections (extract_smart_sections pages)))
        modules
  | None => extract_smart_sections pages = []
  end.
Proof.
  unfold process_smart_pdf. cbv zeta.
  destruct (extract_smart_sections pages) as [|s0 ss0] eqn:E; [reflexivity|].
  cbn [nonempty negb]. unfold module_list_rows.
  apply Forall2_map_both. intros [i s] _.
  unfold row_matches. cbn [row_filename fst snd row_number row_page_range
                           row_content_type row_module_code].
  split; [reflexivity|].
  destruct (ident_element today s i
              (length (merge_short_sections (s0 :: ss0)))) as (ident & Hi & Hc).
  eexists. exists ident.
  split; [apply module_info_element|]. split; [exact Hi|].
  split; [exact (py_int_format_0d 3 i)|]. split.
  { unfold page_range.
    change (Some (if (start_page s =? end_page s)%Z
                  then str_of_Z (start_page s)
                  else str_of_Z (start_page s) ++ py "-"
                       ++ str_of_Z (end_page s))
            = Some (if negb (start_page s =? end_page s)%Z
                    then str_of_Z (start_page s) ++ py "-"
                         ++ str_of_Z (end_page s)
                    else str_of_Z (start_page s))).
    now destruct (start_page s =? end_page s)%Z. }
  split; [reflexivity | exact Hc].
Qed.

(** ** The statistics of the report *)

Lemma types_add_keys (groups : list (module_type * list created_module))
  (m : created_module) :
  map fst (types_add groups m)
  = if in_dec module_type_eq_dec (cm_section_type m) (map fst groups)
    then map fst groups
    else map fst groups ++ [cm_section_type m].
Proof.
  induction groups as [|[k ms] groups IH]; [reflexivity|].
  cbn [types_add map fst]. destruct (module_type_eq_dec k (cm_section_type m))
    as [Hk | Hk].
  - cbn [map fst].
    destruct (in_dec module_type_eq_dec (cm_section_type m)
                     (k :: map fst groups)) as [_ | Hn]; [reflexivity|].
    elim Hn. now left.
  - cbn [map fst]. rewrite IH.
    destruct (in_dec module_type_eq_dec (cm_section_type m) (map fst groups))
      as [Hin | Hn];
      destruct (in_dec module_type_eq_dec (cm_section_type m)
                       (k :: map fst groups)) as [Hin' | Hn'];
      try reflexivity.
    + elim Hn'. now right.
    + destruct Hin' as [Hk' | Hin']; contradiction.
Qed.

Lemma NoDup_snoc {A : Type} (l : list A) (x : A) :
  NoDup l -> ~ In x l -> NoDup (l ++ [x]).
Proof.
  induction 1 as [|y l Hy Hl IH]; intros Hx; cbn [app].
  - constructor; [intros [] | constructor].
  - constructor.
    + intros Hin. apply in_app_or in Hin as [Hin | [Hin | []]];
        [contradiction | subst; apply Hx; now left].
    + apply IH. intros Hin. apply Hx. now right.
Qed.

Lemma types_add_groups (f : module_type -> list created_module)
  (groups : list (module_type * list created_module)) (m : created_module) :
  NoDup (map fst groups) ->
  (forall k ms, In (k, ms) groups -> ms = f k /\ ms <> []) ->
  (~ In (cm_section_type m) (map fst groups) -> f (cm_section_type m) = []) ->
  forall k ms,
    In (k, ms) (types_add groups m) ->
    ms = f k ++ (if module_type_eq_dec (cm_section_type m) k then [m] else [])
    /\ ms <> [].
Proof.
  induction groups as [|[k0 ms0] groups IH]; intros Hnd Hgroups Hnew k ms Hin.
  - destruct Hin as [Hin | []]. injection Hin as <- <-.
    rewrite Hnew by (intros []).
    destruct (module_type_eq_dec _ _) as [_ | Hn]; [|now elim Hn].
    split; [reflexivity | discriminate].
  - cbn [map fst] in Hnd. inversion Hnd as [|? ? Hk0 Hnd']; subst.
    cbn [types_add] in Hin.
    destruct (module_type_eq_dec k0 (cm_section_type m)) as [Hk | Hk].
    + destruct Hin as [Hin | Hin].
      * injection Hin as <- <-.
        destruct (Hgroups k0 ms0) as [-> _]; [now left|].
        destruct (module_type_eq_dec _ _) as [_ | Hn]; [|now elim Hn].
        split; [reflexivity|]. now destruct (f k0).
      * destruct (Hgroups k ms) as [-> Hne]; [now right|].
        destruct (module_type_eq_dec _ _) as [He | _].
        -- elim Hk0. rewrite Hk, He.
           change k with (fst (k, f k)). now apply in_map.
        -- now rewrite app_nil_r.
    + destruct Hin as [Hin | Hin].
      * injection Hin as <- <-.
        destruct (Hgroups k0 ms0) as [-> Hne]; [now left|].
        destruct (module_type_eq_dec _ _) as [He | _]; [now elim Hk|].
        now rewrite app_nil_r.
      * apply (IH Hnd'); [| |exact Hin].
        -- intros k' ms' H'. apply Hgroups. now right.
        -- intros Hn. apply Hnew. cbn [map fst].
           intros [H0 | H0]; contradiction.
Qed.

Lemma types_add_sum (groups : list (module_type * list created_module))
  (m : created_module) :
  list_sum (map (fun g => length (snd g)) (types_add groups m))
  = S (list_sum (map (fun g => length (snd g)) groups)).
Proof.
  unfold list_sum. induction groups as [|[k ms] groups IH]; [reflexivity|].
  cbn [types_add]. destruct (module_type_eq_dec k (cm_section_type m)).
  - cbn [map fold_right snd]. rewrite length_app. cbn [length]. lia.
  - cbn [map fold_right snd]. rewrite IH. lia.
Qed.

Lemma of_type_app (k : module_type) (done : list created_module)
  (m : created_module) :
  of_type k (done ++ [m])
  = of_type k done
    ++ (if module_type_eq_dec (cm_section_type m) k then [m] else []).
Proof.
  unfold of_type. rewrite filter_app. cbn [filter].
  now destruct (module_type_eq_dec (cm_section_type m) k).
Qed.

Lemma types_add_ok (groups : list (module_type * list created_module))
  (done : list created_module) (m : created_module) :
  groups_ok groups done -> groups_ok (types_add groups m) (done ++ [m]).
Proof.
  intros (Hnd & Hgroups & Hkeys & Hsum). unfold groups_ok.
  rewrite types_add_keys, types_add_sum, length_app, Hsum.
  split; [|split; [|split]].
  - destruct (in_dec _ _ _) as [_ | Hn]; [exact Hnd | now apply NoDup_snoc].
  - intros k ms Hin. rewrite of_type_app.
    apply (types_add_groups (fun k => of_type k done) groups m Hnd Hgroups);
      [|exact Hin].
    intros Hn. unfold of_type.
    destruct (filter _ done) as [|m' l] eqn:Ef; [reflexivity|].
    assert (Hm' : In m' (filter (fun m0 =>
                     if module_type_eq_dec (cm_section_type m0)
                                           (cm_section_type m)
                     then true else false) done))
      by (rewrite Ef; now left).
    apply filter_In in Hm' as [Hm' Ht].
    destruct (module_type_eq_dec _ _) as [He | _]; [|discriminate Ht].
    elim Hn. rewrite <- He. now apply Hkeys.
  - intros m' Hin. apply in_app_or in Hin as [Hin | [<- | []]].
    + destruct (in_dec _ _ _); [now apply Hkeys|].
      apply in_or_app. left. now apply Hkeys.
    + destruct (in_dec _ _ _) as [Hi | _]; [exact Hi|].
      apply in_or_app. right. now left.
  - cbn [length]. lia.
Qed.

Lemma fold_types_ok (rest done : list created_module)
  (groups : list (module_type * list created_module)) :
  groups_ok groups done ->
  groups_ok (fold_left types_add rest groups) (done ++ rest).
Proof.
  revert done groups. induction rest as [|m rest IH]; intros done groups H.
  - now rewrite app_nil_r.
  - cbn [fold_left].
    replace (done ++ m :: rest) with ((done ++ [m]) ++ rest)
      by now rewrite <- app_assoc.
    apply IH. now apply types_add_ok.
Qed.

(** X22.  The statistics of the report name each module type once, with
    the number of modules of that type: no type is given with a count of
    zero, every module is counted under its type, and the counts add up to
    the number of modules. *)
Theorem report_statistics_partition (modules : list created_module) :
  NoDup (map fst (report_statistics modules)) /\
  (forall k n, In (k, n) (report_statistics modules) ->
               n = length (of_type k modules) /\ 0 < n) /\
  (forall m, In m modules ->
             In (cm_section_type m) (map fst (report_statistics modules))) /\
  list_sum (map snd (report_statistics modules)) = length modules.
Proof.
  assert (Hok : groups_ok (group_by_type modules) modules).
  { unfold group_by_type.
    apply (fold_types_ok modules [] []).
    split; [constructor|]. split; [intros k ms []|].
    split; [intros m []|reflexivity]. }
  destruct Hok as (Hnd & Hgroups & Hkeys & Hsum).
  assert (Hfst : map fst (report_statistics modules)
                 = map fst (group_by_type modules)).
  { unfold report_statistics. rewrite map_map. apply map_ext.
    now intros [k ms]. }
  rewrite Hfst. split; [exact Hnd|]. split; [|split; [exact Hkeys|]].
  - intros k n Hin. unfold report_statistics in Hin.
    apply in_map_iff in Hin as ([k' ms] & E & Hin). injection E as -> <-.
    destruct (Hgroups k ms Hin) as [<- Hne]. split; [reflexivity|].
    destruct ms; [now elim Hne | cbn [length]; lia].
  - rewrite <- Hsum. unfold report_statistics. rewrite map_map.
    f_equal. apply map_ext. now intros [k ms].
Qed.
